(** * PhishShield: detection engines and risk aggregator

    A shallow embedding of [backend/engines/*.py].  Python values are
    modelled as follows.

    - [str] is a sequence of Unicode code points ([list N]); literals are
      written as UTF-8 text and decoded by [py].
    - [int] is [Z]; [bool] is [bool]; a list is a [list].
    - [float] arithmetic is a parameter of the whole development (class
      [Arith]).  Two instances are given: [Exact], where a float is an
      exact rational, in which the general theorems are proved, and
      [Binary64], IEEE 754 binary64 as CPython evaluates it, in which the
      code can be run on concrete inputs.
    - A raised exception is a value of [result]; [try/except] is a match.
    - Functions of the Python standard library that the engines call but
      that are not part of the repository ([re], [urllib.parse], Unicode
      case mapping beyond ASCII, [format]) are variables of the sections
      that use them. *)

From Stdlib Require Import ZArith QArith Lqa String Ascii List Bool Lia.
From Stdlib Require Import Permutation Qminmax Sorted.
From Stdlib Require Import DecimalString Floats Uint63.
Import ListNotations.

Set Implicit Arguments.
Local Open Scope Z_scope.

(** ** Exceptions *)

Inductive exn : Type :=
| ZeroDivisionError
| ValueError
| OverflowError.

Inductive result (A : Type) : Type :=
| Ok (a : A)
| Raise (e : exn).

Arguments Ok {A} a.
Arguments Raise {A} e.

Definition bind {A B : Type} (r : result A) (k : A -> result B) : result B :=
  match r with
  | Ok a => k a
  | Raise e => Raise e
  end.

Notation "x <- e ;; k" := (bind e (fun x => k))
  (at level 61, e at next level, right associativity).

(** ** Python strings *)

Definition str : Type := list N.

(** UTF-8 text to code points. *)
Fixpoint py (s : string) : str :=
  let cont (a : ascii) : N := (N_of_ascii a - 128)%N in
  match s with
  | EmptyString => []
  | String a r =>
      let b := N_of_ascii a in
      if (b <? 128)%N then b :: py r
      else if (b <? 224)%N then
        match r with
        | String a1 r1 => ((b - 192) * 64 + cont a1)%N :: py r1
        | _ => []
        end
      else if (b <? 240)%N then
        match r with
        | String a1 (String a2 r2) =>
            ((b - 224) * 4096 + cont a1 * 64 + cont a2)%N :: py r2
        | _ => []
        end
      else
        match r with
        | String a1 (String a2 (String a3 r3)) =>
            ((b - 240) * 262144 + cont a1 * 4096 + cont a2 * 64 + cont a3)%N
              :: py r3
        | _ => []
        end
  end.

Definition str_eqb (a b : str) : bool :=
  if list_eq_dec N.eq_dec a b then true else false.

Lemma str_eqb_eq (a b : str) : str_eqb a b = true <-> a = b.
Proof.
  unfold str_eqb. destruct (list_eq_dec N.eq_dec a b); split; congruence.
Qed.

Lemma str_eqb_refl (a : str) : str_eqb a a = true.
Proof. now apply str_eqb_eq. Qed.

(** [x in xs] for a list of strings. *)
Definition mem (x : str) (xs : list str) : bool := existsb (str_eqb x) xs.

Lemma mem_In (x : str) (xs : list str) : mem x xs = true <-> In x xs.
Proof.
  unfold mem. rewrite existsb_exists. split.
  - intros [y [Hy He]]. apply str_eqb_eq in He. now subst.
  - intros H. exists x. split; [assumption | apply str_eqb_refl].
Qed.

(** [s.startswith(p)] *)
Fixpoint startswith (s p : str) : bool :=
  match p, s with
  | [], _ => true
  | _ :: _, [] => false
  | c :: p', d :: s' => N.eqb c d && startswith s' p'
  end.

(** [p in s] for strings: [p] occurs as a contiguous run of [s]. *)
Fixpoint contains (s p : str) : bool :=
  startswith s p ||
  match s with
  | [] => false
  | _ :: s' => contains s' p
  end.

(** [s.endswith(p)] *)
Definition endswith (s p : str) : bool := startswith (rev s) (rev p).

(** [s.count(c)] for a one-character [c]. *)
Definition count_char (s : str) (c : N) : Z :=
  Z.of_nat (length (filter (N.eqb c) s)).

(** [sep.join(parts)] *)
Fixpoint join (sep : str) (parts : list str) : str :=
  match parts with
  | [] => []
  | [p] => p
  | p :: rest => p ++ sep ++ join sep rest
  end.

(** [s.split(sep)] for a non-empty separator.  [fuel] bounds the scan
    and is the length of the string at the call. *)
Fixpoint split_aux (fuel : nat) (sep cur s : str) : list str :=
  match fuel with
  | O => [rev cur ++ s]
  | S fuel' =>
      match s with
      | [] => [rev cur]
      | c :: s' =>
          if startswith s sep
          then rev cur :: split_aux fuel' sep [] (skipn (length sep) s)
          else split_aux fuel' sep (c :: cur) s'
      end
  end.

Definition split (s sep : str) : list str :=
  split_aux (S (length s)) sep [] s.

(** [s.replace(old, new)] for a non-empty [old]. *)
Definition replace (s old new : str) : str := join new (split s old).

(** [str.isspace] on one code point. *)
Definition isspace (c : N) : bool :=
  ((9 <=? c) && (c <=? 13) || (28 <=? c) && (c <=? 32)
   || (c =? 133) || (c =? 160) || (c =? 5760)
   || (8192 <=? c) && (c <=? 8202)
   || (c =? 8232) || (c =? 8233) || (c =? 8239) || (c =? 8287)
   || (c =? 12288))%N.

Fixpoint lstrip (s : str) : str :=
  match s with
  | c :: s' => if isspace c then lstrip s' else s
  | [] => []
  end.

(** [s.strip()] *)
Definition strip (s : str) : str := rev (lstrip (rev (lstrip s))).

(** ASCII case mapping of one code point. *)
Definition ascii_lower (c : N) : N :=
  if ((65 <=? c) && (c <=? 90))%N then (c + 32)%N else c.

Definition ascii_upper (c : N) : N :=
  if ((97 <=? c) && (c <=? 122))%N then (c - 32)%N else c.

Definition is_ascii (s : str) : bool := forallb (fun c => (c <? 128)%N) s.

(** [str(n)] for an int. *)
Definition str_of_Z (n : Z) : str :=
  py (NilZero.string_of_int (Z.to_int n)).

(** [s.split()]: runs of whitespace separate the words. *)
Fixpoint split_ws_aux (cur s : str) : list str :=
  match s with
  | [] => match cur with [] => [] | _ => [rev cur] end
  | c :: s' =>
      if isspace c then
        match cur with
        | [] => split_ws_aux [] s'
        | _ => rev cur :: split_ws_aux [] s'
        end
      else split_ws_aux (c :: cur) s'
  end.

Definition split_ws (s : str) : list str := split_ws_aux [] s.

Definition is_ascii_letter (c : N) : bool :=
  ((65 <=? c) && (c <=? 90) || (97 <=? c) && (c <=? 122))%N.

(** [s.title()] on ASCII text. *)
Fixpoint title_aux (previous_is_cased : bool) (s : str) : str :=
  match s with
  | [] => []
  | c :: s' =>
      (if previous_is_cased then ascii_lower c else ascii_upper c)
        :: title_aux (is_ascii_letter c) s'
  end.

Definition title (s : str) : str := title_aux false s.

(** The double quote, which a literal cannot hold. *)
Definition dq : str := [34%N].

(** An element of the list [re.findall] returns: a string when the
    pattern has at most one group, a tuple of the groups otherwise. *)
Inductive Found : Type :=
| FStr (s : str)
| FTuple (t : list str).

(** The flags argument of the functions of [re]. *)
Inductive re_flags : Type :=
| NOFLAGS
| IGNORECASE
| DOTALL.

(** [s.lower()]: ASCII text is mapped here; text with other code points
    goes through the Unicode case mapping of the Python runtime. *)
Definition lower (unicode_lower : str -> str) (s : str) : str :=
  if is_ascii s then map ascii_lower s else unicode_lower s.

(** ** Python dicts, in insertion order *)

(** [d.get(k, default)] *)
Fixpoint dict_get {V : Type} (d : list (str * V)) (k : str) (default : V) : V :=
  match d with
  | [] => default
  | (k', v) :: d' => if str_eqb k k' then v else dict_get d' k default
  end.

(** [d[k] = v]: an existing key keeps its place. *)
Fixpoint dict_set {V : Type} (d : list (str * V)) (k : str) (v : V)
  : list (str * V) :=
  match d with
  | [] => [(k, v)]
  | (k', v') :: d' =>
      if str_eqb k k' then (k, v) :: d' else (k', v') :: dict_set d' k v
  end.

Definition get {V : Type} (o : option V) (default : V) : V :=
  match o with
  | Some v => v
  | None => default
  end.

Definition newline : str := [10%N].

(** [enumerate(xs, i)] *)
Fixpoint enumerate {T : Type} (i : Z) (xs : list T) : list (Z * T) :=
  match xs with
  | [] => []
  | x :: xs' => (i, x) :: enumerate (i + 1)%Z xs'
  end.

(** ** Float arithmetic *)

Class Arith : Type := {
  num : Type;
  (** the float nearest to the decimal [n/d]: a float literal *)
  dec : Z -> positive -> num;
  (** [float(n)] *)
  of_int : Z -> num;
  add : num -> num -> num;
  sub : num -> num -> num;
  mul : num -> num -> num;
  (** [x / y], which raises on a zero divisor *)
  div : num -> num -> result num;
  (** [x < y] and [x <= y] *)
  ltb : num -> num -> bool;
  leb : num -> num -> bool;
  (** [int(x)]: truncation toward zero *)
  to_int : num -> result Z
}.

Declare Scope num_scope.
Delimit Scope num_scope with num.
Notation "x + y" := (add x y) : num_scope.
Notation "x - y" := (sub x y) : num_scope.
Notation "x * y" := (mul x y) : num_scope.
Notation "x <? y" := (ltb x y) : num_scope.
Notation "x <=? y" := (leb x y) : num_scope.
Notation "x >? y" := (ltb y x) : num_scope.
Notation "x >=? y" := (leb y x) : num_scope.

Section PythonFloat.
Context {A : Arith}.
Local Open Scope num_scope.

(** [min(a, b)] and [max(a, b)] as the builtins compute them: the first
    argument is kept unless the second is strictly better. *)
Definition py_min (a b : num) : num := if b <? a then b else a.
Definition py_max (a b : num) : num := if b >? a then b else a.

(** [int(x * 10000) / 10000.0] *)
Definition round4 (x : num) : result num :=
  n <- to_int (x * of_int 10000) ;;
  div (of_int n) (dec 10000 1).

(** [min(max(x, 0.0), 1.0)] *)
Definition clamp01 (x : num) : num := py_min (py_max x (dec 0 1)) (dec 1 1).
End PythonFloat.

(** *** Exact arithmetic *)

Definition Qltb (x y : Q) : bool := negb (Qle_bool y x).

Definition Qtrunc (x : Q) : Z := Z.quot (Qnum x) (Zpos (Qden x)).

Definition Qdiv_py (x y : Q) : result Q :=
  if Qeq_bool y 0 then Raise ZeroDivisionError else Ok (x / y)%Q.

#[export] Instance Exact : Arith := {|
  num := Q;
  dec := Qmake;
  of_int := inject_Z;
  add := Qplus;
  sub := Qminus;
  mul := Qmult;
  div := Qdiv_py;
  ltb := Qltb;
  leb := Qle_bool;
  to_int := fun x => Ok (Qtrunc x)
|}.

(** *** IEEE 754 binary64 *)

Definition float_of_Z (n : Z) : float :=
  if n <? 0 then PrimFloat.opp (PrimFloat.of_uint63 (Uint63.of_Z (- n)))
  else PrimFloat.of_uint63 (Uint63.of_Z n).

Definition float_to_int (x : float) : result Z :=
  match Prim2SF x with
  | S754_zero _ => Ok 0
  | S754_infinity _ => Raise OverflowError
  | S754_nan => Raise ValueError
  | S754_finite s m e =>
      let v := if 0 <=? e then Zpos m * 2 ^ e else Zpos m / 2 ^ (- e) in
      Ok (if s then - v else v)
  end.

Definition float_div_py (x y : float) : result float :=
  if PrimFloat.eqb y 0%float then Raise ZeroDivisionError
  else Ok (PrimFloat.div x y).

#[export] Instance Binary64 : Arith := {|
  num := float;
  dec := fun n d => PrimFloat.div (float_of_Z n) (float_of_Z (Zpos d));
  of_int := float_of_Z;
  add := PrimFloat.add;
  sub := PrimFloat.sub;
  mul := PrimFloat.mul;
  div := float_div_py;
  ltb := PrimFloat.ltb;
  leb := PrimFloat.leb;
  to_int := float_to_int
|}.

(** ** risk_scorer.py *)

Module RiskScorer.
Section RiskScorer.
Context {A : Arith}.
Local Open Scope num_scope.

(** [format(x, ".0%")], from the Python standard library. *)
Variable format_percent : num -> str.

Record RiskInfo : Type := {
  level : str;
  color : str;
  icon : str
}.

Definition SAFE : RiskInfo :=
  {| level := py "SAFE"; color := py "#22c55e"; icon := py "✅" |}.
Definition LOW : RiskInfo :=
  {| level := py "LOW"; color := py "#84cc16"; icon := py "🟢" |}.
Definition MEDIUM : RiskInfo :=
  {| level := py "MEDIUM"; color := py "#eab308"; icon := py "🟡" |}.
Definition HIGH : RiskInfo :=
  {| level := py "HIGH"; color := py "#f97316"; icon := py "🟠" |}.
Definition CRITICAL : RiskInfo :=
  {| level := py "CRITICAL"; color := py "#ef4444"; icon := py "🔴" |}.

(** The dict [RISK_LEVELS], in insertion order. *)
Definition RISK_LEVELS : list ((num * num) * RiskInfo) :=
  [ ((dec 0 1, dec 2 10), SAFE);
    ((dec 2 10, dec 4 10), LOW);
    ((dec 4 10, dec 6 10), MEDIUM);
    ((dec 6 10, dec 8 10), HIGH);
    ((dec 8 10, dec 101 100), CRITICAL) ].

(** The dict [ENGINE_WEIGHTS]. *)
Definition ENGINE_WEIGHTS : list (str * num) :=
  [ (py "url_analyzer", dec 30 100);
    (py "nlp_engine", dec 25 100);
    (py "domain_checker", dec 25 100);
    (py "visual_engine", dec 20 100) ].

(** What [calculate_risk] reads of an engine's result dict; a key may be
    missing. *)
Record EngineResult : Type := {
  engine : option str;
  score : option num;
  reasons : option (list str)
}.

Record EngineScore : Type := {
  es_score : num;
  es_weight : num
}.

Record RiskAssessment : Type := {
  risk_score : num;
  risk_level : str;
  risk_color : str;
  risk_icon : str;
  is_phishing : bool;
  engine_scores : list (str * EngineScore);
  risk_reasons : list str;
  explanation : str;
  recommendation : str
}.

(** The four accumulators of the loop of [calculate_risk]. *)
Record Acc : Type := {
  weighted_score : num;
  total_weight : num;
  all_reasons : list str;
  acc_engine_scores : list (str * EngineScore)
}.

Definition acc0 : Acc :=
  {| weighted_score := dec 0 1; total_weight := dec 0 1;
     all_reasons := []; acc_engine_scores := [] |}.

Definition step (a : Acc) (result : EngineResult) : Acc :=
  let engine := get (engine result) (py "unknown") in
  let score := get (score result) (dec 0 1) in
  let reasons := get (reasons result) [] in
  let weight := dict_get ENGINE_WEIGHTS engine (dec 15 100) in
  {| weighted_score := weighted_score a + score * weight;
     total_weight := total_weight a + weight;
     all_reasons := all_reasons a ++ reasons;
     acc_engine_scores :=
       dict_set (acc_engine_scores a) engine
                {| es_score := score; es_weight := weight |} |}.

Fixpoint find_level (items : list ((num * num) * RiskInfo)) (score : num)
  : option RiskInfo :=
  match items with
  | [] => None
  | ((low, high), info) :: rest =>
      if (low <=? score) && (score <? high) then Some info
      else find_level rest score
  end.

Definition _get_risk_level (score : num) : RiskInfo :=
  match find_level RISK_LEVELS score with
  | Some info => info
  | None => CRITICAL
  end.

Definition _get_recommendation (score : num) : str :=
  if score >? dec 8 10 then
    py "🚨 CRITICAL: Do NOT interact. Report as phishing immediately."
  else if score >? dec 6 10 then
    py "⚠️ HIGH RISK: Avoid clicking links or providing information. Verify sender through official channels."
  else if score >? dec 4 10 then
    py "⚡ CAUTION: Some suspicious indicators found. Verify the source before proceeding."
  else if score >? dec 2 10 then
    py "ℹ️ LOW RISK: Minor indicators detected. Exercise normal caution."
  else py "✅ SAFE: No significant phishing indicators detected.".

Definition _generate_explanation (score : num) (risk_info : RiskInfo)
  (engines : list (str * EngineScore)) (reasons : list str) : str :=
  let parts :=
    [py "Risk Assessment: " ++ level risk_info ++ py " ("
       ++ format_percent score ++ py " confidence)." ++ newline] in
  let parts :=
    if score >? dec 6 10
    then parts ++ [py "⚠️ This content exhibits strong phishing indicators:"
                     ++ newline]
    else parts in
  let parts :=
    parts ++ map (fun ir => py "  " ++ str_of_Z (fst ir) ++ py ". " ++ snd ir)
                 (enumerate 1 (firstn 5 reasons)) in
  let parts := parts ++ [newline ++ py "Engine breakdown:"] in
  let parts :=
    parts ++ map (fun ed => py "  • " ++ fst ed ++ py ": "
                              ++ format_percent (es_score (snd ed)))
                 engines in
  join newline parts.

(** The loop that drops repeated reasons, keeping first occurrences. *)
Fixpoint dedup (seen : list str) (rs : list str) : list str :=
  match rs with
  | [] => []
  | r :: rs' =>
      if mem r seen then dedup seen rs' else r :: dedup (r :: seen) rs'
  end.

Definition high_score (r : EngineResult) : bool :=
  get (score r) (of_int 0) >? dec 6 10.

Definition calculate_risk (engine_results : list EngineResult)
  : result RiskAssessment :=
  let a := fold_left step engine_results acc0 in
  final_score <- div (weighted_score a) (py_max (total_weight a) (dec 1 100)) ;;
  let high_scores := Z.of_nat (length (filter high_score engine_results)) in
  let '(final_score, all_reasons) :=
    if (3 <=? high_scores)%Z
    then (py_min (final_score * dec 12 10) (dec 1 1),
          all_reasons a ++ [py "Multiple engines agree on high risk"])
    else (final_score, all_reasons a) in
  let clamped := py_min (py_max final_score (dec 0 1)) (dec 1 1) in
  final_score <- round4 clamped ;;
  let risk_info := _get_risk_level final_score in
  let unique_reasons := dedup [] all_reasons in
  Ok {| risk_score := final_score;
        risk_level := level risk_info;
        risk_color := color risk_info;
        risk_icon := icon risk_info;
        is_phishing := final_score >? dec 6 10;
        engine_scores := acc_engine_scores a;
        risk_reasons :=
          firstn (Nat.min (length unique_reasons) 15) unique_reasons;
        explanation :=
          _generate_explanation final_score risk_info
                                (acc_engine_scores a) unique_reasons;
        recommendation := _get_recommendation final_score |}.

End RiskScorer.
End RiskScorer.

(** ** domain_checker.py *)

Module DomainChecker.
Section DomainChecker.
Context {A : Arith}.
Local Open Scope num_scope.

(** [str.lower] beyond ASCII and [format(x, ".0%")], from the Python
    runtime. *)
Variable unicode_lower : str -> str.
Variable format_percent : num -> str.

(** The characters of a string, each a string of length one. *)
Definition chars (s : str) : list str := map (fun c => [c]) s.

Definition HOMOGLYPH_MAP : list (str * list str) :=
  map (fun kv => (py (fst kv), chars (py (snd kv))))
  [ ("a", "аɑαạäàáâãå");
    ("b", "Ьḃɓƀ");
    ("c", "сçćĉċ");
    ("d", "ԁḋɗđ");
    ("e", "еëéèêẹėę");
    ("f", "ƒ");
    ("g", "ɡĝğġģ");
    ("h", "һĥħ");
    ("i", "іıìíîïĩɪịł");
    ("j", "ϳĵ");
    ("k", "κḳḵ");
    ("l", "ӏĺļľŀ1|");
    ("m", "мṁ");
    ("n", "пñńņŋ");
    ("o", "оöóòôõọ0ø");
    ("p", "рṗ");
    ("q", "ԛ");
    ("r", "гŕř");
    ("s", "ѕśšş$5");
    ("t", "τṫţŧ");
    ("u", "υúùûüũụμ");
    ("v", "νṿ");
    ("w", "ωẁẃẅ");
    ("x", "хẋẍ");
    ("y", "уýÿŷ");
    ("z", "źżž") ]%string.

Definition LEGITIMATE_DOMAINS : list str :=
  map py
  [ "google.com"; "gmail.com"; "youtube.com"; "facebook.com";
    "instagram.com"; "twitter.com"; "linkedin.com"; "microsoft.com";
    "apple.com"; "amazon.com"; "netflix.com"; "paypal.com"; "ebay.com";
    "dropbox.com"; "icloud.com"; "outlook.com"; "office365.com";
    "chase.com"; "wellsfargo.com"; "bank.com"; "bankofamerica.com";
    "citibank.com"; "usbank.com"; "americanexpress.com"; "whatsapp.com";
    "telegram.org"; "signal.org"; "zoom.us"; "slack.com"; "github.com";
    "gitlab.com"; "stackoverflow.com"; "reddit.com"; "coinbase.com";
    "binance.com"; "kraken.com"; "blockchain.com"; "adobe.com";
    "salesforce.com"; "stripe.com"; "shopify.com"; "wordpress.com";
    "godaddy.com"; "cloudflare.com"; "aws.amazon.com"; "yahoo.com";
    "aol.com"; "hotmail.com"; "live.com"; "msn.com"; "fidelity.com";
    "schwab.com"; "vanguard.com"; "robinhood.com"; "dhl.com"; "fedex.com";
    "ups.com"; "usps.com" ]%string.

Definition TYPO_PATTERNS : list (str * str) :=
  [ (py "rn", py "m");
    (py "cl", py "d");
    (py "nn", py "m");
    (py "vv", py "w");
    (py "ii", py "u") ].

(** The instance attributes set by [__init__]. *)
Record DomainChecker : Type := {
  name : str;
  version : str;
  legitimate_domains : list str;
  reverse_homoglyph : list (str * str)
}.

Definition _build_homoglyph_reverse_map : list (str * str) :=
  fold_left
    (fun rev entry =>
       let '(original, homoglyphs) := entry in
       fold_left (fun rev h => dict_set rev h original) homoglyphs rev)
    HOMOGLYPH_MAP [].

(** [DomainChecker(legitimate_domains=None)] *)
Definition init (legitimate_domains : option (list str)) : DomainChecker :=
  {| name := py "domain_checker";
     version := py "1.0.0";
     legitimate_domains :=
       match legitimate_domains with
       | Some (d :: ds) => d :: ds
       | _ => LEGITIMATE_DOMAINS
       end;
     reverse_homoglyph := _build_homoglyph_reverse_map |}.

Record Match : Type := {
  m_domain : str;
  similarity : num;
  edit_distance : Z
}.

Record Result : Type := {
  engine : str;
  domain : str;
  score : num;
  reasons : list str;
  matches : list Match;
  homoglyph_detected : bool;
  typosquatting_detected : bool;
  is_suspicious : bool
}.

Definition _clean_domain (domain : str) : str :=
  let domain := strip (lower unicode_lower domain) in
  let domain :=
    if contains domain (py "://")
    then nth 1 (split domain (py "://")) []
    else domain in
  let domain := hd [] (split domain (py "/")) in
  let domain := hd [] (split domain (py ":")) in
  if startswith domain (py "www.") then skipn 4 domain else domain.

Record Homoglyph : Type := {
  original : str;
  looks_like : str;
  position : Z
}.

Record HomoglyphResult : Type := {
  has_homoglyphs : bool;
  normalized_domain : str;
  details : str;
  count : Z
}.

Definition _detect_homoglyphs (self : DomainChecker) (domain : str)
  : HomoglyphResult :=
  let '(found, normalized) :=
    fold_left
      (fun st char =>
         let '(found, normalized) := st in
         let lookup := dict_get (reverse_homoglyph self) char [] in
         match lookup with
         | _ :: _ =>
             (found ++ [{| original := char; looks_like := lookup;
                           position := Z.of_nat (length normalized) |}],
              normalized ++ [lookup])
         | [] => (found, normalized ++ [char])
         end)
      (chars domain) (@nil Homoglyph, @nil str) in
  let normalized_domain := join [] normalized in
  let details :=
    match found with
    | _ :: _ =>
        join (py "; ")
             (map (fun h => py "'" ++ original h ++ py "' looks like '"
                              ++ looks_like h ++ py "'") found)
    | [] => []
    end in
  {| has_homoglyphs := (0 <? Z.of_nat (length found))%Z;
     normalized_domain := normalized_domain;
     details := details;
     count := Z.of_nat (length found) |}.

(** One row of the edit-distance table: [prev] is [prev_row] from column
    [j] on, [last] is [curr_row[j]]. *)
Fixpoint lev_row (c1 : N) (s2 : str) (prev : list Z) (last : Z) : list Z :=
  match s2, prev with
  | c2 :: s2', pj :: ((pj1 :: _) as prev') =>
      let insertions := (pj1 + 1)%Z in
      let deletions := (last + 1)%Z in
      let substitutions := (pj + (if N.eqb c1 c2 then 0 else 1))%Z in
      let v := Z.min (Z.min insertions deletions) substitutions in
      v :: lev_row c1 s2' prev' v
  | _, _ => []
  end.

(** The body of [_levenshtein_distance] once [len(s1) >= len(s2)]. *)
Definition lev_rows (s1 s2 : str) : Z :=
  match s2 with
  | [] => Z.of_nat (length s1)
  | _ :: _ =>
      let prev_row := map Z.of_nat (seq 0 (S (length s2))) in
      let prev_row :=
        fold_left
          (fun prev_row ic =>
             let '(i, c1) := ic in
             (i + 1)%Z :: lev_row c1 s2 prev_row (i + 1)%Z)
          (enumerate 0 s1) prev_row in
      last prev_row 0%Z
  end.

Definition _levenshtein_distance (s1 s2 : str) : Z :=
  if (length s1 <? length s2)%nat then lev_rows s2 s1 else lev_rows s1 s2.

Definition _calculate_similarity (s1 s2 : str) : result num :=
  let distance := _levenshtein_distance s1 s2 in
  let max_len := Z.max (Z.of_nat (length s1)) (Z.of_nat (length s2)) in
  if (max_len =? 0)%Z then Ok (dec 1 1)
  else
    q <- div (of_int distance) (of_int max_len) ;;
    Ok (of_int 1 - q).

(** [list.sort(key=similarity, reverse=True)]: stable, largest first. *)
Fixpoint insert_desc (x : Match) (l : list Match) : list Match :=
  match l with
  | [] => [x]
  | y :: l' =>
      if similarity y >=? similarity x then y :: insert_desc x l'
      else x :: l
  end.

Definition sort_desc (l : list Match) : list Match :=
  fold_left (fun sorted x => insert_desc x sorted) l [].

Definition _find_similar_domains (self : DomainChecker) (domain : str)
  : result (list Match) :=
  let homoglyph_result := _detect_homoglyphs self domain in
  let check_domains :=
    if has_homoglyphs homoglyph_result
    then [domain; normalized_domain homoglyph_result]
    else [domain] in
  similarities <-
    fold_left
      (fun acc pair =>
         let '(legit_domain, check_domain) := pair in
         similarities <- acc ;;
         similarity <- _calculate_similarity check_domain legit_domain ;;
         if similarity >? dec 5 10 then
           sim_rounded <- round4 similarity ;;
           Ok (similarities ++
                 [{| m_domain := legit_domain;
                     similarity := sim_rounded;
                     edit_distance :=
                       _levenshtein_distance check_domain legit_domain |}])
         else Ok similarities)
      (flat_map (fun legit_domain =>
                   map (fun check_domain => (legit_domain, check_domain))
                       check_domains)
                (legitimate_domains self))
      (Ok []) ;;
  Ok (sort_desc similarities).

(** The string without the character at index [i]. *)
Definition drop_at (s : str) (i : nat) : str := firstn i s ++ skipn (S i) s.

(** The string with the characters at [i] and [i + 1] exchanged. *)
Definition swap_at (s : str) (i : nat) : str :=
  map (fun j =>
         if (j =? i)%nat then nth (S i) s 0%N
         else if (j =? S i)%nat then nth i s 0%N
         else nth j s 0%N)
      (seq 0 (length s)).

Definition typosquats (base_domain legit : str) : bool :=
  let legit_base := hd [] (split legit (py ".")) in
  let bd_len := length base_domain in
  let lb_len := length legit_base in
  existsb (fun i => str_eqb (swap_at base_domain i) legit_base)
          (seq 0 (bd_len - 1))
  || existsb (fun i => str_eqb (drop_at legit_base i) base_domain)
             (seq 0 lb_len)
  || existsb (fun i =>
                N.eqb (nth i base_domain 0%N) (nth (S i) base_domain 0%N)
                && str_eqb (drop_at base_domain i) legit_base)
             (seq 0 (bd_len - 1))
  || existsb (fun pr =>
                contains base_domain (fst pr)
                && str_eqb (replace base_domain (fst pr) (snd pr)) legit_base)
             TYPO_PATTERNS.

Definition _detect_typosquatting (self : DomainChecker) (domain : str)
  : option str :=
  let base_domain := hd [] (split domain (py ".")) in
  find (typosquats base_domain) (legitimate_domains self).

Definition _check_brand_in_subdomain (self : DomainChecker) (domain : str)
  : option str :=
  let parts := split domain (py ".") in
  if (length parts <=? 2)%nat then None
  else
    let subdomains := join (py ".") (firstn (length parts - 2) parts) in
    let main_part := nth (length parts - 2) parts [] in
    find (fun brand =>
            contains subdomains brand && negb (contains main_part brand))
         (map (fun legit => hd [] (split legit (py "."))) 
              (legitimate_domains self)).

(** The truth value of an optional string: [None] and the empty string
    are false. *)
Definition truthy (o : option str) : option str :=
  match o with
  | Some (c :: s) => Some (c :: s)
  | _ => None
  end.

Definition analyze (self : DomainChecker) (domain : str) : result Result :=
  let domain := _clean_domain domain in
  if mem domain (legitimate_domains self) then
    Ok {| engine := name self; domain := domain; score := dec 0 1;
          reasons := [py "Domain is in legitimate whitelist"];
          matches := [];
          homoglyph_detected := false; typosquatting_detected := false;
          is_suspicious := false |}
  else
    let score := dec 0 1 in
    let reasons := @nil str in
    let homoglyph_result := _detect_homoglyphs self domain in
    let '(homoglyph_detected, score, reasons) :=
      if has_homoglyphs homoglyph_result
      then (true, py_max score (dec 9 10),
            reasons ++ [py "Homoglyph characters detected: "
                          ++ details homoglyph_result])
      else (false, score, reasons) in
    similar_domains <- _find_similar_domains self domain ;;
    let '(matches, score, reasons) :=
      match similar_domains with
      | best_match :: _ =>
          let matches := firstn 5 similar_domains in
          let similarity := similarity best_match in
          if similarity >=? dec 85 100 then
            (matches, py_max score (dec 85 100),
             reasons ++ [py "Very similar to legitimate domain '"
                           ++ m_domain best_match ++ py "' (similarity: "
                           ++ format_percent similarity ++ py ")"])
          else if similarity >=? dec 7 10 then
            (matches, py_max score (dec 6 10),
             reasons ++ [py "Moderately similar to '"
                           ++ m_domain best_match ++ py "' (similarity: "
                           ++ format_percent similarity ++ py ")"])
          else (matches, score, reasons)
      | [] => ([], score, reasons)
      end in
    let '(typosquatting_detected, score, reasons) :=
      match truthy (_detect_typosquatting self domain) with
      | Some typosquat_result =>
          (true, py_max score (dec 8 10),
           reasons ++ [py "Typosquatting pattern detected: resembles '"
                         ++ typosquat_result ++ py "'"])
      | None => (false, score, reasons)
      end in
    let '(score, reasons) :=
      match truthy (_check_brand_in_subdomain self domain) with
      | Some brand_in_subdomain =>
          (py_max score (dec 7 10),
           reasons ++ [py "Brand name '" ++ brand_in_subdomain
                         ++ py "' found in subdomain"])
      | None => (score, reasons)
      end in
    let subdomain_count := (count_char domain 46 - 1)%Z in
    let '(score, reasons) :=
      if (subdomain_count >? 2)%Z
      then (py_max score (dec 4 10),
            reasons ++ [py "Excessive subdomain depth ("
                          ++ str_of_Z subdomain_count ++ py " levels)"])
      else (score, reasons) in
    let is_suspicious := score >? dec 5 10 in
    score_rounded <- round4 score ;;
    Ok {| engine := name self; domain := domain; score := score_rounded;
          reasons := reasons; matches := matches;
          homoglyph_detected := homoglyph_detected;
          typosquatting_detected := typosquatting_detected;
          is_suspicious := is_suspicious |}.

End DomainChecker.
End DomainChecker.

(** ** url_analyzer.py *)

Module URLAnalyzer.
Section URLAnalyzer.
Context {A : Arith}.
Local Open Scope num_scope.

(** The keys of the feature dict that [_calculate_score] reads.  The
    0/1 flags are ints, as in the source. *)
Record Features : Type := {
  blacklist_pattern_match : Z;
  brand_impersonation : str;
  brand_similarity : num;
  homoglyph_brand_attack : Z;
  url_length : Z;
  has_ip_address : Z;
  subdomain_count : Z;
  has_high_risk_tld : Z;
  has_suspicious_tld : Z;
  is_shortened : Z;
  domain_has_digits : Z;
  has_port : Z;
  likely_new_domain : Z;
  at_redirect_trick : Z;
  at_spoof_domain : str;
  at_real_domain : str;
  at_sign : Z;
  double_slash_redirect : Z;
  hyphen_count : Z;
  dot_count : Z;
  uses_https : Z;
  suspicious_token_count : Z;
  suspicious_tokens_found : list str;
  has_suspicious_params : Z;
  suspicious_params_found : list str;
  has_punycode : Z;
  idn_decoded : str;
  subdomain_brand_spoof : Z;
  subdomain_spoof_brand : str;
  url_entropy : num;
  domain_entropy : num;
  has_encoded_chars : Z;
  has_suspicious_extension : Z;
  consecutive_consonants_max : Z
}.

(** [extract_features] rests on [urllib.parse] and [re]; it yields the
    feature dict or raises.  [format(x, ".0%")], [format(x, ".2f")] and
    [str(e)] come from the Python runtime. *)
Variable extract_features : str -> result Features.
Variable format_percent : num -> str.
Variable format_2f : num -> str.
Variable str_of_exn : exn -> str.

(** The truth value of an int. *)
Definition truth (z : Z) : bool := negb (z =? 0)%Z.

(** The dict [weights], the running [score] and the list [reasons]. *)
Record St : Type := {
  w_length : num;
  w_structure : num;
  w_tokens : num;
  w_entropy : num;
  w_domain : num;
  w_blacklist : num;
  w_brand : num;
  score : num;
  reasons : list str
}.

Definition st0 : St :=
  {| w_length := dec 0 1; w_structure := dec 0 1; w_tokens := dec 0 1;
     w_entropy := dec 0 1; w_domain := dec 0 1; w_blacklist := dec 0 1;
     w_brand := dec 0 1; score := dec 0 1; reasons := [] |}.

Definition add_length (x : num) (s : St) : St :=
  {| w_length := w_length s + x; w_structure := w_structure s;
     w_tokens := w_tokens s; w_entropy := w_entropy s;
     w_domain := w_domain s; w_blacklist := w_blacklist s;
     w_brand := w_brand s; score := score s; reasons := reasons s |}.

Definition add_structure (x : num) (s : St) : St :=
  {| w_length := w_length s; w_structure := w_structure s + x;
     w_tokens := w_tokens s; w_entropy := w_entropy s;
     w_domain := w_domain s; w_blacklist := w_blacklist s;
     w_brand := w_brand s; score := score s; reasons := reasons s |}.

Definition add_tokens (x : num) (s : St) : St :=
  {| w_length := w_length s; w_structure := w_structure s;
     w_tokens := w_tokens s + x; w_entropy := w_entropy s;
     w_domain := w_domain s; w_blacklist := w_blacklist s;
     w_brand := w_brand s; score := score s; reasons := reasons s |}.

Definition add_entropy (x : num) (s : St) : St :=
  {| w_length := w_length s; w_structure := w_structure s;
     w_tokens := w_tokens s; w_entropy := w_entropy s + x;
     w_domain := w_domain s; w_blacklist := w_blacklist s;
     w_brand := w_brand s; score := score s; reasons := reasons s |}.

Definition add_domain (x : num) (s : St) : St :=
  {| w_length := w_length s; w_structure := w_structure s;
     w_tokens := w_tokens s; w_entropy := w_entropy s;
     w_domain := w_domain s + x; w_blacklist := w_blacklist s;
     w_brand := w_brand s; score := score s; reasons := reasons s |}.

Definition add_blacklist (x : num) (s : St) : St :=
  {| w_length := w_length s; w_structure := w_structure s;
     w_tokens := w_tokens s; w_entropy := w_entropy s;
     w_domain := w_domain s; w_blacklist := w_blacklist s + x;
     w_brand := w_brand s; score := score s; reasons := reasons s |}.

Definition add_brand (x : num) (s : St) : St :=
  {| w_length := w_length s; w_structure := w_structure s;
     w_tokens := w_tokens s; w_entropy := w_entropy s;
     w_domain := w_domain s; w_blacklist := w_blacklist s;
     w_brand := w_brand s + x; score := score s; reasons := reasons s |}.

Definition set_score (x : num) (s : St) : St :=
  {| w_length := w_length s; w_structure := w_structure s;
     w_tokens := w_tokens s; w_entropy := w_entropy s;
     w_domain := w_domain s; w_blacklist := w_blacklist s;
     w_brand := w_brand s; score := x; reasons := reasons s |}.

(** [reasons.append(r)] *)
Definition reason (r : str) (s : St) : St :=
  {| w_length := w_length s; w_structure := w_structure s;
     w_tokens := w_tokens s; w_entropy := w_entropy s;
     w_domain := w_domain s; w_blacklist := w_blacklist s;
     w_brand := w_brand s; score := score s; reasons := reasons s ++ [r] |}.

(** [if c: body] *)
Definition when (c : bool) (body : St -> St) (s : St) : St :=
  if c then body s else s.

(** Statements in sequence. *)
Definition seq_st (f g : St -> St) (s : St) : St := g (f s).

Notation "f ;;; g" := (seq_st f g) (at level 62, left associativity).

(** Blacklist, brand impersonation and length (source lines 299-324). *)
Definition score_blacklist_brand_length (features : Features) : St -> St :=
  when (truth (blacklist_pattern_match features))
    (add_blacklist (dec 9 10) ;;;
     reason (py "⛔ Matches known phishing URL pattern (Safe Browsing / PhishTank rules)")) ;;;
  when (match brand_impersonation features with [] => false | _ => true end)
    (let brand := brand_impersonation features in
     let sim := brand_similarity features in
     fun s =>
       if truth (homoglyph_brand_attack features) then
         (add_brand (dec 85 100) ;;;
          reason (py "🔡 Homoglyph brand attack: domain mimics '" ++ brand
                    ++ py "' using lookalike characters")) s
       else if sim >=? dec 8 10 then
         (add_brand (dec 75 100) ;;;
          reason (py "🏷️ High-confidence brand impersonation: '" ++ brand
                    ++ py "' (" ++ format_percent sim ++ py " similarity)")) s
       else
         (add_brand (dec 5 10) ;;;
          reason (py "🏷️ Possible brand impersonation: '" ++ brand
                    ++ py "' detected in URL")) s) ;;;
  when (url_length features >? 75)%Z
    (add_length (dec 25 100) ;;;
     reason (py "📏 Unusually long URL (" ++ str_of_Z (url_length features)
               ++ py " chars)")) ;;;
  when (url_length features >? 150)%Z
    (add_length (dec 25 100) ;;;
     reason (py "📏 Extremely long URL — common obfuscation tactic")).

(** Domain analysis (source lines 326-350). *)
Definition score_domain (features : Features) : St -> St :=
  when (truth (has_ip_address features))
    (add_domain (dec 85 100) ;;;
     reason (py "🌐 URL uses raw IP address instead of domain name")) ;;;
  when (subdomain_count features >? 2)%Z
    (add_domain (dec 4 10) ;;;
     reason (py "🌐 Excessive subdomains ("
               ++ str_of_Z (subdomain_count features)
               ++ py ") — common in free-hosting phishing")) ;;;
  (fun s =>
     if truth (has_high_risk_tld features) then
       (add_domain (dec 55 100) ;;;
        reason (py "⚠️ High-risk free TLD (.tk/.ml/.ga/.cf/.gq) — heavily abused by phishers")) s
     else if truth (has_suspicious_tld features) then
       (add_domain (dec 40 100) ;;;
        reason (py "⚠️ Suspicious top-level domain")) s
     else s) ;;;
  when (truth (is_shortened features))
    (add_domain (dec 40 100) ;;;
     reason (py "🔗 URL shortener detected — hides true destination, high phishing indicator")) ;;;
  when (truth (domain_has_digits features))
    (add_domain (dec 2 10) ;;;
     reason (py "🔢 Domain contains digits (brand-mimicry pattern)")) ;;;
  when (truth (has_port features))
    (add_domain (dec 35 100) ;;;
     reason (py "🔌 Non-standard port in URL")) ;;;
  when (truth (likely_new_domain features))
    (add_domain (dec 25 100) ;;;
     reason (py "🆕 Domain appears newly registered (age heuristic) — high phishing risk")).

(** Structure analysis (source lines 352-377). *)
Definition score_structure (features : Features) : St -> St :=
  (fun s =>
     if truth (at_redirect_trick features) then
       (add_structure (dec 90 100) ;;;
        reason (py "🚨 URL Redirection Trick: displays '"
                  ++ at_spoof_domain features
                  ++ py "' before '@' but actually sends browser to '"
                  ++ at_real_domain features
                  ++ py "' — classic phishing deception")) s
     else if truth (at_sign features) then
       (add_structure (dec 60 100) ;;;
        reason (py "⚠️ @ symbol in URL — browser treats everything before @ as credentials and redirects to the domain after it")) s
     else s) ;;;
  when (truth (double_slash_redirect features))
    (add_structure (dec 4 10) ;;;
     reason (py "// redirect detected in URL path")) ;;;
  when (hyphen_count features >? 3)%Z
    (add_structure (dec 3 10) ;;;
     reason (py "Excessive hyphens (" ++ str_of_Z (hyphen_count features)
               ++ py ") — phishing domain pattern")) ;;;
  when (dot_count features >? 4)%Z
    (add_structure (dec 3 10) ;;;
     reason (py "Excessive dots (" ++ str_of_Z (dot_count features)
               ++ py ")")) ;;;
  when (negb (truth (uses_https features)))
    (add_structure (dec 30 100) ;;;
     reason (py "🔓 No HTTPS — unencrypted connection, strong phishing signal")).

(** Tokens, parameters, punycode and subdomain spoofing (source lines
    379-408). *)
Definition score_tokens_params (features : Features) : St -> St :=
  when (suspicious_token_count features >? 0)%Z
    (let token_score :=
       py_min (of_int (suspicious_token_count features) * dec 15 100)
              (dec 85 100) in
     let tokens_str :=
       join (py ", ") (firstn 4 (suspicious_tokens_found features)) in
     add_tokens token_score ;;;
     reason (py "🏷️ Suspicious keywords in URL: " ++ tokens_str)) ;;;
  when (truth (has_suspicious_params features))
    (let params_str :=
       join (py ", ") (firstn 4 (suspicious_params_found features)) in
     add_structure (dec 30 100) ;;;
     reason (py "🔑 Suspicious URL parameters detected: " ++ params_str
               ++ py " — used in phishing redirect chains")) ;;;
  when (truth (has_punycode features))
    (let decoded := idn_decoded features in
     add_domain (dec 70 100) ;;;
     reason (py "🌐 Punycode/IDN domain detected (xn--) — used to create unicode look-alike domains"
               ++ match decoded with
                  | [] => []
                  | _ => py ": decoded as '" ++ decoded ++ py "'"
                  end)) ;;;
  when (truth (subdomain_brand_spoof features))
    (let spoof_brand := subdomain_spoof_brand features in
     add_brand (dec 80 100) ;;;
     reason (py "🎭 Subdomain spoofing: '" ++ spoof_brand
               ++ py "' used as subdomain to appear legitimate (e.g. "
               ++ spoof_brand
               ++ py ".login.evil.com) — actual domain is different")).

(** The combined rule for brand impersonation with suspicious tokens
    (source lines 410-421). *)
Definition score_combined_rule (features : Features) : St -> St :=
  let sim := brand_similarity features in
  let tok := suspicious_token_count features in
  when ((sim >? dec 75 100) && (tok >? 0)%Z)
    (fun s =>
       let score_boost := py_min (score s * dec 135 100) (dec 1 1) in
       if score_boost >? score s then
         (set_score score_boost ;;;
          reason (py "🚨 HIGH RISK: Brand impersonation ('"
                    ++ brand_impersonation features ++ py "', "
                    ++ format_percent sim ++ py " similarity) combined with "
                    ++ str_of_Z tok
                    ++ py " suspicious keyword(s) — strong phishing signal")) s
       else s).

(** Entropy and the remaining indicators (source lines 423-440). *)
Definition score_entropy_other (features : Features) : St -> St :=
  when (url_entropy features >? dec 45 10)
    (add_entropy (dec 3 10) ;;;
     reason (py "🔀 High URL entropy (" ++ format_2f (url_entropy features)
               ++ py ") — possible character obfuscation")) ;;;
  when (domain_entropy features >? dec 38 10)
    (add_entropy (dec 3 10) ;;;
     reason (py "🔀 High domain entropy ("
               ++ format_2f (domain_entropy features)
               ++ py ") — random/generated domain")) ;;;
  when (truth (has_encoded_chars features))
    (add_structure (dec 15 100) ;;;
     reason (py "Encoded characters (%xx) in URL")) ;;;
  when (truth (has_suspicious_extension features))
    (add_structure (dec 55 100) ;;;
     reason (py "🗂️ Suspicious file extension (.exe/.apk/.ps1 etc.)")) ;;;
  when (consecutive_consonants_max features >? 4)%Z
    (add_domain (dec 2 10) ;;;
     reason (py "Domain contains unusual consonant clusters")).

(** The loop over [category_weights.items()] (source lines 443-454). *)
Definition score_weighted (s : St) : St :=
  let score := score s in
  let score := score + py_min (w_blacklist s) (dec 1 1) * dec 25 100 in
  let score := score + py_min (w_brand s) (dec 1 1) * dec 20 100 in
  let score := score + py_min (w_domain s) (dec 1 1) * dec 22 100 in
  let score := score + py_min (w_structure s) (dec 1 1) * dec 15 100 in
  let score := score + py_min (w_tokens s) (dec 1 1) * dec 10 100 in
  let score := score + py_min (w_entropy s) (dec 1 1) * dec 5 100 in
  let score := score + py_min (w_length s) (dec 1 1) * dec 3 100 in
  set_score score s.

(** [sum(1 for v in weights.values() if v > 0.2)] *)
Definition flagged_count (s : St) : Z :=
  Z.of_nat
    (length
       (filter (fun v => v >? dec 2 10)
               [w_length s; w_structure s; w_tokens s; w_entropy s;
                w_domain s; w_blacklist s; w_brand s])).

(** Clamp and multi-category amplification (source lines 456-465). *)
Definition score_amplify (s : St) : St :=
  let s := set_score (py_min (py_max (score s) (dec 0 1)) (dec 1 1)) s in
  let flagged := flagged_count s in
  if (flagged >=? 4)%Z then
    (set_score (py_min (score s * dec 15 10) (dec 1 1)) ;;;
     reason (py "🚨 Multiple high-risk categories triggered simultaneously")) s
  else if (flagged >=? 3)%Z then
    (set_score (py_min (score s * dec 13 10) (dec 1 1)) ;;;
     reason (py "⚠️ Multiple risk categories triggered")) s
  else s.

Definition confidence_of (score : num) (flagged : Z) : str :=
  if (score >? dec 75 100) && (flagged >=? 3)%Z then py "HIGH"
  else if (score >? dec 4 10) || (flagged >=? 2)%Z then py "MEDIUM"
  else py "LOW".

Definition _calculate_score (features : Features) (url : str)
  : num * list str * str :=
  let s :=
    (score_blacklist_brand_length features ;;;
     score_domain features ;;;
     score_structure features ;;;
     score_tokens_params features ;;;
     score_combined_rule features ;;;
     score_entropy_other features ;;;
     score_weighted ;;;
     score_amplify) st0 in
  (score s, reasons s, confidence_of (score s) (flagged_count s)).

Record AnalysisResult : Type := {
  engine : str;
  r_score : num;
  r_features : option Features;
  r_reasons : list str;
  confidence : str;
  is_suspicious : bool
}.

Definition name : str := py "url_analyzer".

Definition analyze (url : str) : AnalysisResult :=
  let attempt :=
    features <- extract_features url ;;
    let '(score, reasons, confidence) := _calculate_score features url in
    rounded <- round4 score ;;
    Ok {| engine := name; r_score := rounded;
          r_features := Some features; r_reasons := reasons;
          confidence := confidence;
          is_suspicious := score >? dec 5 10 |} in
  match attempt with
  | Ok r => r
  | Raise e =>
      {| engine := name; r_score := dec 5 10; r_features := None;
         r_reasons := [py "Analysis error: " ++ str_of_exn e];
         confidence := py "LOW"; is_suspicious := true |}
  end.

End URLAnalyzer.
End URLAnalyzer.

(** ** nlp_engine.py *)

Module NLPEngine.
Section NLPEngine.
Context {A : Arith}.
Local Open Scope num_scope.

(** The [re] module (a match object is the list of its groups, group 0
    first), [str.isupper] and [str.lower] beyond ASCII, from the Python
    runtime. *)
Variable re_search : str -> re_flags -> str -> option (list str).
Variable re_match : str -> re_flags -> str -> option (list str).
Variable re_findall : str -> re_flags -> str -> list Found.
Variable re_split : str -> str -> list str.
Variable isupper : str -> bool.
Variable unicode_lower : str -> str.

Definition URGENCY_PATTERNS : list str :=
  [ py "\burgent\b";
    py "\bimmediately\b";
    py "\basap\b";
    py "\bright\s+now\b";
    py "\bact\s+now\b";
    py "\bdon\'?t\s+delay\b";
    py "\bexpir(e|es|ed|ing)\b";
    py "\blast\s+chance\b";
    py "\blimited\s+time\b";
    py "\btime\s+sensitive\b";
    py "\bhurry\b";
    py "\bfinal\s+(warning|notice)\b";
    py "\bwithin\s+\d+\s+(hour|day|minute)s?\b";
    py "\bsuspend(ed)?\b";
    py "\bterminat(e|ed|ion)\b";
    py "\brestrict(ed)?\b";
    py "\bdeadline\b";
    py "\bcritical\b";
    py "\baction\s+required\b";
    py "\bdo\s+not\s+ignore\b" ].

Definition CREDENTIAL_PATTERNS : list str :=
  [ py "\b(verify|confirm|update|validate)\s+(your\s+)?(account|identity|information|details)\b";
    py "\b(enter|provide|submit|type)\s+(your\s+)?(password|credentials|login|ssn|credit\s+card)\b";
    py "\b(sign|log)\s*(in|on)\s+(to\s+)?(verify|confirm|update)\b";
    py "\bclick\s+(here|below|the\s+link)\b";
    py "\b(reset|change|update)\s+password\b";
    py "\bunusual\s+(activity|sign[- ]?in|login)\b";
    py "\bsecurity\s+(alert|warning|notice|update)\b";
    py "\bverification\s+(required|needed|code)\b";
    py "\bconfirm\s+(your\s+)?identity\b";
    py "\benter\s+(your\s+)?(otp|one[- ]time\s+password|pin)\b" ].

Definition SOCIAL_ENGINEERING_PATTERNS : list str :=
  [ py "\b(dear\s+)?(valued\s+)?(customer|user|member|client)\b";
    py "\b(we\s+)?(have\s+)?(detected|noticed|found)\s+(suspicious|unusual|unauthorized)\b";
    py "\bif\s+you\s+(did\s+)?not\s+(authorize|recognize|initiate)\b";
    py "\byour\s+account\s+(has\s+been|will\s+be|is)\s+(locked|suspended|restricted|disabled)\b";
    py "\bwin(ner)?\b.*\b(prize|gift|reward|lottery)\b";
    py "\bcongratulations\b";
    py "\bfree\s+(gift|offer|trial)\b";
    py "\binheritance\b";
    py "\b(prince|princess|royalty|diplomat)\b";
    py "\bmillion\s+dollars?\b" ].

Definition IMPERSONATION_PATTERNS : list str :=
  [ py "\b(support|help|service)\s*@";
    py "\b(team|department|division)\s+at\s";
    py "\b(official|authorized|certified)\s+(notice|communication|message)\b";
    py "\bdo\s+not\s+reply\b";
    py "\bautomated\s+message\b";
    py "\bthis\s+is\s+(a\s+)?(reminder|notification|alert)\b" ].

Definition FINANCIAL_SCAM_PATTERNS : list str :=
  [ py "\binvoice\s+(#?\d+|attached|due|overdue|unpaid)\b";
    py "\bpayment\s+(failed|declined|pending|overdue|required)\b";
    py "\bbilling\s+(issue|problem|error|update)\b";
    py "\b(outstanding|unpaid)\s+balance\b";
    py "\byour\s+(subscription|plan)\s+(has\s+)?(expired|renewal|charge)\b";
    py "\bcharge\s+of\s+\$[\d,.]+\b";
    py "\btransaction\s+(failed|declined|blocked|flagged)\b";
    py "\brefund\s+(pending|approved|processed|request)\b";
    py "\bbank\s+(transfer|wire|deposit)\b";
    py "\b(gift\s+card|google\s+play|itunes|amazon)\s+(code|card|payment)\b";
    py "\bcrypto|bitcoin|ethereum|usdt\s+(transfer|payment|wallet)\b" ].

Definition REGIONAL_SMS_PATTERNS : list str :=
  [ py "\bkyc\s*(expired?|update|pending|verification)\b";
    py "\baadhaar\s*(link|update|verify|blocked)\b";
    py "\bpan\s*(card)?\s*(update|verify|link|blocked)\b";
    py "\btrai\s*(block|sim|disconnect)\b";
    py "\bsim\s+(blocked|suspended|deactivat)\b";
    py "\b(upi|paytm|phonepe|gpay|bhim)\s*(fraud|blocked|verify)\b";
    py "\bincome\s+tax\s+(notice|refund|demand)\b";
    py "\bparcel\s+(held|on\s+hold|detention|pending\s+customs)\b";
    py "\bcustoms\s+(fee|duty|clearance|charge)\b";
    py "\bredelivery\s+(fee|charge|attempt)\b";
    py "\b(loan|emi)\s+(approved|offer|overdue|pending)\b";
    py "\binsurance\s+(claim|expire|renewal)\b";
    py "\b(cashback|reward|bonus)\s+(credited|expire|claim)\b" ].

Definition TECH_SUPPORT_PATTERNS : list str :=
  [ py "\bremote\s+(access|control|session|desktop)\b";
    py "\b(install|download|open)\s+(anydesk|teamviewer|ultraviewer|remote\s*pc)\b";
    py "\bshare\s+(your\s+)?(screen|access\s+code|session\s+code|control)\b";
    py "\btech(nical)?\s+support\b";
    py "\bwindows\s+(license|has\s+expired|activation)\b";
    py "\b(your\s+)?computer\s+(is\s+)?(hacked|infected|virus|compromised)\b";
    py "\bcall\s+(this\s+)?(number|toll[- ]?free)\b";
    py "\b(microsoft|apple|google)\s+(support|technician|engineer)\b";
    py "\ballow\s+(me|us)\s+to\s+(access|connect|fix)\b";
    py "\bdo\s+not\s+(close|shut|turn\s+off)\b" ].

Definition LEGITIMATE_INDICATORS : list str :=
  [ py "\bunsubscribe\b";
    py "\bprivacy\s+policy\b";
    py "\bterms\s+(of|and)\s+(service|use)\b";
    py "\bmanage\s+(your\s+)?preferences\b";
    py "\bview\s+in\s+browser\b";
    py "\bopt[- ]?out\b" ].

Definition IMPERSONATED_BRANDS : list str :=
  [ py "paypal";
    py "amazon";
    py "apple";
    py "google";
    py "microsoft";
    py "netflix";
    py "facebook";
    py "instagram";
    py "twitter";
    py "linkedin";
    py "chase";
    py "wellsfargo";
    py "bankofamerica";
    py "citibank";
    py "usbank";
    py "dhl";
    py "fedex";
    py "usps";
    py "ups";
    py "irs";
    py "sbi";
    py "hdfc";
    py "icici";
    py "axis";
    py "airtel";
    py "jio";
    py "vodafone";
    py "trai" ].

Definition name : str := py "nlp_engine".

(** [m.group(i)] *)
Definition group (m : list str) (i : nat) : str := nth i m [].

Definition is_some {T : Type} (o : option T) : bool :=
  match o with
  | Some _ => true
  | None => false
  end.

Record Features : Type := {
  word_count : Z;
  char_count : Z;
  sentence_count : Z;
  avg_word_length : num;
  exclamation_count : Z;
  question_count : Z;
  uppercase_ratio : num;
  url_count : Z;
  email_count : Z;
  phone_count : Z;
  money_references : Z;
  has_html : Z;
  link_text_mismatch : bool;
  sender_domain_free : Z
}.

Record Category : Type := {
  c_score : num;
  indicators : list str
}.

Record Result : Type := {
  engine : str;
  content_type : str;
  score : num;
  reasons : list str;
  categories : list (str * Category);
  features : option Features;
  is_suspicious : bool;
  confidence : str
}.

Definition len {T : Type} (l : list T) : Z := Z.of_nat (length l).

Definition _check_link_text_mismatch (text : str) : bool :=
  let pattern :=
    py "<a[^>]+href\s*=\s*[" ++ dq ++ py "\']([^" ++ dq ++ py "\']+)["
       ++ dq ++ py "\'][^>]*>([^<]+)</a>" in
  let matches := re_findall pattern IGNORECASE text in
  existsb
    (fun m =>
       match m with
       | FTuple [href; display] =>
           match re_match (py "https?://") NOFLAGS display with
           | Some _ =>
               match re_search (py "://([^/]+)") NOFLAGS href,
                     re_search (py "://([^/]+)") NOFLAGS display with
               | Some href_domain, Some display_domain =>
                   negb (str_eqb (group href_domain 1)
                                 (group display_domain 1))
               | _, _ => false
               end
           | None => false
           end
       | _ => false
       end)
    matches.

Definition _extract_features (text sender : str) : result Features :=
  let words := split_ws text in
  let sentences := re_split (py "[.!?]+") text in
  avg <- div (of_int (fold_left Z.add (map len words) 0%Z))
             (of_int (Z.max (len words) 1)) ;;
  upper <- div (of_int (len (filter (fun c => isupper [c]) text)))
               (of_int (Z.max (len text) 1)) ;;
  Ok {| word_count := len words;
        char_count := len text;
        sentence_count :=
          len (filter (fun s => match strip s with [] => false | _ => true end)
                      sentences);
        avg_word_length := avg;
        exclamation_count := count_char text 33;
        question_count := count_char text 63;
        uppercase_ratio := upper;
        url_count := len (re_findall (py "https?://\S+") NOFLAGS text);
        email_count := len (re_findall (py "\S+@\S+\.\S+") NOFLAGS text);
        phone_count :=
          len (re_findall (py "\b\d{3}[-.]?\d{3}[-.]?\d{4}\b") NOFLAGS text);
        money_references :=
          len (re_findall
                 (py "\$[\d,]+(\.\d{2})?|\d+\s*(dollars?|USD|£|€|₹|INR)")
                 NOFLAGS text);
        has_html := if is_some (re_search (py "<[^>]+>") NOFLAGS text)
                    then 1%Z else 0%Z;
        link_text_mismatch := _check_link_text_mismatch text;
        sender_domain_free :=
          if is_some (re_search (py "@(gmail|yahoo|hotmail|outlook|aol)\.")
                                NOFLAGS sender)
          then 1%Z else 0%Z |}.

Definition _analyze_patterns (text : str) (patterns : list str)
  (category : str) : num * list str :=
  let matches :=
    fold_left
      (fun matches pattern =>
         match re_findall pattern IGNORECASE text with
         | first :: _ =>
             let match_text :=
               match first with
               | FStr s => s
               | FTuple t => hd [] t
               end in
             matches ++ [strip match_text]
         | [] => matches
         end)
      patterns [] in
  match matches with
  | [] => (dec 0 1, [])
  | _ :: _ =>
      let pat_score := py_min (of_int (len matches) * dec 25 100) (dec 1 1) in
      let pat_reasons :=
        map (fun m => category ++ py ": '" ++ m ++ py "' detected")
            (firstn 3 matches) in
      (pat_score, pat_reasons)
  end.

Definition known_esps : list str :=
  map py [ "mailchimp"; "sendgrid"; "constantcontact"; "hubspot";
           "salesforce"; "marketo"; "klaviyo"; "mailgun" ]%string.

Definition _analyze_sender (sender full_text : str) : num * list str :=
  match sender with
  | [] => (dec 0 1, [])
  | _ :: _ =>
      let st := (dec 0 1, @nil str) in
      (* Display name brand spoofing *)
      let st :=
        if is_some (re_search (py "[<>]") NOFLAGS sender) then
          match re_match (py "([^<]+)<") NOFLAGS sender with
          | Some display_name =>
              let name := strip (group display_name 1) in
              fold_left
                (fun st brand =>
                   if contains (lower unicode_lower name) brand then
                     match re_search (py "<(.+)>") NOFLAGS sender with
                     | Some email_part =>
                         if negb (contains
                                    (lower unicode_lower (group email_part 1))
                                    brand)
                         then (fst st + dec 75 100,
                               snd st ++
                                 [py "🚨 Sender display name contains '"
                                    ++ brand
                                    ++ py "' but email domain doesn't match — spoofing!"])
                         else st
                     | None => st
                     end
                   else st)
                IMPERSONATED_BRANDS st
          | None => st
          end
        else st in
      (* Suspicious digit patterns *)
      let st :=
        if is_some (re_search (py "\d{3,}@") NOFLAGS sender)
        then (fst st + dec 3 10,
              snd st ++ [py "Sender has many digits before @ — auto-generated address"])
        else st in
      (* No-reply from unknown domains *)
      let st :=
        if is_some
             (re_search
                (py "(noreply|no-reply|donotreply).*@(?!google|apple|microsoft|amazon)")
                IGNORECASE sender)
        then (fst st + dec 2 10,
              snd st ++ [py "No-reply address from unrecognized domain"])
        else st in
      (* Sender-domain mismatch detection *)
      let sender_domain :=
        match re_search (py "@([^\s>]+)") NOFLAGS sender with
        | Some m => lower unicode_lower (group m 1)
        | None => []
        end in
      let st :=
        match sender_domain with
        | [] => st
        | _ :: _ =>
            let sd := sender_domain in
            match
              find
                (fun brand =>
                   contains (lower unicode_lower full_text) brand
                   && negb (existsb (fun part => contains sd part)
                                    [brand ++ py ".com"; brand ++ py ".org";
                                     brand ++ py ".gov"])
                   && negb (existsb (fun esp => contains sd esp) known_esps))
                IMPERSONATED_BRANDS
            with
            | Some brand =>
                (fst st + dec 35 100,
                 snd st ++ [py "📧 Sender-domain mismatch: email mentions '"
                              ++ brand ++ py "' but sent from '" ++ sd
                              ++ py "'"])
            | None => st
            end
        end in
      (py_min (fst st) (dec 1 1), snd st)
  end.

Definition _analyze_subject (subject : str) : num * list str :=
  let st := (dec 0 1, @nil str) in
  let st :=
    if isupper subject
    then (fst st + dec 3 10, snd st ++ [py "Subject line is ALL CAPS"])
    else st in
  let st :=
    if (count_char subject 33 >? 1)%Z
    then (fst st + dec 2 10,
          snd st ++ [py "Multiple exclamation marks in subject"])
    else st in
  let st :=
    if is_some
         (re_search
            (py "\b(urgent|action\s+required|verify|suspended|locked|frozen|invoice|billing)\b")
            IGNORECASE subject)
    then (fst st + dec 4 10,
          snd st ++ [py "Subject contains urgency/action keywords"])
    else st in
  let st :=
    if is_some (re_search (py "\bre:\s") IGNORECASE subject)
       && (len subject <? 20)%Z
    then (fst st + dec 15 100,
          snd st ++ [py "Short reply-format subject (fake thread)"])
    else st in
  (py_min (fst st) (dec 1 1), snd st).

Definition _analyze_linguistic_features (features : Features)
  : num * list str :=
  let st := (dec 0 1, @nil str) in
  let st :=
    if uppercase_ratio features >? dec 3 10
    then (fst st + dec 2 10,
          snd st ++ [py "Excessive use of uppercase letters"])
    else st in
  let st :=
    if (exclamation_count features >? 3)%Z
    then (fst st + dec 15 100,
          snd st ++ [py "Excessive exclamation marks ("
                       ++ str_of_Z (exclamation_count features) ++ py ")"])
    else st in
  let st :=
    if (url_count features >? 3)%Z
    then (fst st + dec 2 10,
          snd st ++ [py "Multiple embedded URLs ("
                       ++ str_of_Z (url_count features) ++ py ")"])
    else st in
  let st :=
    if (money_references features >? 0)%Z
    then (fst st + dec 15 100,
          snd st ++ [py "Contains monetary references"])
    else st in
  let st :=
    if link_text_mismatch features
    then (fst st + dec 4 10,
          snd st ++ [py "Link display text doesn't match actual URL (deceptive)"])
    else st in
  let st :=
    if negb (has_html features =? 0)%Z && (url_count features >? 0)%Z
    then (fst st + dec 1 10,
          snd st ++ [py "HTML content with embedded links"])
    else st in
  (py_min (fst st) (dec 1 1), snd st).

(** The loop of [_detect_brand_impersonation], which stops at the first
    brand that scores. *)
Fixpoint brand_loop (text_lower sender_lower : str) (brands : list str)
  (st : num * list str) : num * list str :=
  match brands with
  | [] => st
  | brand :: rest =>
      if contains text_lower brand then
        if match sender_lower with [] => false | _ => true end
           && contains sender_lower (py "@")
           && negb (contains (last (split sender_lower (py "@")) []) brand)
        then (fst st + dec 45 100,
              snd st ++ [py "🏷️ Brand impersonation: '" ++ title brand
                           ++ py "' mentioned in body but not sender domain"])
        else if is_some
                  (re_search
                     (py "(verify|confirm|sign.?in|login|password|account)")
                     NOFLAGS text_lower)
        then (fst st + dec 35 100,
              snd st ++ [py "🏷️ '" ++ title brand
                           ++ py "' impersonation + credential request"])
        else brand_loop text_lower sender_lower rest st
      else brand_loop text_lower sender_lower rest st
  end.

Definition _detect_brand_impersonation (text sender : str)
  : num * list str :=
  let st :=
    brand_loop (lower unicode_lower text) (lower unicode_lower sender)
               IMPERSONATED_BRANDS (dec 0 1, []) in
  (py_min (fst st) (dec 1 1), snd st).

Definition sms_weights : list (str * num) :=
  [ (py "urgency", dec 20 100); (py "credential", dec 20 100);
    (py "social", dec 10 100); (py "financial", dec 15 100);
    (py "sender", dec 10 100); (py "linguistic", dec 5 100);
    (py "regional", dec 10 100); (py "tech", dec 5 100);
    (py "brand", dec 5 100) ].

Definition email_weights : list (str * num) :=
  [ (py "urgency", dec 15 100); (py "credential", dec 20 100);
    (py "social", dec 10 100); (py "impersonation", dec 8 100);
    (py "financial", dec 15 100); (py "sender", dec 12 100);
    (py "subject", dec 5 100); (py "linguistic", dec 8 100);
    (py "brand", dec 7 100) ].

Definition nonempty (s : str) : bool :=
  match s with
  | [] => false
  | _ :: _ => true
  end.

Definition analyze (text subject sender content_type : str) : result Result :=
  let reasons := @nil str in
  let full_text := strip (subject ++ py " " ++ text) in
  if negb (nonempty full_text) then
    Ok {| engine := name; content_type := content_type; score := dec 0 1;
          reasons := reasons ++ [py "Empty text content"];
          categories := []; features := None;
          is_suspicious := false; confidence := py "LOW" |}
  else
    features <- _extract_features full_text sender ;;
    let '(urgency_score, urgency_reasons) :=
      _analyze_patterns full_text URGENCY_PATTERNS (py "Urgency") in
    let '(credential_score, credential_reasons) :=
      _analyze_patterns full_text CREDENTIAL_PATTERNS
                        (py "Credential Request") in
    let '(social_score, social_reasons) :=
      _analyze_patterns full_text SOCIAL_ENGINEERING_PATTERNS
                        (py "Social Engineering") in
    let '(impersonation_score, impersonation_reasons) :=
      _analyze_patterns full_text IMPERSONATION_PATTERNS
                        (py "Impersonation") in
    let '(financial_score, financial_reasons) :=
      _analyze_patterns full_text FINANCIAL_SCAM_PATTERNS
                        (py "Financial Scam") in
    let '(sender_score, sender_reasons) := _analyze_sender sender full_text in
    let '(subject_score, subject_reasons_list) :=
      if nonempty subject then _analyze_subject subject
      else (dec 0 1, []) in
    let '(linguistic_score, linguistic_reasons) :=
      _analyze_linguistic_features features in
    let is_sms := str_eqb content_type (py "sms") in
    let '(sms_regional_score, sms_regional_reasons) :=
      if is_sms
      then _analyze_patterns full_text REGIONAL_SMS_PATTERNS
                             (py "Regional SMS Scam")
      else (dec 0 1, []) in
    let '(tech_support_score, tech_support_reasons) :=
      if mem content_type [py "sms"; py "voice"]
      then _analyze_patterns full_text TECH_SUPPORT_PATTERNS
                             (py "Tech Support Scam")
      else (dec 0 1, []) in
    let '(brand_score, brand_reasons) :=
      _detect_brand_impersonation full_text sender in
    let cat (s : num) (i : list str) := {| c_score := s; indicators := i |} in
    let categories :=
      [ (py "urgency", cat urgency_score urgency_reasons);
        (py "credential_request", cat credential_score credential_reasons);
        (py "social_engineering", cat social_score social_reasons);
        (py "impersonation", cat impersonation_score impersonation_reasons);
        (py "financial_scam", cat financial_score financial_reasons);
        (py "sender_analysis", cat sender_score sender_reasons);
        (py "linguistic", cat linguistic_score linguistic_reasons);
        (py "brand_impersonation", cat brand_score brand_reasons) ] in
    let categories :=
      if nonempty subject
      then dict_set categories (py "subject_analysis")
                    (cat subject_score subject_reasons_list)
      else categories in
    let categories :=
      if is_sms
      then dict_set
             (dict_set categories (py "regional_keywords")
                       (cat sms_regional_score sms_regional_reasons))
             (py "tech_support")
             (cat tech_support_score tech_support_reasons)
      else categories in
    let legit_count :=
      len (filter (fun p => is_some (re_search p IGNORECASE full_text))
                  LEGITIMATE_INDICATORS) in
    let legit_reduction :=
      py_min (of_int legit_count * dec 5 100) (dec 15 100) in
    let weights := if is_sms then sms_weights else email_weights in
    let w (k : str) := dict_get weights k (dec 0 1) in
    let score :=
      urgency_score * w (py "urgency") +
      credential_score * w (py "credential") +
      social_score * w (py "social") +
      impersonation_score * w (py "impersonation") +
      financial_score * w (py "financial") +
      sender_score * w (py "sender") +
      subject_score * w (py "subject") +
      linguistic_score * w (py "linguistic") +
      brand_score * w (py "brand") +
      sms_regional_score * w (py "regional") +
      tech_support_score * w (py "tech") in
    let score := py_max (score - legit_reduction) (dec 0 1) in
    let flagged_scores :=
      [urgency_score; credential_score; social_score;
       financial_score; sender_score; brand_score] in
    let flagged := len (filter (fun s => s >? dec 3 10) flagged_scores) in
    let '(score, reasons) :=
      if (flagged >=? 4)%Z then
        (py_min (score * dec 15 10) (dec 1 1),
         reasons ++ [py "🚨 Multiple phishing categories simultaneously triggered"])
      else if (flagged >=? 3)%Z then
        (py_min (score * dec 14 10) (dec 1 1),
         reasons ++ [py "⚠️ Multiple phishing indicator categories detected"])
      else (score, reasons) in
    let has_link := is_some (re_search (py "https?://") NOFLAGS full_text) in
    let '(score, reasons) :=
      if (urgency_score >? dec 3 10) && has_link
         && (financial_score >? dec 3 10)
      then (py_min (score * dec 13 10) (dec 1 1),
            reasons ++ [py "🚨 Triple threat: urgency + embedded link + financial request detected"])
      else (score, reasons) in
    let final_score := py_min (py_max score (dec 0 1)) (dec 1 1) in
    final_score <- round4 final_score ;;
    let is_suspicious := final_score >? dec 5 10 in
    let all_reasons :=
      urgency_reasons ++ credential_reasons ++ social_reasons
        ++ impersonation_reasons ++ financial_reasons ++ sender_reasons
        ++ linguistic_reasons ++ brand_reasons ++ sms_regional_reasons
        ++ tech_support_reasons in
    let top_reasons := firstn 10 all_reasons ++ reasons in
    let confidence :=
      if (final_score >? dec 75 100) && (flagged >=? 3)%Z then py "HIGH"
      else if final_score >? dec 4 10 then py "MEDIUM"
      else py "LOW" in
    Ok {| engine := name; content_type := content_type;
          score := final_score; reasons := top_reasons;
          categories := categories; features := Some features;
          is_suspicious := is_suspicious; confidence := confidence |}.

End NLPEngine.
End NLPEngine.

(** ** visual_engine.py *)

Module VisualEngine.
Section VisualEngine.
Context {A : Arith}.
Local Open Scope num_scope.

(** The [re] module and [str.lower] beyond ASCII, from the Python
    runtime. *)
Variable re_search : str -> re_flags -> str -> option (list str).
Variable re_findall : str -> re_flags -> str -> list Found.
Variable unicode_lower : str -> str.

Record BrandInfo : Type := {
  logos : list str;
  elements : list str
}.

Definition SPOOFED_BRANDS : list (str * BrandInfo) :=
  [ (py "google",
     {| logos := [py "google-logo"; py "google_logo"; py "google.svg"; py "google-icon"];
        elements := [py "gmail"; py "google account"; py "sign in with google"; py "google drive"; py "google pay"] |});
    (py "microsoft",
     {| logos := [py "microsoft-logo"; py "msft-logo"; py "office-logo"; py "ms-logo"];
        elements := [py "microsoft"; py "outlook"; py "office 365"; py "office365"; py "windows live"; py "azure"] |});
    (py "apple",
     {| logos := [py "apple-logo"; py "apple-icon"];
        elements := [py "apple id"; py "icloud"; py "find my"; py "apple store"] |});
    (py "facebook",
     {| logos := [py "facebook-logo"; py "fb-logo"; py "meta-logo"];
        elements := [py "facebook"; py "log into facebook"; py "meta"; py "instagram login"; py "connect with facebook"] |});
    (py "paypal",
     {| logos := [py "paypal-logo"; py "paypal-icon"];
        elements := [py "paypal"; py "pay with paypal"; py "paypal checkout"; py "log in to paypal"] |});
    (py "amazon",
     {| logos := [py "amazon-logo"; py "amazon-icon"];
        elements := [py "amazon"; py "sign-in"; py "amazon prime"; py "aws console"; py "amazon web services"] |});
    (py "netflix",
     {| logos := [py "netflix-logo"];
        elements := [py "netflix"; py "continue watching"; py "your netflix account"] |});
    (py "chase",
     {| logos := [py "chase-logo"];
        elements := [py "chase bank"; py "jpmorgan chase"; py "sign in to chase"] |});
    (py "wellsfargo",
     {| logos := [py "wellsfargo-logo"];
        elements := [py "wells fargo"; py "sign on to wells fargo"] |});
    (py "coinbase",
     {| logos := [py "coinbase-logo"];
        elements := [py "coinbase"; py "sign into coinbase"; py "coinbase wallet"] |});
    (py "metamask",
     {| logos := [py "metamask-logo"; py "fox-logo"];
        elements := [py "metamask"; py "connect wallet"; py "seed phrase"; py "recovery phrase"; py "private key"] |});
    (py "dhl",
     {| logos := [py "dhl-logo"];
        elements := [py "dhl express"; py "track your shipment"; py "dhl delivery"] |});
    (py "sbi",
     {| logos := [py "sbi-logo"];
        elements := [py "state bank of india"; py "sbi net banking"; py "onlinesbi"] |});
    (py "hdfc",
     {| logos := [py "hdfc-logo"];
        elements := [py "hdfc bank"; py "hdfc netbanking"; py "hdfc credit card"] |}) ].

Definition DANGEROUS_INPUT_PATTERNS : list str :=
  [ py "type=[" ++ dq ++ py "\']?password[" ++ dq ++ py "\']?";
    py "name=[" ++ dq ++ py "\']?(pin|otp|cvv|cvc|card.?number|pan.[card]?|aadhaar|ssn|routing)[" ++ dq ++ py "\']?";
    py "placeholder=[" ++ dq ++ py "\']?(enter (your )?(otp|pin|cvv|card number|credit card))";
    py "autocomplete=[" ++ dq ++ py "\']?(cc-number|cc-csc|cc-exp)" ].

Definition name : str := py "visual_engine".

Record Features : Type := {
  has_password : bool;
  has_otp : bool;
  has_credit_card : bool;
  has_sensitive_id : bool;
  form_external : bool;
  hidden_count : Z;
  brand_impersonated : option str
}.

Record Result : Type := {
  engine : str;
  score : num;
  reasons : list str;
  brand_detected : option str;
  features : option Features;
  is_suspicious : bool;
  confidence : str
}.

Definition len {T : Type} (l : list T) : Z := Z.of_nat (length l).

Definition nonempty {T : Type} (l : list T) : bool :=
  match l with
  | [] => false
  | _ :: _ => true
  end.

(** [bool(re.search(pattern, text, flags))] *)
Definition found (pattern : str) (flags : re_flags) (text : str) : bool :=
  match re_search pattern flags text with
  | Some _ => true
  | None => false
  end.

(** [sum(1 for x in xs if x in text)] *)
Definition hits (xs : list str) (text : str) : Z :=
  len (filter (fun x => contains text x) xs).

(** [score += x; reasons.append(r)] under the condition [c]. *)
Definition bump (c : bool) (x : num) (r : str) (st : num * list str)
  : num * list str :=
  if c then (fst st + x, snd st ++ [r]) else st.

Definition string_of (f : Found) : str :=
  match f with
  | FStr s => s
  | FTuple t => hd [] t
  end.

Definition analyze (html_content url page_title : str) : result Result :=
  if negb (nonempty html_content) then
    Ok {| engine := name; score := dec 3 10;
          reasons := [py "No HTML content available"];
          brand_detected := None; features := None;
          is_suspicious := false; confidence := py "LOW" |}
  else
    let html := lower unicode_lower html_content in
    let st := (dec 0 1, @nil str) in
    (* Form analysis *)
    let has_password :=
      found (py "type=[" ++ dq ++ py "\']?password[" ++ dq ++ py "\']?")
            NOFLAGS html in
    let has_otp :=
      found (py "(otp|one.?time.?pass|verification\s*code)") NOFLAGS html in
    let has_cc :=
      found (py "(credit.?card|debit.?card|card.?number|cvv|cvc|cc-number)")
            NOFLAGS html in
    let has_pan :=
      found (py "(pan\s*card|aadhaar|ssn|social.?security)") NOFLAGS html in
    let has_pin :=
      found (py "name=[" ++ dq ++ py "\']?pin[" ++ dq
               ++ py "\']?|placeholder=[" ++ dq ++ py "\']?.*pin")
            NOFLAGS html in
    let has_cred_form :=
      (hits (map py ["login"; "password"; "username"; "email"; "signin"]%string)
            html >=? 2)%Z in
    (* External form action *)
    let form_actions :=
      map string_of
          (re_findall (py "<form[^>]*action\s*=\s*[" ++ dq ++ py "\']([^"
                          ++ dq ++ py "\']+)")
                      NOFLAGS html) in
    let form_external :=
      if nonempty url && nonempty form_actions then
        let host :=
          hd [] (split (replace (replace url (py "https://") [])
                                (py "http://") [])
                       (py "/")) in
        existsb (fun a => startswith a (py "http") && nonempty host
                          && negb (contains a host))
                form_actions
      else false in
    let hidden_count :=
      len (re_findall (py "type\s*=\s*[" ++ dq ++ py "\']hidden[" ++ dq
                          ++ py "\']")
                      NOFLAGS html) in
    (* Dangerous input field scoring *)
    let st := bump has_password (dec 20 100)
                   (py "🔑 Password input field detected") st in
    let st := bump has_otp (dec 30 100)
                   (py "🔢 OTP / one-time code input field detected") st in
    let st := bump has_cc (dec 45 100)
                   (py "💳 Credit / debit card input field detected — high phishing risk") st in
    let st := bump has_pan (dec 40 100)
                   (py "🪪 Sensitive ID field (PAN/Aadhaar/SSN) detected") st in
    let st := bump has_pin (dec 30 100)
                   (py "🔐 PIN input field detected") st in
    let st := bump has_cred_form (dec 20 100)
                   (py "📋 Credential collection form detected") st in
    let st := bump form_external (dec 55 100)
                   (py "🚨 Form submits credentials to external domain — data exfiltration risk!") st in
    let st := bump (hidden_count >? 3)%Z (dec 20 100)
                   (py "🕵️ Multiple hidden fields (" ++ str_of_Z hidden_count
                      ++ py ") — possible data collection") st in
    (* Dangerous input pattern scanning *)
    let st :=
      bump (existsb (fun pat => found pat IGNORECASE html && negb has_cc
                                && negb has_pin)
                    DANGEROUS_INPUT_PATTERNS)
           (dec 15 100) (py "⚠️ Sensitive input pattern detected") st in
    (* Brand spoofing *)
    let brand_hit :=
      find (fun entry =>
              let '(brand_name, info) := entry in
              let element_hits := hits (elements info) html in
              let logo_hits := hits (logos info) html in
              let title_hit :=
                if contains (lower unicode_lower page_title) brand_name
                then 1%Z else 0%Z in
              let total_hits := (element_hits + logo_hits + title_hit)%Z in
              (total_hits >=? 2)%Z && nonempty url
              && negb (contains (lower unicode_lower url) brand_name))
           SPOOFED_BRANDS in
    let '(st, brand_detected) :=
      match brand_hit with
      | Some (brand_name, info) =>
          let element_hits := hits (elements info) html in
          let logo_hits := hits (logos info) html in
          let penalty :=
            py_min (dec 4 10 + of_int element_hits * dec 1 10)
                   (dec 75 100) in
          ((fst st + penalty,
            snd st ++ [py "🏷️ Brand impersonation detected: '"
                         ++ title brand_name ++ py "' (elements: "
                         ++ str_of_Z element_hits ++ py ", logos: "
                         ++ str_of_Z logo_hits ++ py ")"]),
           Some brand_name)
      | None => (st, None)
      end in
    (* Fake login page fingerprint *)
    let login_keywords :=
      hits (map py ["forgot password"; "remember me"; "keep me signed in";
                    "create account"; "sign up"; "register"]%string)
           html in
    let st :=
      bump ((login_keywords >=? 2)%Z && has_password
            && negb (existsb (fun legit => contains url legit)
                             (map py ["google.com"; "microsoft.com";
                                      "apple.com"; "amazon.com"]%string)))
           (dec 25 100)
           (py "🔒 Fake login page fingerprint (login UI on non-legitimate domain)")
           st in
    (* Page structure analysis *)
    let is_minimal :=
      negb (contains html (py "<nav")) && negb (contains html (py "<footer"))
      && (len html <? 5000)%Z in
    let st := bump (is_minimal && has_password) (dec 25 100)
                   (py "📄 Minimal page (no nav/footer) with login form — classic phishing template") st in
    let st := bump (contains html (py "<iframe")) (dec 15 100)
                   (py "Iframe embedded — potential content injection") st in
    (* JavaScript threat indicators *)
    let scripts :=
      join (py " ")
           (map string_of
                (re_findall (py "<script[^>]*>(.*?)</script>") DOTALL html)) in
    let st := bump (found (py "(eval\s*\(|unescape\s*\(|atob\s*\(|fromCharCode)")
                          NOFLAGS scripts)
                   (dec 25 100)
                   (py "🔀 Obfuscated JavaScript (eval/atob/fromCharCode)") st in
    let st := bump (found (py "(onkeypress|onkeydown|addEventListener.*key)")
                          NOFLAGS scripts)
                   (dec 60 100)
                   (py "⌨️ Keylogger pattern detected in JavaScript!") st in
    let st := bump (found (py "(clipboard|navigator\.clipboard|document\.execCommand.*copy)")
                          NOFLAGS scripts)
                   (dec 40 100)
                   (py "📋 Clipboard access detected — possible crypto wallet drainer") st in
    let st := bump (contains html (py "oncontextmenu")
                    && contains html (py "return false"))
                   (dec 15 100) (py "Right-click disabled on page") st in
    (* Anti-analysis indicators *)
    let st := bump (found (py "(disable|prevent)\s*(select|copy|paste|inspect)")
                          IGNORECASE html)
                   (dec 20 100)
                   (py "🚫 Anti-inspection measures detected") st in
    let clamped := py_min (py_max (fst st) (dec 0 1)) (dec 1 1) in
    final_score <- round4 clamped ;;
    let is_suspicious := final_score >? dec 5 10 in
    let confidence :=
      if final_score >? dec 75 100 then py "HIGH"
      else if final_score >? dec 4 10 then py "MEDIUM"
      else py "LOW" in
    Ok {| engine := name; score := final_score; reasons := snd st;
          brand_detected := brand_detected;
          features :=
            Some {| has_password := has_password; has_otp := has_otp;
                    has_credit_card := has_cc; has_sensitive_id := has_pan;
                    form_external := form_external;
                    hidden_count := hidden_count;
                    brand_impersonated := brand_detected |};
          is_suspicious := is_suspicious; confidence := confidence |}.

End VisualEngine.
End VisualEngine.

(** * Properties *)

(** ** Exact arithmetic *)

Module ExactFacts.
Local Open Scope Q_scope.

Lemma Qltb_lt (x y : Q) : Qltb x y = true <-> x < y.
Proof.
  unfold Qltb. rewrite negb_true_iff. split; intro H.
  - apply Qnot_le_lt. intro Hle. apply Qle_bool_iff in Hle. congruence.
  - destruct (Qle_bool y x) eqn:E; [| reflexivity].
    apply Qle_bool_iff in E. exfalso. exact (Qlt_not_le _ _ H E).
Qed.

Lemma Qltb_ge (x y : Q) : Qltb x y = false <-> y <= x.
Proof.
  unfold Qltb. rewrite negb_false_iff. apply Qle_bool_iff.
Qed.

Lemma Qltb_comp (x x' y y' : Q) :
  x == x' -> y == y' -> Qltb x y = Qltb x' y'.
Proof.
  intros Hx Hy. destruct (Qltb x' y') eqn:E.
  - apply Qltb_lt. apply Qltb_lt in E. now rewrite Hx, Hy.
  - apply Qltb_ge. apply Qltb_ge in E. now rewrite Hx, Hy.
Qed.

Lemma Qle_bool_comp (x x' y y' : Q) :
  x == x' -> y == y' -> Qle_bool x y = Qle_bool x' y'.
Proof.
  intros Hx Hy. destruct (Qle_bool x' y') eqn:E.
  - apply Qle_bool_iff. apply Qle_bool_iff in E. now rewrite Hx, Hy.
  - destruct (Qle_bool x y) eqn:E'; [| reflexivity].
    apply Qle_bool_iff in E'. rewrite Hx, Hy in E'.
    apply Qle_bool_iff in E'. congruence.
Qed.

(** [min] and [max] of the builtins on exact numbers. *)
Lemma py_max_cases (x y : Q) :
  (x < y /\ @py_max Exact x y = y) \/ (y <= x /\ @py_max Exact x y = x).
Proof.
  unfold py_max. cbn. destruct (Qltb x y) eqn:E.
  - left. split; [now apply Qltb_lt | reflexivity].
  - right. split; [now apply Qltb_ge | reflexivity].
Qed.

Lemma py_min_cases (x y : Q) :
  (y < x /\ @py_min Exact x y = y) \/ (x <= y /\ @py_min Exact x y = x).
Proof.
  unfold py_min. cbn. destruct (Qltb y x) eqn:E.
  - left. split; [now apply Qltb_lt | reflexivity].
  - right. split; [now apply Qltb_ge | reflexivity].
Qed.

Lemma py_max_comp (x x' y y' : Q) :
  x == x' -> y == y' -> @py_max Exact x y == @py_max Exact x' y'.
Proof.
  intros Hx Hy. unfold py_max. cbn. rewrite (Qltb_comp Hx Hy).
  now destruct (Qltb x' y').
Qed.

Lemma py_min_comp (x x' y y' : Q) :
  x == x' -> y == y' -> @py_min Exact x y == @py_min Exact x' y'.
Proof.
  intros Hx Hy. unfold py_min. cbn. rewrite (Qltb_comp Hy Hx).
  now destruct (Qltb y' x').
Qed.

Lemma py_max_lb_r (x y : Q) : y <= @py_max Exact x y.
Proof.
  destruct (py_max_cases x y) as [[H ->] | [H ->]];
    [apply Qle_refl | assumption].
Qed.

Lemma py_max_lb_l (x y : Q) : x <= @py_max Exact x y.
Proof.
  destruct (py_max_cases x y) as [[H ->] | [H ->]];
    [now apply Qlt_le_weak | apply Qle_refl].
Qed.

Lemma py_max_lub (x y z : Q) : x <= z -> y <= z -> @py_max Exact x y <= z.
Proof.
  intros Hx Hy. now destruct (py_max_cases x y) as [[H ->] | [H ->]].
Qed.

Lemma py_min_ub_r (x y : Q) : @py_min Exact x y <= y.
Proof.
  destruct (py_min_cases x y) as [[H ->] | [H ->]];
    [apply Qle_refl | assumption].
Qed.

Lemma py_min_ub_l (x y : Q) : @py_min Exact x y <= x.
Proof.
  destruct (py_min_cases x y) as [[H ->] | [H ->]];
    [now apply Qlt_le_weak | apply Qle_refl].
Qed.

Lemma py_min_glb (x y z : Q) : z <= x -> z <= y -> z <= @py_min Exact x y.
Proof.
  intros Hx Hy. now destruct (py_min_cases x y) as [[H ->] | [H ->]].
Qed.

Lemma clamp01_range (x : Q) : 0 <= @clamp01 Exact x <= 1.
Proof.
  unfold clamp01. split.
  - apply py_min_glb; [apply py_max_lb_r | discriminate].
  - apply py_min_ub_r.
Qed.

(** Truncation toward zero. *)
Lemma Qtrunc_comp (x y : Q) : x == y -> Qtrunc x = Qtrunc y.
Proof.
  unfold Qeq, Qtrunc. intro H.
  rewrite <- (Z.quot_mul_cancel_r (Qnum x) (Zpos (Qden x)) (Zpos (Qden y)))
    by discriminate.
  rewrite <- (Z.quot_mul_cancel_r (Qnum y) (Zpos (Qden y)) (Zpos (Qden x)))
    by discriminate.
  rewrite H. f_equal. apply Z.mul_comm.
Qed.

Lemma Qtrunc_inject_Z (n : Z) : Qtrunc (inject_Z n) = n.
Proof. unfold Qtrunc. cbn. apply Z.quot_1_r. Qed.

Lemma Qtrunc_nonneg (x : Q) : 0 <= x -> (0 <= Qtrunc x)%Z.
Proof.
  unfold Qle, Qtrunc. cbn. rewrite Z.mul_1_r. intro H.
  apply Z.quot_pos; [assumption | reflexivity].
Qed.

Lemma Qtrunc_le (x : Q) (n : Z) : 0 <= x -> x <= inject_Z n -> (Qtrunc x <= n)%Z.
Proof.
  unfold Qle, Qtrunc. cbn. rewrite !Z.mul_1_r. intros H0 H.
  rewrite Z.quot_div_nonneg by (try assumption; reflexivity).
  apply Z.lt_succ_r. apply Z.div_lt_upper_bound; [reflexivity | lia].
Qed.

Lemma Qtrunc_ge (x : Q) (n : Z) : inject_Z n <= x -> 0 <= x -> (n <= Qtrunc x)%Z.
Proof.
  unfold Qle, Qtrunc. cbn. rewrite !Z.mul_1_r. intros H H0.
  rewrite Z.quot_div_nonneg by (try assumption; reflexivity).
  apply Z.div_le_lower_bound; [reflexivity | lia].
Qed.

(** [int(x * 10000) / 10000.0] never raises on an exact number. *)
Definition round4_value (x : Q) : Q :=
  inject_Z (Qtrunc (x * inject_Z 10000)) / (10000 # 1).

Lemma round4_exact (x : Q) : @round4 Exact x = Ok (round4_value x).
Proof. reflexivity. Qed.

Lemma round4_value_comp (x y : Q) :
  x == y -> round4_value x = round4_value y.
Proof.
  intro H. unfold round4_value. f_equal. f_equal.
  apply Qtrunc_comp. now rewrite H.
Qed.

Lemma round4_value_range (x : Q) :
  0 <= x <= 1 -> 0 <= round4_value x <= 1.
Proof.
  intros [H0 H1]. unfold round4_value.
  assert (Hx : 0 <= x * inject_Z 10000).
  { apply Qmult_le_0_compat; [assumption | discriminate]. }
  assert (Hx' : x * inject_Z 10000 <= inject_Z 10000).
  { setoid_replace (inject_Z 10000) with (1 * inject_Z 10000) at 2 by ring.
    apply Qmult_le_compat_r; [assumption | discriminate]. }
  pose proof (Qtrunc_nonneg Hx) as Hn.
  pose proof (Qtrunc_le Hx Hx') as Hn'.
  split.
  - apply Qle_shift_div_l; [reflexivity |].
    rewrite Qmult_0_l. change 0 with (inject_Z 0). now rewrite <- Zle_Qle.
  - apply Qle_shift_div_r; [reflexivity |].
    rewrite Qmult_1_l. change (10000 # 1) with (inject_Z 10000).
    now rewrite <- Zle_Qle.
Qed.

(** The value kept is at most [x] and less than 0.0001 below it. *)
Lemma round4_value_le (x : Q) : 0 <= x -> round4_value x <= x.
Proof.
  intro H0. unfold round4_value.
  apply Qle_shift_div_r; [reflexivity |].
  change (10000 # 1) with (inject_Z 10000).
  assert (Hx : 0 <= x * inject_Z 10000).
  { apply Qmult_le_0_compat; [assumption | discriminate]. }
  revert Hx. generalize (x * inject_Z 10000). intros y Hy.
  unfold Qle, Qtrunc in *. cbn in *. rewrite Z.mul_1_r in *.
  rewrite Z.quot_div_nonneg by (try assumption; reflexivity).
  rewrite Z.mul_comm. apply Z.mul_div_le. reflexivity.
Qed.

End ExactFacts.

(** * Facts about risk_scorer.py *)

Module RiskScorerFacts.
Import RiskScorer ExactFacts.
Local Open Scope Q_scope.
#[local] Existing Instance Exact | 0.

Ltac exact_arith :=
  cbv beta iota delta [num dec of_int add sub mul div ltb leb to_int Exact] in *.

(** The weight [calculate_risk] gives a result, and what the result adds
    to the numerator of the fused score. *)
Definition weight_of {A : Arith} (r : EngineResult) : num :=
  dict_get ENGINE_WEIGHTS (get (engine r) (py "unknown")) (dec 15 100).

Definition score_of {A : Arith} (r : EngineResult) : num :=
  get (score r) (dec 0 1).

Definition Qsum (l : list Q) : Q := fold_right Qplus 0 l.

Lemma fold_step_weighted (l : list (@EngineResult Exact)) (a : Acc) :
  weighted_score (fold_left step l a)
  == weighted_score a + Qsum (map (fun r => score_of r * weight_of r) l).
Proof.
  revert a. induction l as [| r l IH]; intro a; cbn [fold_left map Qsum fold_right].
  - symmetry. apply Qplus_0_r.
  - rewrite IH. symmetry. apply Qplus_assoc.
Qed.

Lemma fold_step_total (l : list (@EngineResult Exact)) (a : Acc) :
  total_weight (fold_left step l a)
  == total_weight a + Qsum (map weight_of l).
Proof.
  revert a. induction l as [| r l IH]; intro a; cbn [fold_left map Qsum fold_right].
  - symmetry. apply Qplus_0_r.
  - rewrite IH. symmetry. apply Qplus_assoc.
Qed.

Lemma fold_step_reasons {A : Arith} (l : list EngineResult) (a : Acc) :
  all_reasons (fold_left step l a)
  = all_reasons a ++ concat (map (fun r => get (reasons r) []) l).
Proof.
  revert a. induction l as [| r l IH]; intro a; cbn [fold_left map concat].
  - now rewrite app_nil_r.
  - rewrite IH. cbn. now rewrite app_assoc.
Qed.

Lemma Qsum_perm (l l' : list Q) : Permutation l l' -> Qsum l == Qsum l'.
Proof.
  induction 1; cbn.
  - reflexivity.
  - now rewrite IHPermutation.
  - ring.
  - now rewrite IHPermutation1.
Qed.


Lemma divisor_nonzero (tw : Q) : Qeq_bool (@py_max Exact tw (1 # 100)) 0 = false.
Proof.
  destruct (Qeq_bool (@py_max Exact tw (1 # 100)) 0) eqn:E; [| reflexivity].
  apply Qeq_bool_iff in E. pose proof (py_max_lb_r tw (1 # 100)) as H.
  rewrite E in H. unfold Qle in H. cbn in H. lia.
Qed.

(** The number of results that scored above 0.6. *)
Definition high_scores {A : Arith} (l : list EngineResult) : Z :=
  Z.of_nat (length (filter high_score l)).

(** The reasons [calculate_risk] collects before it drops repetitions. *)
Definition collected {A : Arith} (l : list EngineResult) : list str :=
  concat (map (fun r => get (reasons r) []) l)
    ++ (if (3 <=? high_scores l)%Z
        then [py "Multiple engines agree on high risk"] else []).

(** The fused score as [calculate_risk] computes it from the numerator
    [n], the denominator [d] and the number [h] of high scores. *)
Definition fuse (n d : Q) (h : Z) : Q :=
  let f := n / @py_max Exact d (1 # 100) in
  let f := if (3 <=? h)%Z then @py_min Exact (f * (12 # 10)) 1 else f in
  round4_value (@py_min Exact (@py_max Exact f 0) 1).

Lemma calculate_risk_fields (fmt : Q -> str) (l : list EngineResult) :
  exists r, calculate_risk fmt l = Ok r
    /\ risk_score r
       = fuse (weighted_score (fold_left step l acc0))
              (total_weight (fold_left step l acc0)) (high_scores l)
    /\ risk_level r = level (_get_risk_level (risk_score r))
    /\ risk_color r = color (_get_risk_level (risk_score r))
    /\ risk_icon r = icon (_get_risk_level (risk_score r))
    /\ is_phishing r = Qltb (6 # 10) (risk_score r)
    /\ recommendation r = _get_recommendation (risk_score r)
    /\ engine_scores r = acc_engine_scores (fold_left step l acc0)
    /\ risk_reasons r
       = firstn (Nat.min (length (dedup [] (collected l))) 15)
                (dedup [] (collected l)).
Proof.
  unfold calculate_risk, fuse, collected, high_scores.
  change (concat (map (fun r => get (reasons r) []) l))
    with (all_reasons acc0 ++ concat (map (fun r => get (reasons r) []) l)).
  rewrite <- (fold_step_reasons l acc0).
  set (a := fold_left step l acc0).
  cbn [div Exact]. unfold Qdiv_py at 1.
  change (dec 1 100) with (1 # 100).
  rewrite divisor_nonzero. cbn [bind].
  destruct (3 <=? Z.of_nat (length (filter high_score l)))%Z;
    rewrite round4_exact; cbn [bind]; eexists; (split; [reflexivity |]);
    cbn; rewrite ?app_nil_r; repeat split; reflexivity.
Qed.


Lemma fuse_comp (n n' d d' : Q) (h : Z) :
  n == n' -> d == d' -> fuse n d h = fuse n' d' h.
Proof.
  intros Hn Hd. unfold fuse. apply round4_value_comp.
  assert (Hf : n / @py_max Exact d (1 # 100)
               == n' / @py_max Exact d' (1 # 100)).
  { rewrite Hn. now rewrite (py_max_comp Hd (Qeq_refl (1 # 100))). }
  apply py_min_comp; [| reflexivity]. apply py_max_comp; [| reflexivity].
  destruct (3 <=? h)%Z; [| exact Hf].
  apply py_min_comp; [| reflexivity]. now rewrite Hf.
Qed.

Lemma high_scores_perm {A : Arith} (l l' : list EngineResult) :
  Permutation l l' -> high_scores l = high_scores l'.
Proof.
  intro H. unfold high_scores. f_equal. apply Permutation_length.
  induction H; cbn.
  - constructor.
  - destruct (high_score x); [constructor |]; assumption.
  - destruct (high_score x), (high_score y);
      try apply perm_swap; apply Permutation_refl.
  - eapply perm_trans; eassumption.
Qed.

(** In exact arithmetic the sums, and so the fused score, do not depend
    on the order of the results. *)
Lemma fused_perm (l l' : list (@EngineResult Exact)) :
  Permutation l l' ->
  fuse (weighted_score (fold_left step l acc0))
       (total_weight (fold_left step l acc0)) (high_scores l)
  = fuse (weighted_score (fold_left step l' acc0))
         (total_weight (fold_left step l' acc0)) (high_scores l').
Proof.
  intro H. rewrite (high_scores_perm H). apply fuse_comp.
  - rewrite !fold_step_weighted. apply Qplus_comp; [reflexivity |].
    apply Qsum_perm. now apply Permutation_map.
  - rewrite !fold_step_total. apply Qplus_comp; [reflexivity |].
    apply Qsum_perm. now apply Permutation_map.
Qed.

(** The loop that drops repeated reasons. *)
Lemma dedup_In (rs seen : list str) (x : str) :
  In x (dedup seen rs) <-> In x rs /\ ~ In x seen.
Proof.
  revert seen. induction rs as [| r rs IH]; intro seen; cbn.
  - tauto.
  - destruct (mem r seen) eqn:E.
    + apply mem_In in E. rewrite IH. intuition congruence.
    + assert (Hr : ~ In r seen).
      { intro Hin. apply mem_In in Hin. congruence. }
      cbn. rewrite IH. cbn.
      destruct (list_eq_dec N.eq_dec r x) as [-> | Hne]; intuition congruence.
Qed.

Lemma dedup_NoDup (rs seen : list str) : NoDup (dedup seen rs).
Proof.
  revert seen. induction rs as [| r rs IH]; intro seen; cbn.
  - constructor.
  - destruct (mem r seen); [apply IH |].
    constructor; [| apply IH].
    rewrite dedup_In. cbn. tauto.
Qed.



Lemma calculate_risk_reasons (fmt : Q -> str) (l : list EngineResult)
  (r : RiskAssessment) :
  calculate_risk fmt l = Ok r ->
  risk_reasons r = firstn 15 (dedup [] (collected l)).
Proof.
  intro H. destruct (calculate_risk_fields fmt l) as (r' & Hr & Hf).
  rewrite H in Hr. injection Hr as <-.
  destruct Hf as (_ & _ & _ & _ & _ & _ & _ & ->).
  set (u := dedup [] (collected l)).
  destruct (Nat.min_spec (length u) 15) as [[Hlt ->] | [Hge ->]];
    [| reflexivity].
  rewrite !firstn_all2; [reflexivity | lia | lia].
Qed.

Lemma fused_range (n d : Q) (h : Z) : 0 <= fuse n d h <= 1.
Proof. unfold fuse. apply round4_value_range. apply (clamp01_range _). Qed.

Lemma in_band (lo hi s : Q) :
  lo <= s -> s < hi -> Qle_bool lo s && Qltb s hi = true.
Proof.
  intros H1 H2. apply andb_true_intro. split;
    [now apply Qle_bool_iff | now apply Qltb_lt].
Qed.

Lemma above_band (lo hi s : Q) : hi <= s -> Qle_bool lo s && Qltb s hi = false.
Proof.
  intro H. apply andb_false_intro2. now apply Qltb_ge.
Qed.

(** The band of a score in [0, 1]. *)
Lemma get_risk_level_bands (s : Q) :
  0 <= s <= 1 ->
  (s < 2 # 10 -> _get_risk_level s = SAFE)
  /\ (2 # 10 <= s -> s < 4 # 10 -> _get_risk_level s = LOW)
  /\ (4 # 10 <= s -> s < 6 # 10 -> _get_risk_level s = MEDIUM)
  /\ (6 # 10 <= s -> s < 8 # 10 -> _get_risk_level s = HIGH)
  /\ (8 # 10 <= s -> _get_risk_level s = CRITICAL).
Proof.
  intros [H0 H1]. unfold _get_risk_level, RISK_LEVELS, find_level.
  exact_arith. repeat split; intros;
    rewrite ?(@above_band (0 # 1) (2 # 10)) by lra;
    rewrite ?(@above_band (2 # 10) (4 # 10)) by lra;
    rewrite ?(@above_band (4 # 10) (6 # 10)) by lra;
    rewrite ?(@above_band (6 # 10) (8 # 10)) by lra;
    rewrite in_band by lra; reflexivity.
Qed.

(** C6. In exact arithmetic the score [calculate_risk] returns lies in
    [0, 1], its level is the one of the half-open band the score falls in
    ([0,0.2) SAFE, [0.2,0.4) LOW, [0.4,0.6) MEDIUM, [0.6,0.8) HIGH,
    [0.8,1.0] CRITICAL), and [is_phishing] holds exactly when the score
    is above 0.6.  A score of exactly 0.6 is HIGH and one of exactly 1.0
    is CRITICAL, in exact arithmetic and in binary64 alike. *)
Theorem risk_level_bands (fmt : Q -> str) (l : list EngineResult)
  (r : RiskAssessment) :
  calculate_risk fmt l = Ok r ->
  let s := risk_score r in
  0 <= s <= 1
  /\ (s < 2 # 10 -> risk_level r = py "SAFE")
  /\ (2 # 10 <= s -> s < 4 # 10 -> risk_level r = py "LOW")
  /\ (4 # 10 <= s -> s < 6 # 10 -> risk_level r = py "MEDIUM")
  /\ (6 # 10 <= s -> s < 8 # 10 -> risk_level r = py "HIGH")
  /\ (8 # 10 <= s -> risk_level r = py "CRITICAL")
  /\ (is_phishing r = true <-> 6 # 10 < s)
  /\ @_get_risk_level Exact (6 # 10) = HIGH
  /\ @_get_risk_level Exact 1 = CRITICAL
  /\ @_get_risk_level Binary64 (dec 6 10) = HIGH
  /\ @_get_risk_level Binary64 (dec 1 1) = CRITICAL.
Proof.
  intro H. destruct (calculate_risk_fields fmt l)
    as (r' & Hr & Hs & Hl & _ & _ & Hp & _).
  rewrite H in Hr. injection Hr as <-. cbv zeta.
  assert (Hrange : 0 <= risk_score r <= 1).
  { rewrite Hs. apply fused_range. }
  destruct (get_risk_level_bands Hrange) as (B1 & B2 & B3 & B4 & B5).
  split; [exact Hrange |].
  rewrite Hl, Hp.
  repeat split; intros;
    try (rewrite B1 by assumption); try (rewrite B2 by assumption);
    try (rewrite B3 by assumption); try (rewrite B4 by assumption);
    try (rewrite B5 by assumption); try reflexivity.
  - now apply Qltb_lt.
  - now apply Qltb_lt.
Qed.

Definition no_format {A : Arith} (x : num) : str := [].

Definition result_of {A : Arith} (name : string) (n : Z) (d : positive)
  (reasons : list str) : EngineResult :=
  {| engine := Some (py name); score := Some (dec n d);
     reasons := Some reasons |}.

Lemma risk_level_bands_witness :
  exists r, @calculate_risk Exact (@no_format Exact)
              [result_of "url_analyzer" 6 10 []] = Ok r
            /\ risk_level r = py "HIGH" /\ is_phishing r = false.
Proof.
  destruct (calculate_risk_fields (@no_format Exact)
              [result_of "url_analyzer" 6 10 []]) as (r & Hr & Hs & _).
  exists r. split; [exact Hr |].
  destruct (risk_level_bands _ _ Hr) as (_ & _ & _ & _ & B4 & _ & P & _).
  split.
  - apply B4; rewrite Hs; vm_compute; [discriminate | reflexivity].
  - destruct (is_phishing r); [| reflexivity].
    destruct P as [P _]. specialize (P eq_refl). rewrite Hs in P.
    vm_compute in P. discriminate P.
Defined.

(** The score part of [calculate_risk], in any arithmetic. *)
Definition fused_result {A : Arith} (l : list EngineResult) : result num :=
  let a := fold_left step l acc0 in
  bind (div (weighted_score a) (py_max (total_weight a) (dec 1 100)))
       (fun f =>
          let f := if (3 <=? high_scores l)%Z
                   then py_min (mul f (dec 12 10)) (dec 1 1) else f in
          round4 (py_min (py_max f (dec 0 1)) (dec 1 1))).

Lemma calculate_risk_generic {A : Arith} (fmt : num -> str)
  (l : list EngineResult) :
  match fused_result l with
  | Ok s =>
      exists r, calculate_risk fmt l = Ok r
                /\ risk_score r = s
                /\ risk_level r = level (_get_risk_level s)
                /\ is_phishing r = ltb (dec 6 10) s
  | Raise e => calculate_risk fmt l = Raise e
  end.
Proof.
  unfold fused_result, calculate_risk, high_scores.
  destruct (div _ _) as [f | e]; cbn [bind]; [| reflexivity].
  destruct (3 <=? Z.of_nat (length (filter high_score l)))%Z;
    (destruct (round4 _) as [s | e]; cbn [bind]; [| reflexivity]);
    eexists; (split; [reflexivity |]); cbn; repeat split; reflexivity.
Qed.












(** C8. On the empty list [calculate_risk] returns score 0.0, level SAFE
    and is_phishing false, in exact arithmetic and in binary64; the
    divisor [max(total_weight, 0.01)] is never zero, so in exact
    arithmetic no input list makes the division raise. *)
Theorem calculate_risk_empty :
  (forall fmt : Q -> str,
     exists r, @calculate_risk Exact fmt [] = Ok r
               /\ risk_score r == 0
               /\ risk_level r = py "SAFE" /\ is_phishing r = false)
  /\ (forall fmt : float -> str,
        exists r, @calculate_risk Binary64 fmt [] = Ok r
                  /\ risk_score r = 0%float
                  /\ risk_level r = py "SAFE" /\ is_phishing r = false)
  /\ (forall (fmt : Q -> str) (l : list (@EngineResult Exact)),
        ~ @py_max Exact (total_weight (fold_left step l acc0)) (1 # 100) == 0
        /\ exists r, calculate_risk fmt l = Ok r).
Proof.
  split; [| split].
  - intro fmt. pose proof (@calculate_risk_generic Exact fmt []) as H.
    change (@fused_result Exact []) with (@Ok Q (0 # 10000)) in H.
    destruct H as (r & Hr & Hs & Hl & Hp).
    exists r. rewrite Hs, Hl, Hp. repeat split; try reflexivity. exact Hr.
  - intro fmt. pose proof (@calculate_risk_generic Binary64 fmt []) as H.
    match type of H with
    | match ?x with _ => _ end =>
        replace x with (@Ok (@num Binary64) 0%float) in H
          by (vm_compute; reflexivity)
    end.
    destruct H as (r & Hr & Hs & Hl & Hp).
    exists r. rewrite Hs, Hl, Hp. repeat split; try reflexivity. exact Hr.
  - intros fmt l. split.
    + intro E. apply Qeq_bool_iff in E. rewrite divisor_nonzero in E.
      discriminate E.
    + destruct (calculate_risk_fields fmt l) as (r & Hr & _). now exists r.
Qed.

(** Lookup in a dict, and how assignment changes it. *)
Lemma dict_get_set_same {V : Type} (d : list (str * V)) (k : str) (v def : V) :
  dict_get (dict_set d k v) k def = v.
Proof.
  induction d as [| [k' v'] d IH]; cbn.
  - now rewrite str_eqb_refl.
  - destruct (str_eqb k k') eqn:E; cbn; rewrite ?str_eqb_refl, ?E; auto.
Qed.

Lemma dict_get_set_other {V : Type} (d : list (str * V)) (k k' : str)
  (v def : V) :
  k' <> k -> dict_get (dict_set d k v) k' def = dict_get d k' def.
Proof.
  intro Hne. assert (Hb : str_eqb k' k = false).
  { destruct (str_eqb k' k) eqn:E; [| reflexivity].
    apply str_eqb_eq in E. contradiction. }
  induction d as [| [k0 v0] d IH]; cbn.
  - now rewrite Hb.
  - destruct (str_eqb k k0) eqn:E; cbn.
    + apply str_eqb_eq in E. subst k0. now rewrite Hb.
    + now rewrite IH.
Qed.

Lemma dict_set_keys {V : Type} (d : list (str * V)) (k : str) (v : V) :
  NoDup (map fst d) ->
  NoDup (map fst (dict_set d k v))
  /\ forall x, In x (map fst (dict_set d k v)) <-> x = k \/ In x (map fst d).
Proof.
  induction d as [| [k' v'] d IH]; cbn; intro H.
  - split; [repeat constructor; auto | intuition].
  - inversion H as [| ? ? Hn Hd]; subst. destruct (str_eqb k k') eqn:E; cbn.
    + apply str_eqb_eq in E. subst k'. split; [assumption | intuition].
    + destruct (IH Hd) as [IH1 IH2]. split.
      * constructor; [| assumption]. rewrite IH2. intros [-> | Hin].
        -- rewrite str_eqb_refl in E. discriminate.
        -- contradiction.
      * intro x. rewrite IH2. intuition.
Qed.

(** The engine name and the weight [calculate_risk] reads off a result. *)
Definition name_of {A : Arith} (r : EngineResult) : str :=
  get (engine r) (py "unknown").

Lemma engine_scores_keys {A : Arith} (l : list EngineResult) (a : Acc) :
  NoDup (map fst (acc_engine_scores a)) ->
  NoDup (map fst (acc_engine_scores (fold_left step l a))).
Proof.
  revert a. induction l as [| x l IH]; intros a H; cbn [fold_left].
  - exact H.
  - apply IH. cbn [step acc_engine_scores]. now apply dict_set_keys.
Qed.

Lemma engine_scores_last {A : Arith} (l : list EngineResult)
  (x : EngineResult) (a : Acc) (def : EngineScore) :
  dict_get (acc_engine_scores a) (name_of x) def
  = {| es_score := score_of x; es_weight := weight_of x |} ->
  (forall y, In y l -> name_of y <> name_of x) ->
  dict_get (acc_engine_scores (fold_left step l a)) (name_of x) def
  = {| es_score := score_of x; es_weight := weight_of x |}.
Proof.
  revert a. induction l as [| y l IH]; intros a Ha Hl; cbn [fold_left].
  - exact Ha.
  - apply IH.
    + cbn [step acc_engine_scores]. rewrite dict_get_set_other.
      * exact Ha.
      * intro E. apply (Hl y); [now left | now symmetry].
    + intros z Hz. apply Hl. now right.
Qed.

(** C10. Every result of the input list, also one whose engine name
    occurs again, adds its score times its weight to the numerator and its
    weight to the denominator of the fused score; engine_scores has one
    entry per name, and for each name it holds the score of the last
    result of that name. *)
Theorem duplicate_engines_all_count (fmt : Q -> str)
  (l1 l2 : list EngineResult) (x : EngineResult) (r : RiskAssessment) :
  calculate_risk fmt (l1 ++ x :: l2) = Ok r ->
  (forall y, In y l2 -> name_of y <> name_of x) ->
  risk_score r
  = fuse (Qsum (map (fun y => score_of y * weight_of y) (l1 ++ x :: l2)))
         (Qsum (map weight_of (l1 ++ x :: l2)))
         (high_scores (l1 ++ x :: l2))
  /\ NoDup (map fst (engine_scores r))
  /\ forall def,
       dict_get (engine_scores r) (name_of x) def
       = {| es_score := score_of x; es_weight := weight_of x |}.
Proof.
  intros H Hl2.
  destruct (calculate_risk_fields fmt (l1 ++ x :: l2))
    as (r' & Hr & Hs & _ & _ & _ & _ & _ & He & _).
  rewrite H in Hr. injection Hr as <-.
  split; [| split].
  - rewrite Hs. apply fuse_comp.
    + rewrite fold_step_weighted. apply Qplus_0_l.
    + rewrite fold_step_total. apply Qplus_0_l.
  - rewrite He. apply engine_scores_keys. constructor.
  - intro def. rewrite He, fold_left_app. cbn [fold_left].
    apply engine_scores_last; [| exact Hl2].
    cbn [step acc_engine_scores]. apply dict_get_set_same.
Qed.

Lemma duplicate_engines_all_count_witness :
  exists r,
    @calculate_risk Exact (@no_format Exact)
      [result_of "nlp_engine" 9 10 []; result_of "url_analyzer" 1 10 [];
       result_of "url_analyzer" 5 10 []] = Ok r
    /\ risk_score r == 4764 # 10000
    /\ dict_get (engine_scores r) (py "url_analyzer")
                {| es_score := 0; es_weight := 0 |}
       = {| es_score := 5 # 10; es_weight := 30 # 100 |}.
Proof.
  destruct (calculate_risk_fields (@no_format Exact)
              [result_of "nlp_engine" 9 10 [];
               result_of "url_analyzer" 1 10 [];
               result_of "url_analyzer" 5 10 []]) as (r & Hr & _).
  exists r. split; [exact Hr |].
  destruct (@duplicate_engines_all_count (@no_format Exact)
              [result_of "nlp_engine" 9 10 [];
               result_of "url_analyzer" 1 10 []]
              [] (result_of "url_analyzer" 5 10 []) r Hr)
    as (Hs & _ & Hd).
  - intros y [].
  - split.
    + rewrite Hs. vm_compute. reflexivity.
    + apply Hd.
Defined.

End RiskScorerFacts.

(** * Facts about domain_checker.py *)

Module DomainCheckerFacts.
Import DomainChecker ExactFacts.
Local Open Scope Q_scope.
#[local] Existing Instance Exact | 0.

Section Whitelist.
Context {A : Arith}.
Variable unicode_lower : str -> str.
Variable format_percent : num -> str.

(** C5. When the normalized input is in the list of legitimate domains,
    [analyze] returns at once: score 0.0, not suspicious, no homoglyph and
    no typosquatting detected, no matches, and the whitelist reason as the
    only reason. *)
Theorem whitelisted_domain_scores_zero (self : DomainChecker) (input : str) :
  In (_clean_domain unicode_lower input) (legitimate_domains self) ->
  analyze unicode_lower format_percent self input
  = Ok {| engine := name self;
          domain := _clean_domain unicode_lower input;
          score := dec 0 1;
          reasons := [py "Domain is in legitimate whitelist"];
          matches := [];
          homoglyph_detected := false;
          typosquatting_detected := false;
          is_suspicious := false |}.
Proof.
  intro H. apply mem_In in H. unfold analyze. now rewrite H.
Qed.

End Whitelist.

Lemma whitelisted_domain_scores_zero_witness :
  In (_clean_domain (fun s => s) (py "google.com"))
     (legitimate_domains (init None))
  /\ (forall fmt,
        exists r, @analyze Binary64 (fun s => s) fmt (init None)
                           (py "google.com") = Ok r
                  /\ score r = 0%float /\ is_suspicious r = false)
  /\ (forall fmt,
        exists r, @analyze Exact (fun s => s) fmt (init None)
                           (py "HTTPS://WWW.Google.com:443/search") = Ok r
                  /\ score r = 0 /\ is_suspicious r = false).
Proof.
  assert (H1 : In (_clean_domain (fun s => s) (py "google.com"))
                  (legitimate_domains (init None))).
  { vm_compute. now left. }
  assert (H2 : In (_clean_domain (fun s => s)
                     (py "HTTPS://WWW.Google.com:443/search"))
                  (legitimate_domains (init None))).
  { vm_compute. now left. }
  split; [exact H1 |]. split; intro fmt; eexists.
  - rewrite (@whitelisted_domain_scores_zero Binary64 (fun s => s) fmt
               (init None) (py "google.com") H1).
    repeat split.
  - rewrite (@whitelisted_domain_scores_zero Exact (fun s => s) fmt
               (init None) (py "HTTPS://WWW.Google.com:443/search") H2).
    repeat split.
Defined.

Section Scoring.
Variable unicode_lower : str -> str.
Variable format_percent : Q -> str.

Lemma inject_Z_nonzero (n : Z) : n <> 0%Z -> Qeq_bool (inject_Z n) 0 = false.
Proof.
  intro H. destruct (Qeq_bool (inject_Z n) 0) eqn:E; [| reflexivity].
  apply Qeq_bool_iff in E. unfold Qeq in E. cbn in E. lia.
Qed.

Lemma calculate_similarity_returns (s1 s2 : str) :
  exists v, @_calculate_similarity Exact s1 s2 = Ok v.
Proof.
  unfold _calculate_similarity.
  destruct (Z.max (Z.of_nat (length s1)) (Z.of_nat (length s2)) =? 0)%Z eqn:E.
  - eexists. reflexivity.
  - apply Z.eqb_neq in E. cbn [div Exact of_int]. unfold Qdiv_py.
    rewrite (inject_Z_nonzero E). cbn [bind]. eexists. reflexivity.
Qed.

Lemma find_similar_domains_returns (self : DomainChecker) (d : str) :
  exists sims, @_find_similar_domains Exact self d = Ok sims.
Proof.
  unfold _find_similar_domains.
  match goal with
  | |- context [fold_left ?F ?P (Ok [])] => set (f := F); generalize P
  end.
  intro pairs.
  assert (Hstep : forall acc pair, exists acc', f (Ok acc) pair = Ok acc').
  { intros acc [legit check]. unfold f. cbn [bind].
    destruct (calculate_similarity_returns check legit) as [v ->].
    cbn [bind]. destruct (ltb _ _); [rewrite round4_exact; cbn [bind] |];
      eexists; reflexivity. }
  assert (Hfold : forall acc, exists sims, fold_left f pairs (Ok acc) = Ok sims).
  { induction pairs as [| pair pairs IH]; intro acc; cbn [fold_left].
    - eexists. reflexivity.
    - destruct (Hstep acc pair) as [acc' ->]. apply IH. }
  destruct (Hfold []) as [sims ->]. cbn [bind]. eexists. reflexivity.
Qed.

(** The value a signal contributes when it is triggered. *)
Definition signal (triggered : bool) (value : Q) : list Q :=
  if triggered then [value] else [].

(** The signals of a non-whitelisted domain [d], with [sims] the list
    [_find_similar_domains] returns for it. *)
Definition signals (self : DomainChecker) (d : str)
  (sims : list (@Match Exact)) : list Q :=
  signal (has_homoglyphs (_detect_homoglyphs self d)) (9 # 10)
  ++ match sims with
     | best :: _ =>
         if Qle_bool (85 # 100) (similarity best) then [85 # 100]
         else if Qle_bool (7 # 10) (similarity best) then [6 # 10]
         else []
     | [] => []
     end
  ++ signal (match truthy (_detect_typosquatting self d) with
             | Some _ => true | None => false end) (8 # 10)
  ++ signal (match truthy (_check_brand_in_subdomain self d) with
             | Some _ => true | None => false end) (7 # 10)
  ++ signal (count_char d 46 - 1 >? 2)%Z (4 # 10).

(** The largest element of a list of non-negative numbers; 0 if empty. *)
Definition largest (l : list Q) : Q := fold_right Qmax 0 l.

Ltac case_signals :=
  repeat match goal with
  | |- context [if ?b then _ else _] => destruct b
  | |- context [match ?o with Some _ => _ | None => _ end] => destruct o
  end.

Lemma analyze_not_whitelisted (self : DomainChecker) (input : str)
  (sims : list Match) :
  let d := _clean_domain unicode_lower input in
  mem d (legitimate_domains self) = false ->
  _find_similar_domains self d = Ok sims ->
  exists r,
    analyze unicode_lower format_percent self input = Ok r
    /\ score r == largest (signals self d sims)
    /\ (has_homoglyphs (_detect_homoglyphs self d) = true ->
        score r == 9 # 10)
    /\ homoglyph_detected r = has_homoglyphs (_detect_homoglyphs self d)
    /\ is_suspicious r = Qltb (5 # 10) (score r)
    /\ 0 <= score r <= 9 # 10.
Proof.
  intros d E Hs. unfold analyze. fold d. rewrite E, Hs. cbn [bind].
  unfold signals, signal.
  destruct (has_homoglyphs (_detect_homoglyphs self d));
  destruct sims as [| best rest];
  cbv beta iota zeta;
  try (change (Qle_bool (85 # 100) (similarity best))
         with (@leb Exact (dec 85 100) (similarity best));
       change (Qle_bool (7 # 10) (similarity best))
         with (@leb Exact (dec 7 10) (similarity best));
       destruct (@leb Exact (dec 85 100) (similarity best));
       [| destruct (@leb Exact (dec 7 10) (similarity best))]);
  destruct (truthy (_detect_typosquatting self d));
  destruct (truthy (_check_brand_in_subdomain self d));
  destruct (count_char d 46 - 1 >? 2)%Z;
  rewrite round4_exact; cbn [bind];
  eexists; (split; [reflexivity |]);
  cbn [score homoglyph_detected is_suspicious];
  (split; [vm_compute; reflexivity |]);
  (split; [first [intro; discriminate | intros _; vm_compute; reflexivity] |]);
  (split; [reflexivity |]);
  (split; [vm_compute; reflexivity |]);
  split; vm_compute; discriminate.
Qed.

(** [analyze] returns on every input, with a score in [0, 1] and the flag
    of the score returned. *)
Lemma domain_analyze_returns (self : DomainChecker) (input : str) :
  exists r,
    analyze unicode_lower format_percent self input = Ok r
    /\ 0 <= score r <= 1
    /\ is_suspicious r = Qltb (5 # 10) (score r).
Proof.
  destruct (mem (_clean_domain unicode_lower input) (legitimate_domains self))
    eqn:E.
  - unfold analyze. rewrite E. eexists. split; [reflexivity |].
    cbn. split; [split; discriminate | reflexivity].
  - destruct (find_similar_domains_returns self
                (_clean_domain unicode_lower input)) as [sims Hs].
    destruct (analyze_not_whitelisted self input E Hs)
      as (r & Hr & _ & _ & _ & Hsus & H0 & H9).
    exists r. split; [exact Hr |]. split; [| exact Hsus].
    split; [exact H0 |].
    eapply Qle_trans; [exact H9 | discriminate].
Qed.

(** C4. For a domain that is not whitelisted, [analyze] returns in exact
    arithmetic, and its score is the largest of the values of the signals
    that are triggered (0 when none is): it is never their sum.  A
    homoglyph in the normalized domain gives the score 0.9, the largest
    value there is. *)
Theorem domain_score_is_largest_signal (self : DomainChecker) (input : str) :
  let d := _clean_domain unicode_lower input in
  ~ In d (legitimate_domains self) ->
  exists r sims,
    analyze unicode_lower format_percent self input = Ok r
    /\ _find_similar_domains self d = Ok sims
    /\ score r == largest (signals self d sims)
    /\ (has_homoglyphs (_detect_homoglyphs self d) = true ->
        score r == 9 # 10)
    /\ homoglyph_detected r = has_homoglyphs (_detect_homoglyphs self d)
    /\ is_suspicious r = Qltb (5 # 10) (score r)
    /\ 0 <= score r <= 9 # 10.
Proof.
  intros d Hd.
  assert (E : mem d (legitimate_domains self) = false).
  { destruct (mem d (legitimate_domains self)) eqn:E; [| reflexivity].
    apply mem_In in E. contradiction. }
  destruct (find_similar_domains_returns self d) as [sims Hs].
  destruct (analyze_not_whitelisted self input E Hs) as (r & Hr & H).
  exists r, sims. split; [exact Hr |]. split; [exact Hs |]. exact H.
Qed.

End Scoring.

Lemma domain_score_is_largest_signal_witness :
  exists r,
    @analyze Exact (fun s => s) (fun _ => []) (init None) (py "paypa1.com")
    = Ok r
    /\ score r == 9 # 10
    /\ homoglyph_detected r = true
    /\ is_suspicious r = true.
Proof.
  destruct (@domain_score_is_largest_signal (fun s => s) (fun _ => [])
              (init None) (py "paypa1.com"))
    as (r & sims & Hr & _ & _ & Hh & Hd & Hsus & _).
  - intro H. apply mem_In in H. vm_compute in H. discriminate H.
  - assert (E : has_homoglyphs
                  (_detect_homoglyphs (init None)
                     (_clean_domain (fun s => s) (py "paypa1.com"))) = true).
    { vm_compute. reflexivity. }
    exists r. split; [exact Hr |]. split; [exact (Hh E) |].
    split; [now rewrite Hd |].
    rewrite Hsus. now rewrite (Qltb_comp (Qeq_refl (5 # 10)) (Hh E)).
Defined.

End DomainCheckerFacts.

(** * Facts about url_analyzer.py *)

Module URLAnalyzerFacts.
Import URLAnalyzer ExactFacts.
Local Open Scope Q_scope.
#[local] Existing Instance Exact | 0.

(** Statements that keep a property of the scoring state. *)
Section Preserves.
Context {A : Arith}.
Variable P : St -> Prop.

Definition preserves (f : St -> St) : Prop := forall s, P s -> P (f s).

Lemma preserves_seq (f g : St -> St) :
  preserves f -> preserves g -> preserves (seq_st f g).
Proof. intros Hf Hg s Hs. unfold seq_st. auto. Qed.

Lemma preserves_when (c : bool) (f : St -> St) :
  preserves f -> preserves (when c f).
Proof. intros Hf s Hs. unfold when. destruct c; auto. Qed.

Lemma preserves_if (c : bool) (f g : St -> St) :
  preserves f -> preserves g -> preserves (fun s => if c then f s else g s).
Proof. intros Hf Hg s Hs. destruct c; auto. Qed.

Lemma preserves_id : preserves (fun s => s).
Proof. intros s Hs. exact Hs. Qed.

End Preserves.

Ltac structure :=
  repeat lazymatch goal with
  | |- preserves _ (seq_st _ _) => apply preserves_seq
  | |- preserves _ (when _ _) => apply preserves_when
  | |- preserves _ (fun s => if _ then _ else _) => apply preserves_if
  | |- preserves _ (fun s => s) => apply preserves_id
  | _ => fail
  end.

(** The statements before the combined rule leave [score] alone. *)
Section ScoreUntouched.
Context {A : Arith}.
Variables format_percent format_2f : num -> str.

Definition score_is (v : num) (s : St) : Prop := score s = v.

Ltac untouched :=
  structure; intros s Hs; exact Hs.

Lemma blacklist_brand_length_keeps_score (features : Features) (v : num) :
  preserves (score_is v) (score_blacklist_brand_length format_percent features).
Proof. unfold score_blacklist_brand_length. cbv zeta. untouched. Qed.

Lemma domain_keeps_score (features : Features) (v : num) :
  preserves (score_is v) (score_domain features).
Proof. unfold score_domain. untouched. Qed.

Lemma structure_keeps_score (features : Features) (v : num) :
  preserves (score_is v) (score_structure features).
Proof. unfold score_structure. untouched. Qed.

Lemma tokens_params_keeps_score (features : Features) (v : num) :
  preserves (score_is v) (score_tokens_params features).
Proof. unfold score_tokens_params. cbv zeta. untouched. Qed.

(** The state the combined rule runs in. *)
Definition state_at_rule (features : Features) : St :=
  seq_st (seq_st (seq_st (score_blacklist_brand_length format_percent features)
                         (score_domain features))
                 (score_structure features))
         (score_tokens_params features) st0.

Lemma score_at_rule (features : Features) :
  score (state_at_rule features) = dec 0 1.
Proof.
  unfold state_at_rule.
  apply (preserves_seq (P := score_is (dec 0 1)));
    [apply preserves_seq; [apply preserves_seq |] | |].
  - apply blacklist_brand_length_keeps_score.
  - apply domain_keeps_score.
  - apply structure_keeps_score.
  - apply tokens_params_keeps_score.
  - reflexivity.
Qed.

(** [_calculate_score] with the combined rule left out. *)
Definition _calculate_score_without_rule (features : Features) (url : str)
  : num * list str * str :=
  let s :=
    seq_st (seq_st (score_entropy_other format_2f features) score_weighted)
           score_amplify (state_at_rule features) in
  (score s, reasons s, confidence_of (score s) (flagged_count s)).

(** In an arithmetic where 0.0 * 1.35 is not above 0.0, the rule changes
    nothing. *)
Hypothesis zero_boost :
  ltb (dec 0 1) (py_min (mul (dec 0 1) (dec 135 100)) (dec 1 1)) = false.

Lemma combined_rule_is_skip (features : Features) :
  score_combined_rule format_percent features (state_at_rule features)
  = state_at_rule features.
Proof.
  unfold score_combined_rule, when. cbv zeta.
  destruct (_ && _); [| reflexivity].
  rewrite score_at_rule, zero_boost. reflexivity.
Qed.

Lemma calculate_score_without_rule (features : Features) (url : str) :
  _calculate_score format_percent format_2f features url
  = _calculate_score_without_rule features url.
Proof.
  pose proof (combined_rule_is_skip features) as H.
  unfold _calculate_score, _calculate_score_without_rule.
  unfold state_at_rule, seq_st in *. cbv zeta.
  rewrite H. reflexivity.
Qed.

End ScoreUntouched.

(** Multiples of [1/d]. *)
Definition on_grid (d : positive) (x : Q) : Prop := exists n : Z, x == n # d.

Lemma on_grid_const (d : positive) (a : Z) (b : positive) :
  ((a * Zpos d) mod Zpos b = 0)%Z -> on_grid d (a # b).
Proof.
  intro H. exists ((a * Zpos d) / Zpos b)%Z. unfold Qeq. cbn.
  apply Z.div_exact in H; [| discriminate]. lia.
Qed.

Lemma on_grid_add (d : positive) (x y : Q) :
  on_grid d x -> on_grid d y -> on_grid d (x + y).
Proof.
  intros [n Hn] [m Hm]. exists (n + m)%Z. rewrite Hn, Hm.
  unfold Qeq. cbn. nia.
Qed.

Lemma on_grid_min (d : positive) (x y : Q) :
  on_grid d x -> on_grid d y -> on_grid d (@py_min Exact x y).
Proof.
  intros Hx Hy. destruct (py_min_cases x y) as [[_ ->] | [_ ->]]; assumption.
Qed.

Lemma on_grid_max (d : positive) (x y : Q) :
  on_grid d x -> on_grid d y -> on_grid d (@py_max Exact x y).
Proof.
  intros Hx Hy. destruct (py_max_cases x y) as [[_ ->] | [_ ->]]; assumption.
Qed.

Lemma on_grid_comp (d : positive) (x y : Q) :
  x == y -> on_grid d x -> on_grid d y.
Proof. intros H [n Hn]. exists n. now rewrite <- H. Qed.

Lemma on_grid_scale (x : Q) (c : Z) :
  on_grid 20 x -> on_grid 2000 (x * (c # 100)).
Proof.
  intros [n Hn]. exists (n * c)%Z. rewrite Hn. unfold Qeq. cbn. ring.
Qed.

Lemma on_grid_tokens (n : Z) :
  on_grid 20 (@py_min Exact (inject_Z n * (15 # 100)) (85 # 100)).
Proof.
  apply on_grid_min.
  - exists (3 * n)%Z. unfold Qeq, Qmult, inject_Z. cbn [Qnum Qden Pos.mul]. lia.
  - now apply on_grid_const.
Qed.

(** Every entry of the dict [weights] is a multiple of 0.05. *)
Definition weights_on_grid (s : @St Exact) : Prop :=
  on_grid 20 (w_length s) /\ on_grid 20 (w_structure s)
  /\ on_grid 20 (w_tokens s) /\ on_grid 20 (w_entropy s)
  /\ on_grid 20 (w_domain s) /\ on_grid 20 (w_blacklist s)
  /\ on_grid 20 (w_brand s).

Ltac grid_leaf :=
  let s := fresh "s" in
  intros s (? & ? & ? & ? & ? & ? & ?);
  unfold weights_on_grid; cbn -[on_grid py_min];
  repeat split; try assumption;
  apply on_grid_add; try assumption;
  first [ now apply on_grid_const | apply on_grid_tokens ].

Ltac on_grid_steps := structure; grid_leaf.

Section WeightsOnGrid.
Variables format_percent format_2f : Q -> str.
Variable features : @Features Exact.

Lemma blacklist_brand_length_on_grid :
  preserves weights_on_grid
    (score_blacklist_brand_length format_percent features).
Proof. unfold score_blacklist_brand_length. cbv zeta. on_grid_steps. Qed.

Lemma domain_on_grid : preserves weights_on_grid (score_domain features).
Proof. unfold score_domain. on_grid_steps. Qed.

Lemma structure_on_grid : preserves weights_on_grid (score_structure features).
Proof. unfold score_structure. on_grid_steps. Qed.

Lemma tokens_params_on_grid :
  preserves weights_on_grid (score_tokens_params features).
Proof. unfold score_tokens_params. cbv zeta. on_grid_steps. Qed.

Lemma entropy_other_on_grid :
  preserves weights_on_grid (score_entropy_other format_2f features).
Proof. unfold score_entropy_other. on_grid_steps. Qed.

Lemma entropy_other_keeps_score (v : Q) :
  preserves (score_is v) (score_entropy_other format_2f features).
Proof.
  unfold score_entropy_other. structure; intros s Hs; exact Hs.
Qed.

(** The state the weighted sum runs in. *)
Definition state_at_sum : @St Exact :=
  score_entropy_other format_2f features
    (state_at_rule format_percent features).

Lemma state_at_sum_on_grid : weights_on_grid state_at_sum.
Proof.
  unfold state_at_sum, state_at_rule, seq_st.
  apply entropy_other_on_grid, tokens_params_on_grid, structure_on_grid,
    domain_on_grid, blacklist_brand_length_on_grid.
  unfold weights_on_grid, st0. cbn -[on_grid].
  repeat split; now apply on_grid_const.
Qed.

Lemma state_at_sum_score : score state_at_sum = 0.
Proof.
  unfold state_at_sum.
  apply (@entropy_other_keeps_score (@dec Exact 0 1)).
  exact (@score_at_rule Exact format_percent features).
Qed.

End WeightsOnGrid.

(** The weighted sum of the capped category weights is a multiple of
    0.0005. *)
Lemma weighted_on_grid (s : @St Exact) :
  weights_on_grid s -> score s = 0 -> on_grid 2000 (score (score_weighted s)).
Proof.
  intros (Hl & Hs & Ht & He & Hd & Hb & Hr) H0.
  unfold score_weighted. cbn -[on_grid py_min]. rewrite H0.
  repeat apply on_grid_add;
    try (apply on_grid_scale; apply on_grid_min;
         [assumption | now apply on_grid_const]).
  now apply on_grid_const.
Qed.

(** The score after the clamp and the amplification. *)
Lemma amplify_score_cases (s : @St Exact) :
  let c := @clamp01 Exact (score s) in
  score (score_amplify s) = c
  \/ score (score_amplify s) = @py_min Exact (c * (15 # 10)) 1
  \/ score (score_amplify s) = @py_min Exact (c * (13 # 10)) 1.
Proof.
  unfold score_amplify. cbv zeta.
  destruct (_ >=? 4)%Z; [right; left; reflexivity |].
  destruct (_ >=? 3)%Z; [right; right; reflexivity |].
  left. reflexivity.
Qed.

Lemma amplify_score_range (s : @St Exact) :
  0 <= score (score_amplify s) <= 1.
Proof.
  pose proof (clamp01_range (score s)) as [Hc0 Hc1].
  destruct (amplify_score_cases s) as [-> | [-> | ->]].
  - split; assumption.
  - split; [apply py_min_glb; [| discriminate] | apply py_min_ub_r].
    apply Qmult_le_0_compat; [assumption | discriminate].
  - split; [apply py_min_glb; [| discriminate] | apply py_min_ub_r].
    apply Qmult_le_0_compat; [assumption | discriminate].
Qed.

(** Whether the value kept by [int(x * 10000) / 10000.0] is above 0.5. *)
Lemma round4_above_half (x : Q) :
  0 <= x -> Qltb (5 # 10) (round4_value x) = Qle_bool (5001 # 10000) x.
Proof.
  intro H0. destruct (Qle_bool (5001 # 10000) x) eqn:E.
  - apply Qle_bool_iff in E. apply Qltb_lt.
    assert (Hx : inject_Z 5001 <= x * inject_Z 10000).
    { unfold Qle in *. cbn in *. lia. }
    assert (Hx0 : 0 <= x * inject_Z 10000).
    { apply Qmult_le_0_compat; [assumption | discriminate]. }
    pose proof (Qtrunc_ge Hx Hx0) as Ht.
    unfold round4_value. revert Ht.
    generalize (Qtrunc (x * inject_Z 10000)). intros t Ht.
    unfold Qlt, Qdiv, Qmult, Qinv, inject_Z. cbn. lia.
  - apply Qltb_ge.
    assert (Hlt : x < 5001 # 10000).
    { apply Qnot_le_lt. intro H. apply Qle_bool_iff in H. congruence. }
    pose proof (round4_value_le H0) as Hle.
    unfold round4_value in *.
    set (t := Qtrunc (x * inject_Z 10000)) in *.
    assert (Ht : inject_Z t / (10000 # 1) < 5001 # 10000).
    { eapply Qle_lt_trans; eassumption. }
    clearbody t. clear Hle.
    unfold Qle, Qlt, Qdiv, Qmult, Qinv, inject_Z in *. cbn in *. lia.
Qed.

(** On the grid of the scores the URL engine can reach, the flag computed
    from the score agrees with the flag of the score kept. *)
Lemma suspicious_on_grid (x : Q) (m : Z) :
  x == m # 20000 -> m <> 10001%Z -> (0 <= m)%Z ->
  Qltb (5 # 10) x = Qltb (5 # 10) (round4_value x).
Proof.
  intros Hx Hm H0.
  assert (Hx0 : 0 <= x).
  { rewrite Hx. unfold Qle. cbn. lia. }
  rewrite (round4_above_half Hx0).
  rewrite (Qltb_comp (Qeq_refl (5 # 10)) Hx).
  rewrite (Qle_bool_comp (Qeq_refl (5001 # 10000)) Hx).
  destruct (Qle_bool (5001 # 10000) (m # 20000)) eqn:E.
  - apply Qle_bool_iff in E. apply Qltb_lt.
    unfold Qle, Qlt in *. cbn in *. lia.
  - apply Qltb_ge. apply Qnot_lt_le. intro H.
    assert (E' : Qle_bool (5001 # 10000) (m # 20000) = true).
    { apply Qle_bool_iff. unfold Qle, Qlt in *. cbn in *. lia. }
    congruence.
Qed.

Section Analyze.
Variable extract_features : str -> result (@Features Exact).
Variables format_percent format_2f : Q -> str.
Variable str_of_exn : exn -> str.

(** The score [_calculate_score] returns. *)
Definition final_score (features : @Features Exact) (url : str) : Q :=
  fst (fst (_calculate_score format_percent format_2f features url)).

Lemma final_score_amplify (features : @Features Exact) (url : str) :
  final_score features url
  = score (score_amplify
             (score_weighted (state_at_sum format_percent format_2f features))).
Proof.
  unfold final_score.
  rewrite calculate_score_without_rule by reflexivity.
  reflexivity.
Qed.

Lemma final_score_range (features : @Features Exact) (url : str) :
  0 <= final_score features url <= 1.
Proof. rewrite final_score_amplify. apply amplify_score_range. Qed.

Lemma final_score_grid (features : @Features Exact) (url : str) :
  exists m : Z,
    final_score features url == m # 20000 /\ m <> 10001%Z /\ (0 <= m)%Z.
Proof.
  rewrite final_score_amplify.
  set (s := score_weighted (state_at_sum format_percent format_2f features)).
  assert (Hg : on_grid 2000 (@clamp01 Exact (score s))).
  { unfold clamp01. apply on_grid_min; [apply on_grid_max |].
    - apply weighted_on_grid;
        [apply state_at_sum_on_grid | apply state_at_sum_score].
    - now apply on_grid_const.
    - now apply on_grid_const. }
  pose proof (clamp01_range (score s)) as [Hc0 Hc1].
  destruct Hg as [k Hk].
  assert (Hk0 : (0 <= k <= 2000)%Z).
  { rewrite Hk in Hc0, Hc1. unfold Qle in *. cbn in *. lia. }
  destruct (amplify_score_cases s) as [-> | [-> | ->]].
  - exists (10 * k)%Z. split; [| lia].
    rewrite Hk. unfold Qeq, Qmult. cbn [Qnum Qden Pos.mul]. lia.
  - destruct (py_min_cases (@clamp01 Exact (score s) * (15 # 10)) 1)
      as [[_ ->] | [_ ->]].
    + exists 20000%Z. split; [reflexivity | lia].
    + exists (15 * k)%Z. split; [| lia].
      rewrite Hk. unfold Qeq, Qmult. cbn [Qnum Qden Pos.mul]. lia.
  - destruct (py_min_cases (@clamp01 Exact (score s) * (13 # 10)) 1)
      as [[_ ->] | [_ ->]].
    + exists 20000%Z. split; [reflexivity | lia].
    + exists (13 * k)%Z. split; [| lia].
      rewrite Hk. unfold Qeq, Qmult. cbn [Qnum Qden Pos.mul]. lia.
Qed.

(** [analyze] where [extract_features] returns. *)
Lemma url_analyze_returns (url : str) (features : @Features Exact) :
  extract_features url = Ok features ->
  let r := analyze extract_features format_percent format_2f str_of_exn url in
  r_score r = round4_value (final_score features url)
  /\ is_suspicious r = Qltb (5 # 10) (final_score features url)
  /\ r_features r = Some features.
Proof.
  intro H. unfold analyze, final_score. cbv zeta. rewrite H. cbn [bind].
  destruct (@_calculate_score Exact format_percent format_2f features url)
    as [[sc rs] cf].
  rewrite round4_exact. cbn. repeat split.
Qed.

(** [analyze] where [extract_features] raises. *)
Lemma url_analyze_fallback (url : str) (e : exn) :
  extract_features url = Raise e ->
  analyze extract_features format_percent format_2f str_of_exn url
  = {| engine := name; r_score := 5 # 10; r_features := None;
       r_reasons := [py "Analysis error: " ++ str_of_exn e];
       confidence := py "LOW"; is_suspicious := true |}.
Proof. intro H. unfold analyze. cbv zeta. rewrite H. reflexivity. Qed.

Lemma url_score_range (url : str) :
  0 <= r_score (analyze extract_features format_percent format_2f
                        str_of_exn url) <= 1.
Proof.
  destruct (extract_features url) as [features | e] eqn:E.
  - destruct (url_analyze_returns E) as (-> & _ & _).
    apply round4_value_range, final_score_range.
  - rewrite (url_analyze_fallback E). cbn. split; discriminate.
Qed.

Lemma url_suspicious_on_success (url : str) (features : @Features Exact) :
  extract_features url = Ok features ->
  let r := analyze extract_features format_percent format_2f str_of_exn url in
  is_suspicious r = Qltb (5 # 10) (r_score r).
Proof.
  intro E. cbv zeta.
  destruct (url_analyze_returns E) as (-> & -> & _).
  destruct (final_score_grid features url) as (m & Hm & Hne & H0).
  exact (suspicious_on_grid Hm Hne H0).
Qed.

End Analyze.

(** The features of [https://paypalx.com/]: the brand keyword paypal in a
    domain that is not paypal.com (similarity 0.85), one suspicious token. *)
Definition paypalx_features {A : Arith} : Features :=
  {| blacklist_pattern_match := 0;
     brand_impersonation := py "paypal";
     brand_similarity := dec 85 100;
     homoglyph_brand_attack := 0;
     url_length := 20;
     has_ip_address := 0;
     subdomain_count := 0;
     has_high_risk_tld := 0;
     has_suspicious_tld := 0;
     is_shortened := 0;
     domain_has_digits := 0;
     has_port := 0;
     likely_new_domain := 0;
     at_redirect_trick := 0;
     at_spoof_domain := [];
     at_real_domain := [];
     at_sign := 0;
     double_slash_redirect := 0;
     hyphen_count := 0;
     dot_count := 1;
     uses_https := 1;
     suspicious_token_count := 1;
     suspicious_tokens_found := [py "paypal"];
     has_suspicious_params := 0;
     suspicious_params_found := [];
     has_punycode := 0;
     idn_decoded := [];
     subdomain_brand_spoof := 0;
     subdomain_spoof_brand := [];
     url_entropy := dec 36464 10000;
     domain_entropy := dec 30957 10000;
     has_encoded_chars := 0;
     has_suspicious_extension := 0;
     consecutive_consonants_max := 2 |}.

(** The condition of the combined rule (source line 413). *)
Definition rule_applies {A : Arith} (features : Features) : bool :=
  ltb (dec 75 100) (brand_similarity features)
  && (suspicious_token_count features >? 0)%Z.

(** C2: the combined rule for brand impersonation with suspicious tokens
    multiplies the score while it is still 0.0, before the weighted
    category sum is added, so 0.0 * 1.35 is never above the score: in exact
    and in binary64 arithmetic [_calculate_score] gives what it gives with
    the rule left out.  For https://paypalx.com/ the condition of the rule
    holds, yet the score is the weighted base 0.165 (not 0.165 * 1.35) and
    no reason of the rule is recorded. *)
Theorem combined_rule_never_fires :
  (forall (fp f2 : Q -> str) (features : @Features Exact) (url : str),
     @_calculate_score Exact fp f2 features url
     = @_calculate_score_without_rule Exact fp f2 features url)
  /\ (forall (fp f2 : float -> str) (features : @Features Binary64) (url : str),
        @_calculate_score Binary64 fp f2 features url
        = @_calculate_score_without_rule Binary64 fp f2 features url)
  /\ (forall (fp f2 : Q -> str) (url : str),
        @rule_applies Exact paypalx_features = true
        /\ (let '(s, r, c) :=
              @_calculate_score Exact fp f2 paypalx_features url in
            s == 165 # 1000
            /\ r = [py "🏷️ High-confidence brand impersonation: 'paypal' ("
                      ++ fp (85 # 100) ++ py " similarity)";
                    py "🏷️ Suspicious keywords in URL: paypal"]
            /\ c = py "LOW"))
  /\ (forall (fp f2 : float -> str) (url : str),
        @rule_applies Binary64 paypalx_features = true
        /\ (let '(s, r, c) :=
              @_calculate_score Binary64 fp f2 paypalx_features url in
            @round4 Binary64 s = Ok (@dec Binary64 165 1000)
            /\ length r = 2%nat)).
Proof.
  split; [| split; [| split]].
  - intros. apply calculate_score_without_rule. reflexivity.
  - intros. apply calculate_score_without_rule. vm_compute. reflexivity.
  - intros. split; [reflexivity |].
    rewrite calculate_score_without_rule by reflexivity.
    vm_compute. repeat split; reflexivity.
  - intros. split; [vm_compute; reflexivity |].
    rewrite calculate_score_without_rule by (vm_compute; reflexivity).
    vm_compute. split; reflexivity.
Qed.

End URLAnalyzerFacts.

(** * Facts about nlp_engine.py *)

Module NLPEngineFacts.
Import NLPEngine ExactFacts.
Local Open Scope Q_scope.
#[local] Existing Instance Exact | 0.

Lemma div_of_int_returns (a n : Z) :
  exists q : Q,
    @div Exact (@of_int Exact a) (@of_int Exact (Z.max n 1)) = Ok q.
Proof.
  cbn [div of_int Exact]. unfold Qdiv_py.
  destruct (Qeq_bool (inject_Z (Z.max n 1)) 0) eqn:E.
  - apply Qeq_bool_iff in E. unfold Qeq in E. cbn in E. lia.
  - eexists. reflexivity.
Qed.

Section Analyze.
Variable re_search : str -> re_flags -> str -> option (list str).
Variable re_match : str -> re_flags -> str -> option (list str).
Variable re_findall : str -> re_flags -> str -> list Found.
Variable re_split : str -> str -> list str.
Variable isupper : str -> bool.
Variable unicode_lower : str -> str.

Definition extract : str -> str -> result (@Features Exact) :=
  @_extract_features Exact re_search re_match re_findall re_split isupper.

Definition patterns : str -> list str -> str -> Q * list str :=
  @_analyze_patterns Exact re_findall.

(** The quotients of [_extract_features] have divisors of at least 1. *)
Lemma extract_features_returns (text sender : str) :
  exists features, extract text sender = Ok features.
Proof.
  unfold extract, _extract_features. cbv zeta.
  match goal with
  | |- context [@div Exact (@of_int Exact ?a) (@of_int Exact (Z.max ?n 1%Z))] =>
      destruct (div_of_int_returns a n) as [q Hq]
  end.
  rewrite Hq. cbn [bind].
  match goal with
  | |- context [@div Exact (@of_int Exact ?a) (@of_int Exact (Z.max ?n 1%Z))] =>
      destruct (div_of_int_returns a n) as [q' Hq']
  end.
  rewrite Hq'. cbn [bind].
  eexists. reflexivity.
Qed.

(** The text [analyze] works on. *)
Definition full_text_of (text subject : str) : str :=
  strip (subject ++ py " " ++ text).

(** The indicator strings of the categories, in the order in which
    [analyze] flattens them. *)
Definition all_reasons (features : @Features Exact)
  (full_text sender content_type : str) : list str :=
  snd (patterns full_text URGENCY_PATTERNS (py "Urgency"))
  ++ snd (patterns full_text CREDENTIAL_PATTERNS (py "Credential Request"))
  ++ snd (patterns full_text SOCIAL_ENGINEERING_PATTERNS
                   (py "Social Engineering"))
  ++ snd (patterns full_text IMPERSONATION_PATTERNS (py "Impersonation"))
  ++ snd (patterns full_text FINANCIAL_SCAM_PATTERNS (py "Financial Scam"))
  ++ snd (@_analyze_sender Exact re_search re_match unicode_lower
            sender full_text)
  ++ snd (@_analyze_linguistic_features Exact features)
  ++ snd (@_detect_brand_impersonation Exact re_search unicode_lower
            full_text sender)
  ++ (if str_eqb content_type (py "sms")
      then snd (patterns full_text REGIONAL_SMS_PATTERNS
                         (py "Regional SMS Scam"))
      else [])
  ++ (if mem content_type [py "sms"; py "voice"]
      then snd (patterns full_text TECH_SUPPORT_PATTERNS
                         (py "Tech Support Scam"))
      else []).

(** The messages of the two amplification steps. *)
Definition multi_category_messages : list str :=
  [py "🚨 Multiple phishing categories simultaneously triggered";
   py "⚠️ Multiple phishing indicator categories detected"].

Definition triple_threat_message : str :=
  py "🚨 Triple threat: urgency + embedded link + financial request detected".

Ltac split_pairs :=
  repeat (match goal with
          | |- context [let '(a, b) := (if ?c then _ else _) in _] =>
              destruct c
          | |- context [let '(a, b) := ?x in _] =>
              let s := fresh "s" in
              let l := fresh "l" in
              let E := fresh "E" in
              destruct x as [s l] eqn:E
          end; cbv beta iota).

Ltac multi_message a :=
  right; exists a; split; [| reflexivity];
  unfold multi_category_messages; cbn [In];
  lazymatch a with
  | py "🚨 Multiple phishing categories simultaneously triggered" => left
  | _ => right; left
  end; reflexivity.

Ltac triple_message :=
  right; unfold triple_threat_message; reflexivity.

Ltac analyze_facts Hf multi triple :=
  split; [reflexivity |];
  split; [first [exact Hf | reflexivity] |];
  split; [cbn [reasons];
          repeat match goal with
            | E : _ = (_, _) |- _ => rewrite ?E; clear E
            end;
          reflexivity |];
  split; [multi |];
  split; [triple |];
  split; [cbn [score]; apply round4_value_range;
          match goal with
          | |- _ <= py_min (py_max ?x _) _ <= _ =>
              let y := fresh "y" in
              generalize x; intro y; exact (clamp01_range y)
          end
         | reflexivity].

(** [analyze] on a text that is not empty. *)
Lemma nlp_analyze_nonempty (text subject sender content_type : str) :
  nonempty (full_text_of text subject) = true ->
  exists (r : @Result Exact) (features : @Features Exact)
         (multi triple : list str),
    analyze re_search re_match re_findall re_split isupper unicode_lower
            text subject sender content_type = Ok r
    /\ extract (full_text_of text subject) sender = Ok features
    /\ reasons r
       = firstn 10 (all_reasons features (full_text_of text subject)
                                sender content_type)
         ++ multi ++ triple
    /\ (multi = [] \/ exists m, In m multi_category_messages /\ multi = [m])
    /\ (triple = [] \/ triple = [triple_threat_message])
    /\ 0 <= score r <= 1
    /\ is_suspicious r = Qltb (5 # 10) (score r).
Proof.
  intro Hne. unfold analyze, extract, patterns in *. cbv zeta.
  fold (full_text_of text subject). rewrite Hne. cbn [negb].
  destruct (extract_features_returns (full_text_of text subject) sender)
    as [features Hf].
  unfold extract in Hf. rewrite Hf. cbn [bind].
  unfold all_reasons, patterns.
  split_pairs.
  all: rewrite round4_exact; cbn [bind];
    match goal with
    | |- context [round4_value (py_min (py_max ?x _) _)] =>
        let z := fresh "z" in generalize x; intro z
    end.
  all: eexists; exists features.
  all: lazymatch goal with
       | |- context [firstn 10 _ ++ (([] ++ [?a]) ++ [?t])] =>
           exists [a], [t];
           analyze_facts Hf ltac:(multi_message a) ltac:(triple_message)
       | |- context [firstn 10 _ ++ ([] ++
             [py "🚨 Triple threat: urgency + embedded link + financial request detected"])] =>
           exists (@nil str),
             [py "🚨 Triple threat: urgency + embedded link + financial request detected"];
           analyze_facts Hf ltac:(left; reflexivity) ltac:(triple_message)
       | |- context [firstn 10 _ ++ ([] ++ [?a])] =>
           exists [a], (@nil str);
           analyze_facts Hf ltac:(multi_message a) ltac:(left; reflexivity)
       | _ =>
           exists (@nil str), (@nil str);
           analyze_facts Hf ltac:(left; reflexivity) ltac:(left; reflexivity)
       end.
Qed.


(** [analyze] on a text that is empty once stripped. *)
Lemma nlp_analyze_empty (text subject sender content_type : str) :
  nonempty (full_text_of text subject) = false ->
  analyze re_search re_match re_findall re_split isupper unicode_lower
          text subject sender content_type
  = Ok {| engine := name; content_type := content_type; score := 0;
          reasons := [py "Empty text content"];
          categories := []; features := None;
          is_suspicious := false; confidence := py "LOW" |}.
Proof.
  intro Hne. unfold analyze. cbv zeta.
  fold (full_text_of text subject). rewrite Hne. reflexivity.
Qed.

Lemma firstn_10_length (T : Type) (l : list T) :
  (length (firstn 10 l) <= 10)%nat.
Proof. apply firstn_le_length. Qed.

(** C9: the reasons of the NLP engine are the first 10 indicator strings
    of the categories, in the order urgency, credential, social,
    impersonation, financial, sender, linguistic, brand, regional, tech
    support, followed by the messages of the amplification steps, which
    are appended after the cut: at most one multi-category message and at
    most one triple-threat message, so the list has at most 12 entries.  A
    text that is empty once stripped gives the single reason
    Empty text content. *)
Theorem nlp_reasons_shape (text subject sender content_type : str) :
  exists r : @Result Exact,
    analyze re_search re_match re_findall re_split isupper unicode_lower
            text subject sender content_type = Ok r
    /\ (length (reasons r) <= 12)%nat
    /\ if nonempty (full_text_of text subject) then
         exists (features : @Features Exact) (multi triple : list str),
           extract (full_text_of text subject) sender = Ok features
           /\ reasons r
              = firstn 10 (all_reasons features (full_text_of text subject)
                                       sender content_type)
                ++ multi ++ triple
           /\ (multi = []
               \/ exists m, In m multi_category_messages /\ multi = [m])
           /\ (triple = [] \/ triple = [triple_threat_message])
       else reasons r = [py "Empty text content"].
Proof.
  destruct (nonempty (full_text_of text subject)) eqn:Hne.
  - destruct (nlp_analyze_nonempty text subject sender content_type Hne)
      as (r & features & multi & triple & Hr & Hf & Hrs & Hm & Ht & _).
    exists r. split; [exact Hr |]. split.
    + rewrite Hrs, !length_app.
      pose proof (firstn_10_length
                    (all_reasons features (full_text_of text subject)
                                 sender content_type)) as H10.
      assert (Hlm : (length multi <= 1)%nat).
      { destruct Hm as [-> | (m & _ & ->)]; cbn; lia. }
      assert (Hlt : (length triple <= 1)%nat).
      { destruct Ht as [-> | ->]; cbn; lia. }
      lia.
    + exists features, multi, triple. repeat split; assumption.
  - rewrite (nlp_analyze_empty text subject sender content_type Hne).
    eexists. split; [reflexivity |]. split; [cbn; lia | reflexivity].
Qed.

End Analyze.

(** A text with two urgency phrases, two financial phrases and a link. *)
Definition sample_text : str :=
  py "urgent hurry payment failed bank transfer http://x.y".

(** The values of [re.findall], [re.search], [re.match], [re.split],
    [str.isupper] and [str.lower] on the sample text: the patterns listed
    are those that match it. *)
Definition sample_findall (pattern : str) (flags : re_flags) (text : str)
  : list Found :=
  if str_eqb pattern (py "\burgent\b") then [FStr (py "urgent")]
  else if str_eqb pattern (py "\bhurry\b") then [FStr (py "hurry")]
  else if str_eqb pattern
            (py "\bpayment\s+(failed|declined|pending|overdue|required)\b")
  then [FStr (py "failed")]
  else if str_eqb pattern (py "\bbank\s+(transfer|wire|deposit)\b")
  then [FStr (py "transfer")]
  else if str_eqb pattern (py "https?://\S+") then [FStr (py "http://x.y")]
  else [].

Definition sample_search (pattern : str) (flags : re_flags) (text : str)
  : option (list str) :=
  if str_eqb pattern (py "https?://") && contains text (py "http://")
  then Some [py "http://"] else None.

Definition sample_match (pattern : str) (flags : re_flags) (text : str)
  : option (list str) := None.

Definition sample_split (pattern text : str) : list str :=
  [py "urgent hurry payment failed bank transfer http://x"; py "y"].

Definition sample_isupper (s : str) : bool := false.

Definition sample_lower (s : str) : str := s.

(** On the sample text the reasons end with the triple-threat message,
    which is no indicator of any category; on an empty text the only
    reason is Empty text content although no category has an indicator. *)
Lemma nlp_reasons_beyond_indicators :
  (exists r : @Result Exact,
     analyze sample_search sample_match sample_findall sample_split
             sample_isupper sample_lower sample_text [] [] (py "email")
     = Ok r
     /\ reasons r
        = [py "Urgency: 'urgent' detected";
           py "Urgency: 'hurry' detected";
           py "Financial Scam: 'failed' detected";
           py "Financial Scam: 'transfer' detected";
           py "🚨 Triple threat: urgency + embedded link + financial request detected"]
     /\ flat_map (fun c => indicators (snd c)) (categories r)
        = [py "Urgency: 'urgent' detected";
           py "Urgency: 'hurry' detected";
           py "Financial Scam: 'failed' detected";
           py "Financial Scam: 'transfer' detected"])
  /\ (exists r : @Result Exact,
        analyze sample_search sample_match sample_findall sample_split
                sample_isupper sample_lower [] [] [] (py "email")
        = Ok r
        /\ reasons r = [py "Empty text content"]
        /\ categories r = []).
Proof.
  split.
  - eexists. split; [vm_compute; reflexivity |]. split; reflexivity.
  - eexists. split; [vm_compute; reflexivity |]. split; reflexivity.
Qed.

End NLPEngineFacts.

(** * Facts about visual_engine.py *)

Module VisualEngineFacts.
Import VisualEngine ExactFacts.
Local Open Scope Q_scope.
#[local] Existing Instance Exact | 0.

Section Analyze.
Variable re_search : str -> re_flags -> str -> option (list str).
Variable re_findall : str -> re_flags -> str -> list Found.
Variable unicode_lower : str -> str.

(** [analyze] returns on every input; its score is in [0, 1] and the flag
    is that of the score returned. *)
Lemma visual_analyze_returns (html_content url page_title : str) :
  exists r : @Result Exact,
    analyze re_search re_findall unicode_lower html_content url page_title
    = Ok r
    /\ 0 <= score r <= 1
    /\ is_suspicious r = Qltb (5 # 10) (score r).
Proof.
  unfold analyze.
  destruct (negb (nonempty html_content)).
  - eexists. split; [reflexivity |]. cbn. split; [split; discriminate |].
    reflexivity.
  - cbv zeta.
    destruct (find _ SPOOFED_BRANDS) as [[brand_name info] |];
      rewrite round4_exact; cbn [bind];
      (eexists; split; [reflexivity |]);
      cbn [score is_suspicious];
      (split; [apply round4_value_range, clamp01_range | reflexivity]).
Qed.

(** An empty page scores 0.3 and is not flagged. *)
Lemma visual_analyze_empty (url page_title : str) :
  analyze re_search re_findall unicode_lower [] url page_title
  = Ok {| engine := name; score := 3 # 10;
          reasons := [py "No HTML content available"];
          brand_detected := None; features := None;
          is_suspicious := false; confidence := py "LOW" |}.
Proof. reflexivity. Qed.

End Analyze.

End VisualEngineFacts.

(** * Facts about all engines *)

Module EngineFacts.
Import ExactFacts.
Local Open Scope Q_scope.
#[local] Existing Instance Exact | 0.

(** C1: in exact arithmetic every engine returns on every input, and the
    score it returns is in [0, 1]; so does the aggregator for every list
    of engine results. *)
Theorem engine_scores_in_range :
  (forall (extract_features : str -> result (@URLAnalyzer.Features Exact))
          (format_percent format_2f : Q -> str) (str_of_exn : exn -> str)
          (url : str),
     0 <= URLAnalyzer.r_score
            (URLAnalyzer.analyze extract_features format_percent format_2f
                                 str_of_exn url) <= 1)
  /\ (forall (unicode_lower : str -> str) (format_percent : Q -> str)
             (self : DomainChecker.DomainChecker) (domain : str),
        exists r,
          DomainChecker.analyze unicode_lower format_percent self domain
          = Ok r
          /\ 0 <= DomainChecker.score r <= 1)
  /\ (forall (re_search re_match : str -> re_flags -> str -> option (list str))
             (re_findall : str -> re_flags -> str -> list Found)
             (re_split : str -> str -> list str) (isupper : str -> bool)
             (unicode_lower : str -> str)
             (text subject sender content_type : str),
        exists r,
          NLPEngine.analyze re_search re_match re_findall re_split isupper
                            unicode_lower text subject sender content_type
          = Ok r
          /\ 0 <= NLPEngine.score r <= 1)
  /\ (forall (re_search : str -> re_flags -> str -> option (list str))
             (re_findall : str -> re_flags -> str -> list Found)
             (unicode_lower : str -> str)
             (html_content url page_title : str),
        exists r,
          VisualEngine.analyze re_search re_findall unicode_lower
                               html_content url page_title
          = Ok r
          /\ 0 <= VisualEngine.score r <= 1)
  /\ (forall (format_percent : Q -> str)
             (results : list (@RiskScorer.EngineResult Exact)),
        exists r,
          RiskScorer.calculate_risk format_percent results = Ok r
          /\ 0 <= RiskScorer.risk_score r <= 1).
Proof.
  split; [| split; [| split; [| split]]]; intros.
  - apply URLAnalyzerFacts.url_score_range.
  - destruct (DomainCheckerFacts.domain_analyze_returns
                unicode_lower format_percent self domain)
      as (r & Hr & Hrange & _).
    exists r. split; assumption.
  - destruct (NLPEngine.nonempty (NLPEngineFacts.full_text_of text subject))
      eqn:Hne.
    + destruct (NLPEngineFacts.nlp_analyze_nonempty
                  re_search re_match re_findall re_split isupper
                  unicode_lower text subject sender content_type Hne)
        as (r & _ & _ & _ & Hr & _ & _ & _ & _ & Hrange & _).
      exists r. split; assumption.
    + rewrite (NLPEngineFacts.nlp_analyze_empty
                 re_search re_match re_findall re_split isupper
                 unicode_lower text subject sender content_type Hne).
      eexists. split; [reflexivity |]. cbn. split; discriminate.
  - destruct (VisualEngineFacts.visual_analyze_returns
                re_search re_findall unicode_lower
                html_content url page_title)
      as (r & Hr & Hrange & _).
    exists r. split; assumption.
  - destruct (RiskScorerFacts.calculate_risk_fields format_percent results)
      as (r & Hr & Hs & _).
    exists r. split; [exact Hr |]. rewrite Hs.
    apply RiskScorerFacts.fused_range.
Qed.

(** C3 (amended): in exact arithmetic the flag is_suspicious of a result
    is its score compared with 0.5, for the domain, text and page engines
    on every input and for the URL engine whenever [extract_features]
    returns; when it raises, the URL engine returns the score 0.5 with LOW
    confidence and the flag set. *)
Theorem suspicious_flag_follows_score :
  (forall (extract_features : str -> result (@URLAnalyzer.Features Exact))
          (format_percent format_2f : Q -> str) (str_of_exn : exn -> str)
          (url : str),
     let r := URLAnalyzer.analyze extract_features format_percent format_2f
                                  str_of_exn url in
     match extract_features url with
     | Ok _ =>
         URLAnalyzer.is_suspicious r = Qltb (5 # 10) (URLAnalyzer.r_score r)
     | Raise _ =>
         URLAnalyzer.r_score r = 5 # 10
         /\ URLAnalyzer.confidence r = py "LOW"
         /\ URLAnalyzer.is_suspicious r = true
     end)
  /\ (forall (unicode_lower : str -> str) (format_percent : Q -> str)
             (self : DomainChecker.DomainChecker) (domain : str),
        exists r,
          DomainChecker.analyze unicode_lower format_percent self domain
          = Ok r
          /\ DomainChecker.is_suspicious r
             = Qltb (5 # 10) (DomainChecker.score r))
  /\ (forall (re_search re_match : str -> re_flags -> str -> option (list str))
             (re_findall : str -> re_flags -> str -> list Found)
             (re_split : str -> str -> list str) (isupper : str -> bool)
             (unicode_lower : str -> str)
             (text subject sender content_type : str),
        exists r,
          NLPEngine.analyze re_search re_match re_findall re_split isupper
                            unicode_lower text subject sender content_type
          = Ok r
          /\ NLPEngine.is_suspicious r = Qltb (5 # 10) (NLPEngine.score r))
  /\ (forall (re_search : str -> re_flags -> str -> option (list str))
             (re_findall : str -> re_flags -> str -> list Found)
             (unicode_lower : str -> str)
             (html_content url page_title : str),
        exists r,
          VisualEngine.analyze re_search re_findall unicode_lower
                               html_content url page_title
          = Ok r
          /\ VisualEngine.is_suspicious r
             = Qltb (5 # 10) (VisualEngine.score r)).
Proof.
  split; [| split; [| split]]; intros.
  - destruct (extract_features url) as [features | e] eqn:E.
    + exact (@URLAnalyzerFacts.url_suspicious_on_success
               extract_features format_percent format_2f str_of_exn
               url features E).
    + subst r.
      rewrite (@URLAnalyzerFacts.url_analyze_fallback
                 extract_features format_percent format_2f str_of_exn
                 url e E).
      repeat split.
  - destruct (DomainCheckerFacts.domain_analyze_returns
                unicode_lower format_percent self domain)
      as (r & Hr & _ & Hs).
    exists r. split; assumption.
  - destruct (NLPEngine.nonempty (NLPEngineFacts.full_text_of text subject))
      eqn:Hne.
    + destruct (NLPEngineFacts.nlp_analyze_nonempty
                  re_search re_match re_findall re_split isupper
                  unicode_lower text subject sender content_type Hne)
        as (r & _ & _ & _ & Hr & _ & _ & _ & _ & _ & Hs).
      exists r. split; assumption.
    + rewrite (NLPEngineFacts.nlp_analyze_empty
                 re_search re_match re_findall re_split isupper
                 unicode_lower text subject sender content_type Hne).
      eexists. split; reflexivity.
  - destruct (VisualEngineFacts.visual_analyze_returns
                re_search re_findall unicode_lower
                html_content url page_title)
      as (r & Hr & _ & Hs).
    exists r. split; assumption.
Qed.

(** The value of [extract_features] on a URL with an unclosed bracket in
    its host, such as http://[::1, for which [urlparse] raises ValueError
    (Invalid IPv6 URL). *)
Definition extract_features_raises {A : Arith} (url : str)
  : result (@URLAnalyzer.Features A) := Raise ValueError.

Definition invalid_ipv6 (e : exn) : str := py "Invalid IPv6 URL".

(** On such a URL the URL engine returns the score 0.5, which is not above
    0.5, with is_suspicious set, in binary64 as in exact arithmetic. *)
Lemma url_fallback_is_flagged :
  (let r := @URLAnalyzer.analyze Binary64 extract_features_raises
              (fun _ => []) (fun _ => []) invalid_ipv6 (py "http://[::1") in
   URLAnalyzer.r_score r = @dec Binary64 5 10
   /\ @ltb Binary64 (@dec Binary64 5 10) (URLAnalyzer.r_score r) = false
   /\ URLAnalyzer.is_suspicious r = true
   /\ URLAnalyzer.r_reasons r = [py "Analysis error: Invalid IPv6 URL"])
  /\ (let r := @URLAnalyzer.analyze Exact extract_features_raises
                 (fun _ => []) (fun _ => []) invalid_ipv6
                 (py "http://[::1") in
      URLAnalyzer.r_score r = 5 # 10
      /\ Qltb (5 # 10) (URLAnalyzer.r_score r) = false
      /\ URLAnalyzer.is_suspicious r = true).
Proof.
  split; cbv zeta; repeat split; vm_compute; reflexivity.
Qed.

End EngineFacts.

Module RiskScorerExtras.
Import RiskScorer ExactFacts RiskScorerFacts.
Local Open Scope Q_scope.
#[local] Existing Instance Exact | 0.

Lemma NoDup_firstn_of (T : Type) (n : nat) (l : list T) :
  NoDup l -> NoDup (firstn n l).
Proof.
  revert n. induction l as [| x l IH]; intros n H.
  - rewrite firstn_nil. constructor.
  - destruct n as [| n]; [constructor |].
    cbn. inversion H as [| ? ? Hx Hl]; subst.
    constructor; [| now apply IH].
    intro Hin. apply Hx. revert Hin. clear.
    revert n. induction l as [| y l IH]; intros n Hin.
    + rewrite firstn_nil in Hin. contradiction.
    + destruct n as [| n]; [contradiction |].
      cbn in Hin. destruct Hin as [-> | Hin]; [now left |].
      right. eapply IH. eassumption.
Qed.

Lemma In_firstn_of (T : Type) (n : nat) (l : list T) (x : T) :
  In x (firstn n l) -> In x l.
Proof.
  revert n. induction l as [| y l IH]; intros n Hin.
  - rewrite firstn_nil in Hin. contradiction.
  - destruct n as [| n]; [contradiction |].
    cbn in Hin. destruct Hin as [-> | Hin]; [now left |].
    right. eapply IH. eassumption.
Qed.

(** The reasons [calculate_risk] returns hold no string twice, are at
    most 15, and each one is a reason of one of the engine results or the
    message of the consensus boost. *)
Theorem risk_reasons_unique_capped (fmt : Q -> str)
  (l : list (@EngineResult Exact)) :
  exists r,
    calculate_risk fmt l = Ok r
    /\ NoDup (risk_reasons r)
    /\ (length (risk_reasons r) <= 15)%nat
    /\ forall x, In x (risk_reasons r) ->
         (exists e, In e l /\ In x (get (reasons e) []))
         \/ x = py "Multiple engines agree on high risk".
Proof.
  destruct (calculate_risk_fields fmt l) as (r & Hr & _).
  exists r. split; [exact Hr |].
  rewrite (calculate_risk_reasons fmt l Hr).
  split; [apply NoDup_firstn_of, dedup_NoDup |].
  split; [apply firstn_le_length |].
  intros x Hx. apply In_firstn_of in Hx. apply dedup_In in Hx.
  destruct Hx as [Hx _]. unfold collected in Hx.
  apply in_app_or in Hx. destruct Hx as [Hx | Hx].
  - left. apply in_concat in Hx. destruct Hx as (rs & Hrs & Hx).
    apply in_map_iff in Hrs. destruct Hrs as (e & <- & He).
    exists e. split; assumption.
  - right. destruct (3 <=? high_scores l)%Z; [| contradiction].
    destruct Hx as [<- | []]. reflexivity.
Qed.

(** The recommendation is one of the two warnings against interaction
    (CRITICAL, HIGH RISK) exactly when is_phishing is set: both compare the
    score with 0.6. *)
Theorem phishing_flag_matches_recommendation (fmt : Q -> str)
  (l : list (@EngineResult Exact)) :
  exists r,
    calculate_risk fmt l = Ok r
    /\ (is_phishing r = true <->
        startswith (recommendation r) (py "🚨 CRITICAL")
        || startswith (recommendation r) (py "⚠️ HIGH RISK") = true).
Proof.
  destruct (calculate_risk_fields fmt l)
    as (r & Hr & _ & _ & _ & _ & Hp & Hrec & _).
  exists r. split; [exact Hr |]. rewrite Hp, Hrec.
  generalize (risk_score r). intro s.
  unfold _get_recommendation.
  change (@ltb Exact (@dec Exact 8 10) s) with (Qltb (8 # 10) s).
  change (@ltb Exact (@dec Exact 6 10) s) with (Qltb (6 # 10) s).
  destruct (Qltb (8 # 10) s) eqn:E8.
  - assert (E6 : Qltb (6 # 10) s = true).
    { apply Qltb_lt. apply Qltb_lt in E8. lra. }
    rewrite E6. split; intros _; [vm_compute |]; reflexivity.
  - destruct (Qltb (6 # 10) s) eqn:E6.
    + split; intros _; [vm_compute |]; reflexivity.
    + destruct (@ltb Exact (@dec Exact 4 10) s);
        [| destruct (@ltb Exact (@dec Exact 2 10) s)];
        (split; [discriminate | vm_compute; discriminate]).
Qed.

End RiskScorerExtras.

Module DomainCheckerExtras.
Import DomainChecker ExactFacts DomainCheckerFacts.
Local Open Scope Q_scope.
#[local] Existing Instance Exact | 0.

(** ** Edit distance *)

(** Row [i] of the table: it has an entry for each column [0 .. n], and
    the entry of column [j] is between 0 and [max(i, j)]. *)
Definition row_ok (n : nat) (i : Z) (row : list Z) : Prop :=
  length row = S n
  /\ forall k, (k <= n)%nat ->
       (0 <= nth k row 0 <= Z.max i (Z.of_nat k))%Z.

Lemma lev_row_spec (c1 : N) (s2 : str) (prev : list Z) (last : Z)
  (i : Z) (j : nat) :
  (0 <= i)%Z ->
  length prev = S (length s2) ->
  (forall k, (k <= length s2)%nat ->
     (0 <= nth k prev 0 <= Z.max i (Z.of_nat (j + k)))%Z) ->
  (0 <= last <= Z.max (i + 1) (Z.of_nat j))%Z ->
  length (lev_row c1 s2 prev last) = length s2
  /\ forall k, (k < length s2)%nat ->
       (0 <= nth k (lev_row c1 s2 prev last) 0
        <= Z.max (i + 1) (Z.of_nat (j + k + 1)))%Z.
Proof.
  intro Hi. revert prev last j.
  induction s2 as [| c2 s2 IH]; intros prev last j Hlen Hprev Hlast.
  - cbn. split; [reflexivity | intros k Hk; lia].
  - destruct prev as [| pj [| pj1 prev']]; cbn in Hlen; try lia.
    cbn [lev_row].
    set (v := Z.min (Z.min (pj1 + 1) (last + 1))
                    (pj + (if N.eqb c1 c2 then 0 else 1))%Z).
    assert (Hpj : (0 <= pj <= Z.max i (Z.of_nat j))%Z).
    { specialize (Hprev 0%nat). cbn in Hprev.
      rewrite Nat.add_0_r in Hprev. apply Hprev. lia. }
    assert (Hpj1 : (0 <= pj1)%Z).
    { specialize (Hprev 1%nat). cbn in Hprev. apply Hprev. lia. }
    assert (Hv : (0 <= v <= Z.max (i + 1) (Z.of_nat (j + 1)))%Z).
    { unfold v. destruct (N.eqb c1 c2); lia. }
    destruct (IH (pj1 :: prev') v (S j)) as [Hl Hn].
    + cbn. lia.
    + intros k Hk. specialize (Hprev (S k)). cbn [nth] in Hprev.
      replace (S j + k)%nat with (j + S k)%nat by lia.
      apply Hprev. cbn. lia.
    + replace (Z.of_nat (S j)) with (Z.of_nat (j + 1)) by lia. exact Hv.
    + split; [cbn; now rewrite Hl |].
      intros [| k] Hk; cbn [nth].
      * rewrite Nat.add_0_r. exact Hv.
      * replace (j + S k + 1)%nat with (S j + k + 1)%nat by lia.
        apply Hn. cbn in Hk. lia.
Qed.

Lemma lev_step_ok (s2 : str) (i : Z) (c1 : N) (row : list Z) :
  (0 <= i)%Z -> row_ok (length s2) i row ->
  row_ok (length s2) (i + 1) ((i + 1)%Z :: lev_row c1 s2 row (i + 1)%Z).
Proof.
  intros Hi [Hlen Hrow].
  destruct (@lev_row_spec c1 s2 row (i + 1)%Z i 0%nat Hi Hlen) as [Hl Hn].
  - intros k Hk. cbn. apply Hrow. exact Hk.
  - cbn. lia.
  - split; [cbn; now rewrite Hl |].
    intros [| k] Hk; cbn [nth].
    + lia.
    + specialize (Hn k). cbn in Hn.
      replace (Z.of_nat (S k)) with (Z.of_nat (k + 1)) by lia.
      apply Hn. lia.
Qed.

Lemma lev_fold_ok (s2 : str) (s1 : str) (i : Z) (row : list Z) :
  (0 <= i)%Z -> row_ok (length s2) i row ->
  row_ok (length s2) (i + Z.of_nat (length s1))
    (fold_left
       (fun prev_row ic =>
          let '(i, c1) := ic in
          (i + 1)%Z :: lev_row c1 s2 prev_row (i + 1)%Z)
       (enumerate i s1) row).
Proof.
  revert i row. induction s1 as [| c1 s1 IH]; intros i row Hi Hrow.
  - cbn. now rewrite Z.add_0_r.
  - cbn [enumerate fold_left length].
    replace (i + Z.of_nat (S (length s1)))%Z
      with (i + 1 + Z.of_nat (length s1))%Z by lia.
    apply IH; [lia |]. now apply lev_step_ok.
Qed.

Lemma first_row_ok (n : nat) : row_ok n 0 (map Z.of_nat (seq 0 (S n))).
Proof.
  split; [now rewrite length_map, length_seq |].
  intros k Hk.
  rewrite (nth_indep _ 0%Z (Z.of_nat 0)) by (rewrite length_map, length_seq; lia).
  rewrite map_nth, seq_nth by lia. lia.
Qed.

Lemma last_nth (l : list Z) (d : Z) :
  last l d = nth (length l - 1) l d.
Proof.
  induction l as [| x [| y l] IH]; [reflexivity | reflexivity |].
  change (last (x :: y :: l) d) with (last (y :: l) d).
  rewrite IH. cbn. now rewrite Nat.sub_0_r.
Qed.

Lemma lev_rows_bounds (s1 s2 : str) :
  (0 <= lev_rows s1 s2
   <= Z.max (Z.of_nat (length s1)) (Z.of_nat (length s2)))%Z.
Proof.
  unfold lev_rows. destruct s2 as [| c2 s2]; [lia |].
  cbv zeta.
  destruct (@lev_fold_ok (c2 :: s2) s1 0%Z
              (map Z.of_nat (seq 0 (S (length (c2 :: s2))))))
    as [Hlen Hrow]; [lia | apply first_row_ok |].
  rewrite last_nth, Hlen.
  replace (S (length (c2 :: s2)) - 1)%nat with (length (c2 :: s2)) by lia.
  specialize (Hrow (length (c2 :: s2))). cbn [Z.add] in Hrow.
  apply Hrow. lia.
Qed.

(** The edit distance is between 0 and the length of the longer string. *)
Lemma levenshtein_bounds (s1 s2 : str) :
  (0 <= _levenshtein_distance s1 s2
   <= Z.max (Z.of_nat (length s1)) (Z.of_nat (length s2)))%Z.
Proof.
  unfold _levenshtein_distance.
  destruct (length s1 <? length s2)%nat.
  - rewrite Z.max_comm. apply lev_rows_bounds.
  - apply lev_rows_bounds.
Qed.

Lemma similarity_bounds (s1 s2 : str) :
  exists v, @_calculate_similarity Exact s1 s2 = Ok v /\ 0 <= v /\ v <= 1.
Proof.
  unfold _calculate_similarity.
  pose proof (levenshtein_bounds s1 s2) as Hd.
  set (m := Z.max (Z.of_nat (length s1)) (Z.of_nat (length s2))) in *.
  destruct (m =? 0)%Z eqn:E.
  - eexists. split; [reflexivity |]. split; discriminate.
  - apply Z.eqb_neq in E. cbn [div Exact of_int]. unfold Qdiv_py.
    rewrite (inject_Z_nonzero E). cbn [bind]. eexists.
    split; [reflexivity |].
    assert (Hm : (0 < m)%Z) by lia.
    assert (R : forall d : Z, (0 <= d <= m)%Z ->
                0 <= inject_Z 1 - inject_Z d / inject_Z m
                /\ inject_Z 1 - inject_Z d / inject_Z m <= 1).
    { intros d Hdm.
      assert (Hq : 0 <= inject_Z d / inject_Z m <= 1).
      { split.
        - apply Qle_shift_div_l.
          + change 0 with (inject_Z 0). rewrite <- Zlt_Qlt. exact Hm.
          + rewrite Qmult_0_l. change 0 with (inject_Z 0).
            rewrite <- Zle_Qle. lia.
        - apply Qle_shift_div_r.
          + change 0 with (inject_Z 0). rewrite <- Zlt_Qlt. exact Hm.
          + rewrite Qmult_1_l. rewrite <- Zle_Qle. lia. }
      change (inject_Z 1) with 1. lra. }
    apply R. exact Hd.
Qed.

(** [_calculate_similarity] returns on every pair of strings, with a
    value between 0 and 1; two empty strings are fully similar, and a
    string and the empty string are not similar at all. *)
Theorem similarity_in_unit_interval (s1 s2 : str) :
  exists v,
    @_calculate_similarity Exact s1 s2 = Ok v
    /\ 0 <= v <= 1
    /\ (s1 = [] -> s2 = [] -> v == 1)
    /\ (s1 <> [] -> s2 = [] -> v == 0).
Proof.
  unfold _calculate_similarity.
  pose proof (levenshtein_bounds s1 s2) as Hd.
  set (m := Z.max (Z.of_nat (length s1)) (Z.of_nat (length s2))) in *.
  destruct (m =? 0)%Z eqn:E.
  - eexists. split; [reflexivity |]. split; [split; discriminate |].
    split; [reflexivity |].
    intros H1 _. apply Z.eqb_eq in E. subst m.
    destruct s1; [congruence |]. cbn [length] in E. lia.
  - apply Z.eqb_neq in E. cbn [div Exact of_int]. unfold Qdiv_py.
    rewrite (inject_Z_nonzero E). cbn [bind]. eexists.
    split; [reflexivity |].
    assert (Hm : (0 < m)%Z) by lia.
    assert (R : forall d : Z, (0 <= d <= m)%Z ->
                0 <= inject_Z 1 - inject_Z d / inject_Z m <= 1).
    { intros d Hdm.
      assert (Hq : 0 <= inject_Z d / inject_Z m <= 1).
      { split.
        - apply Qle_shift_div_l.
          + change 0 with (inject_Z 0). rewrite <- Zlt_Qlt. exact Hm.
          + rewrite Qmult_0_l. change 0 with (inject_Z 0).
            rewrite <- Zle_Qle. lia.
        - apply Qle_shift_div_r.
          + change 0 with (inject_Z 0). rewrite <- Zlt_Qlt. exact Hm.
          + rewrite Qmult_1_l. rewrite <- Zle_Qle. lia. }
      change (inject_Z 1) with 1. lra. }
    split; [apply R; exact Hd |].
    split.
    + intros -> ->. cbn in E. congruence.
    + intros H1 ->. unfold _levenshtein_distance.
      destruct s1 as [| c s1]; [congruence |].
      cbn [length Nat.ltb Nat.leb lev_rows].
      subst m. cbn [length]. rewrite Z.max_l by lia.
      assert (R0 : forall n : Z, (0 < n)%Z ->
                   inject_Z 1 - inject_Z n / inject_Z n == 0).
      { intros n Hn. change (inject_Z 1) with 1. field.
        intro H. unfold Qeq in H. cbn in H. lia. }
      apply R0. lia.
Qed.

(** The edit distance is at least 0 and at most the length of the longer
    string; against the empty string it is the length of the other one. *)
Theorem edit_distance_bounds (s1 s2 : str) :
  (0 <= _levenshtein_distance s1 s2
   <= Z.max (Z.of_nat (length s1)) (Z.of_nat (length s2)))%Z
  /\ _levenshtein_distance s1 [] = Z.of_nat (length s1)
  /\ _levenshtein_distance [] s2 = Z.of_nat (length s2).
Proof.
  split; [apply levenshtein_bounds |]. split.
  - unfold _levenshtein_distance. reflexivity.
  - unfold _levenshtein_distance. destruct s2; reflexivity.
Qed.

(** ** The list of similar domains *)

(** [a] comes before [b] when sorted by similarity, largest first. *)
Definition before (a b : @Match Exact) : Prop :=
  similarity b <= similarity a.

Lemma insert_desc_sorted (x : @Match Exact) (l : list Match) :
  Sorted before l -> Sorted before (insert_desc x l).
Proof.
  induction l as [| y l IH]; intro H; cbn [insert_desc].
  - repeat constructor.
  - change (@leb Exact (similarity x) (similarity y))
      with (Qle_bool (similarity x) (similarity y)).
    destruct (Qle_bool (similarity x) (similarity y)) eqn:E.
    + apply Qle_bool_iff in E.
      inversion H as [| ? ? Hs Hh]; subst.
      constructor; [now apply IH |].
      destruct l as [| z l]; cbn [insert_desc].
      * constructor. exact E.
      * change (@leb Exact (similarity x) (similarity z))
          with (Qle_bool (similarity x) (similarity z)).
        destruct (Qle_bool (similarity x) (similarity z)).
        -- constructor. inversion Hh; subst. assumption.
        -- constructor. exact E.
    + constructor; [exact H |]. constructor. unfold before.
      apply Qlt_le_weak. apply Qnot_le_lt. intro Hle.
      apply Qle_bool_iff in Hle. congruence.
Qed.

Lemma insert_desc_perm (x : @Match Exact) (l : list Match) :
  Permutation (insert_desc x l) (x :: l).
Proof.
  induction l as [| y l IH]; cbn [insert_desc]; [reflexivity |].
  destruct (leb _ _); [| reflexivity].
  rewrite IH. apply perm_swap.
Qed.

Lemma sort_desc_spec (l acc : list (@Match Exact)) :
  Sorted before acc ->
  Sorted before (fold_left (fun sorted x => insert_desc x sorted) l acc)
  /\ Permutation (fold_left (fun sorted x => insert_desc x sorted) l acc)
                 (acc ++ l).
Proof.
  revert acc. induction l as [| x l IH]; intros acc H; cbn [fold_left].
  - split; [exact H | now rewrite app_nil_r].
  - destruct (IH (insert_desc x acc) (insert_desc_sorted x H)) as [Hs Hp].
    split; [exact Hs |]. rewrite Hp.
    transitivity ((x :: acc) ++ l);
      [apply Permutation_app_tail, insert_desc_perm
      | apply Permutation_middle].
Qed.

(** What [_find_similar_domains] records of a match. *)
Definition recorded (self : DomainChecker) (m : @Match Exact) : Prop :=
  In (m_domain m) (legitimate_domains self)
  /\ 5 # 10 <= similarity m <= 1
  /\ (0 <= edit_distance m)%Z.

Lemma round4_value_at_least (x : Q) (n : Z) :
  (0 <= n)%Z -> inject_Z n / (10000 # 1) <= x ->
  inject_Z n / (10000 # 1) <= round4_value x.
Proof.
  intros Hn Hx. unfold round4_value.
  assert (H0 : 0 <= x).
  { eapply Qle_trans; [| exact Hx].
    unfold Qle, Qdiv, Qmult, Qinv, inject_Z. cbn. lia. }
  assert (Hx' : inject_Z n <= x * inject_Z 10000).
  { unfold Qle, Qdiv, Qmult, Qinv, inject_Z in *. cbn in *. lia. }
  assert (Hx0 : 0 <= x * inject_Z 10000).
  { apply Qmult_le_0_compat; [assumption | discriminate]. }
  pose proof (Qtrunc_ge Hx' Hx0) as Ht. revert Ht.
  generalize (Qtrunc (x * inject_Z 10000)). intros t Ht.
  unfold Qle, Qdiv, Qmult, Qinv, inject_Z. cbn. lia.
Qed.

(** [_find_similar_domains] returns on every input.  The list it returns
    is sorted by similarity, largest first; every entry names a domain of
    the list of legitimate domains, with a similarity between 0.5 and 1
    and an edit distance that is not negative. *)
Theorem similar_domains_sorted (self : DomainChecker) (d : str) :
  exists sims,
    @_find_similar_domains Exact self d = Ok sims
    /\ Sorted before sims
    /\ Forall (recorded self) sims.
Proof.
  unfold _find_similar_domains.
  match goal with
  | |- context [fold_left ?F ?P (Ok [])] => set (f := F); set (pairs := P)
  end.
  assert (Hpairs : forall pair, In pair pairs ->
                     In (fst pair) (legitimate_domains self)).
  { intros [legit check] Hin. subst pairs. apply in_flat_map in Hin.
    destruct Hin as (legit' & Hl & Hin). apply in_map_iff in Hin.
    destruct Hin as (c & Heq & _). injection Heq as <- <-. exact Hl. }
  assert (Hstep : forall acc pair,
            In (fst pair) (legitimate_domains self) ->
            Forall (recorded self) acc ->
            exists acc', f (Ok acc) pair = Ok acc'
                         /\ Forall (recorded self) acc').
  { intros acc [legit check] Hl Hacc. unfold f. cbn [bind].
    destruct (similarity_bounds check legit) as (v & -> & Hv0 & Hv1).
    cbn [bind].
    change (@ltb Exact (@dec Exact 5 10) v) with (Qltb (5 # 10) v).
    destruct (Qltb (5 # 10) v) eqn:E.
    - rewrite round4_exact. cbn [bind]. eexists. split; [reflexivity |].
      apply Forall_app. split; [exact Hacc |]. constructor; [| constructor].
      split; [exact Hl |]. cbn [similarity edit_distance]. split.
      + split.
        * apply Qltb_lt in E.
          assert (Hh : inject_Z 5000 / (10000 # 1) == 5 # 10) by reflexivity.
          rewrite <- Hh.
          apply (@round4_value_at_least v 5000); [lia |].
          rewrite Hh. apply Qlt_le_weak. exact E.
        * apply round4_value_range. split; assumption.
      + apply levenshtein_bounds.
    - eexists. split; [reflexivity | exact Hacc]. }
  assert (Hfold : forall l acc,
            (forall pair, In pair l ->
               In (fst pair) (legitimate_domains self)) ->
            Forall (recorded self) acc ->
            exists sims, fold_left f l (Ok acc) = Ok sims
                         /\ Forall (recorded self) sims).
  { induction l as [| pair l IH]; intros acc Hl Hacc; cbn [fold_left].
    - eexists. split; [reflexivity | exact Hacc].
    - destruct (Hstep acc pair (Hl pair (or_introl eq_refl)) Hacc)
        as (acc' & -> & Hacc').
      apply IH; [| exact Hacc'].
      intros p Hp. apply Hl. now right. }
  destruct (Hfold pairs [] Hpairs (Forall_nil _)) as (sims & -> & Hsims).
  cbn [bind]. eexists. split; [reflexivity |].
  unfold sort_desc.
  destruct (@sort_desc_spec sims [] (Sorted_nil _)) as [Hs Hp].
  split; [exact Hs |].
  rewrite Forall_forall in *. intros m Hm. apply Hsims.
  eapply Permutation_in; [exact Hp | exact Hm].
Qed.

(** ** Homoglyphs *)

(** Whether the reverse map has a non-empty entry for a character. *)
Definition is_glyph (self : DomainChecker) (c : N) : bool :=
  match dict_get (reverse_homoglyph self) [c] [] with
  | [] => false
  | _ :: _ => true
  end.

(** The character [_detect_homoglyphs] writes for [c]. *)
Definition normal (self : DomainChecker) (c : N) : str :=
  match dict_get (reverse_homoglyph self) [c] [] with
  | [] => [c]
  | x :: l => x :: l
  end.

(** The body of the loop of [_detect_homoglyphs]. *)
Definition detect_step (self : DomainChecker)
  (st : list Homoglyph * list str) (char : str)
  : list Homoglyph * list str :=
  let '(found, normalized) := st in
  let lookup := dict_get (reverse_homoglyph self) char [] in
  match lookup with
  | _ :: _ =>
      (found ++ [{| original := char; looks_like := lookup;
                    position := Z.of_nat (length normalized) |}],
       normalized ++ [lookup])
  | [] => (found, normalized ++ [char])
  end.

Lemma detect_loop (self : DomainChecker) (s : str)
  (found : list Homoglyph) (normalized : list str) :
  let st := fold_left (detect_step self) (chars s) (found, normalized) in
  length (fst st) = (length found + length (filter (is_glyph self) s))%nat
  /\ snd st = normalized ++ map (normal self) s
  /\ (forall h, In h (fst st) ->
        In h found
        \/ (Z.of_nat (length normalized) <= position h
            < Z.of_nat (length normalized + length s))%Z).
Proof.
  revert found normalized.
  induction s as [| c s IH]; intros found normalized.
  - cbn. rewrite Nat.add_0_r, app_nil_r. repeat split. intros h Hh. now left.
  - change (chars (c :: s)) with ([c] :: chars s). cbn [fold_left].
    unfold is_glyph, normal. cbn [filter map].
    destruct (dict_get (reverse_homoglyph self) [c] []) as [| x l] eqn:E.
    + replace (detect_step self (found, normalized) [c])
        with (found, normalized ++ [[c]])
        by (unfold detect_step; cbv zeta; now rewrite E).
      specialize (IH found (normalized ++ [[c]])). cbv zeta in IH.
      destruct IH as (Hl & Hn & Hp).
      split; [exact Hl |]. split.
      * rewrite Hn, <- app_assoc. reflexivity.
      * intros h Hh. destruct (Hp h Hh) as [Hf | Hpos]; [now left |].
        right. rewrite length_app in Hpos. cbn [length] in *. lia.
    + replace (detect_step self (found, normalized) [c])
        with (found ++ [{| original := [c]; looks_like := x :: l;
                           position := Z.of_nat (length normalized) |}],
              normalized ++ [x :: l])
        by (unfold detect_step; cbv zeta; now rewrite E).
      specialize (IH (found ++ [{| original := [c]; looks_like := x :: l;
                                  position := Z.of_nat (length normalized) |}])
                     (normalized ++ [x :: l])).
      cbv zeta in IH. destruct IH as (Hl & Hn & Hp).
      split; [rewrite Hl, length_app; cbv beta iota; cbn [length];
              fold (is_glyph self); lia |].
      split.
      * rewrite Hn, <- app_assoc. reflexivity.
      * intros h Hh. destruct (Hp h Hh) as [Hf | Hpos].
        -- apply in_app_or in Hf. destruct Hf as [Hf | [<- | []]];
             [now left |].
           right. cbn [position length]. lia.
        -- right. rewrite length_app in Hpos. cbn [length] in *. lia.
Qed.

Lemma join_chars (s : str) : join [] (chars s) = s.
Proof.
  induction s as [| c [| c' s] IH]; [reflexivity | reflexivity |].
  change (chars (c :: c' :: s)) with ([c] :: chars (c' :: s)).
  change (join [] ([c] :: chars (c' :: s)))
    with ([c] ++ [] ++ join [] (chars (c' :: s))).
  rewrite IH. reflexivity.
Qed.

Lemma filter_nil_iff (T : Type) (f : T -> bool) (l : list T) :
  filter f l = [] <-> existsb f l = false.
Proof.
  induction l as [| x l IH]; cbn; [tauto |].
  destruct (f x); cbn; [split; discriminate | exact IH].
Qed.

(** [_detect_homoglyphs] counts the characters of the domain that have an
    entry in the reverse map and reports a homoglyph exactly when there is
    one; when there is none, the normalized domain is the domain itself
    and no detail is given. *)
Lemma homoglyphs_counted_aux (self : DomainChecker) (d : str) :
  let r := _detect_homoglyphs self d in
  count r = Z.of_nat (length (filter (is_glyph self) d))
  /\ has_homoglyphs r = existsb (is_glyph self) d
  /\ (has_homoglyphs r = false ->
      normalized_domain r = d /\ details r = []).
Proof.
  unfold _detect_homoglyphs.
  pose proof (@detect_loop self d [] []) as H. cbv zeta in H.
  unfold detect_step in H.
  destruct (fold_left _ (chars d) ([], [])) as [found normalized].
  cbn [fst snd length Nat.add app] in H. destruct H as (Hl & Hn & _).
  cbv zeta. cbn [count has_homoglyphs normalized_domain details].
  rewrite Hl. split; [reflexivity |].
  assert (Hx : (0 <? Z.of_nat (length (filter (is_glyph self) d)))%Z
               = existsb (is_glyph self) d).
  { destruct (existsb (is_glyph self) d) eqn:E.
    - apply Z.ltb_lt.
      destruct (filter (is_glyph self) d) eqn:F; [| cbn; lia].
      apply filter_nil_iff in F. congruence.
    - apply filter_nil_iff in E. now rewrite E. }
  split; [exact Hx |].
  rewrite Hx. intro E. apply filter_nil_iff in E.
  rewrite E in Hl. destruct found; [| discriminate]. split; [| reflexivity].
  subst normalized. apply filter_nil_iff in E.
  replace (map (normal self) d) with (chars d); [apply join_chars |].
  unfold chars. apply map_ext_in. intros c Hc.
  assert (Hg : is_glyph self c = false).
  { destruct (is_glyph self c) eqn:G; [| reflexivity].
    assert (existsb (is_glyph self) d = true).
    { apply existsb_exists. exists c. split; assumption. }
    congruence. }
  unfold is_glyph in Hg. unfold normal.
  destruct (dict_get (reverse_homoglyph self) [c] []); [reflexivity |].
  discriminate.
Qed.

(** [_detect_homoglyphs] counts the characters of the domain that have an
    entry in the reverse map and reports a homoglyph exactly when there is
    one; when there is none, the normalized domain is the domain itself
    and no detail is given. *)
Theorem homoglyphs_counted (self : DomainChecker) (d : str) :
  let r := _detect_homoglyphs self d in
  count r = Z.of_nat (length (filter (is_glyph self) d))
  /\ has_homoglyphs r = existsb (is_glyph self) d
  /\ (has_homoglyphs r = false ->
      normalized_domain r = d /\ details r = []).
Proof.
  cbv zeta.
  destruct (homoglyphs_counted_aux self d) as (Hcount & Hflag & Hsame).
  split; [exact Hcount |].
  split; [exact Hflag |].
  intro Hnone. destruct (Hsame Hnone) as [Hd Hdetails].
  split; [exact Hd | exact Hdetails].
Qed.

(** Lowercase ASCII letters, the dot and the hyphen. *)
Definition plain (c : N) : bool :=
  ((97 <=? c) && (c <=? 122) || (c =? 46) || (c =? 45))%N.

Lemma dict_get_absent (V : Type) (d : list (str * V)) (k : str) (def : V) :
  forallb (fun kv => negb (str_eqb k (fst kv))) d = true ->
  dict_get d k def = def.
Proof.
  induction d as [| [k' v] d IH]; cbn; [reflexivity |].
  destruct (str_eqb k k'); cbn; [discriminate | exact IH].
Qed.

(** No key of the reverse map that [__init__] builds is a plain
    character. *)
Lemma reverse_map_keys :
  forallb (fun kv => match fst kv with
                     | [h] => negb (plain h)
                     | _ => true
                     end) _build_homoglyph_reverse_map = true.
Proof. vm_compute. reflexivity. Qed.

Lemma plain_not_glyph (legit : option (list str)) (c : N) :
  plain c = true -> is_glyph (init legit) c = false.
Proof.
  intro Hc. unfold is_glyph, init. cbn [reverse_homoglyph].
  rewrite dict_get_absent; [reflexivity |].
  pose proof reverse_map_keys as H. rewrite forallb_forall in *.
  intros [k v] Hin. specialize (H _ Hin). cbn [fst] in *.
  destruct (str_eqb [c] k) eqn:E; [| reflexivity].
  apply str_eqb_eq in E. subst k. rewrite Hc in H. discriminate.
Qed.

(** A domain written with lowercase ASCII letters, dots and hyphens only
    is never reported to hold a homoglyph by a checker built by
    [__init__], and its normalized form is the domain itself. *)
Theorem plain_domain_has_no_homoglyph (legit : option (list str))
  (d : str) :
  forallb plain d = true ->
  let r := _detect_homoglyphs (init legit) d in
  has_homoglyphs r = false /\ count r = 0%Z /\ normalized_domain r = d.
Proof.
  intro Hd.
  destruct (homoglyphs_counted_aux (init legit) d) as (Hc & Hh & Hn).
  assert (E : existsb (is_glyph (init legit)) d = false).
  { apply not_true_is_false. intro H. apply existsb_exists in H.
    destruct H as (c & Hin & Hg). rewrite forallb_forall in Hd.
    rewrite (plain_not_glyph legit c (Hd c Hin)) in Hg. discriminate. }
  cbv zeta. rewrite Hh, Hc. split; [exact E |]. split.
  - apply filter_nil_iff in E. now rewrite E.
  - apply Hn. rewrite Hh. exact E.
Qed.

(** The default checker on my-shop.example.org. *)
Lemma plain_domain_has_no_homoglyph_witness :
  let r := _detect_homoglyphs (init None) (py "my-shop.example.org") in
  has_homoglyphs r = false /\ count r = 0%Z
  /\ normalized_domain r = py "my-shop.example.org".
Proof.
  apply (@plain_domain_has_no_homoglyph None (py "my-shop.example.org")).
  vm_compute. reflexivity.
Defined.

(** ** Normalization of the input *)

Lemma split_aux_nonempty (fuel : nat) (sep cur s : str) :
  split_aux fuel sep cur s <> [].
Proof.
  destruct fuel as [| fuel]; cbn; [discriminate |].
  destruct s as [| c s]; [discriminate |].
  destruct (startswith (c :: s) sep); [discriminate |].
  revert fuel cur c. induction s as [| c' s IH]; intros fuel cur c.
  - destruct fuel; cbn; discriminate.
  - destruct fuel as [| fuel]; cbn [split_aux]; [discriminate |].
    destruct (startswith (c' :: s) sep); [discriminate | apply IH].
Qed.

Lemma startswith_single (c x : N) (s : str) :
  startswith (x :: s) [c] = N.eqb c x.
Proof. cbn. destruct s; apply andb_true_r. Qed.

(** The first piece of a split at one character: it holds no such
    character, and its characters are characters of the string. *)
Lemma split_char_head (c : N) (fuel : nat) (cur s : str) :
  (length s < fuel)%nat -> ~ In c cur ->
  let h := hd [] (split_aux fuel [c] cur s) in
  ~ In c h /\ forall x, In x h -> In x cur \/ In x s.
Proof.
  revert fuel cur. induction s as [| x s IH]; intros fuel cur Hf Hc.
  - destruct fuel as [| fuel]; [cbn in Hf; lia |]. cbn.
    split.
    + intro H. apply in_rev in H. contradiction.
    + intros y Hy. left. now apply in_rev.
  - destruct fuel as [| fuel]; [cbn in Hf; lia |].
    cbn [split_aux]. rewrite startswith_single.
    destruct (N.eqb c x) eqn:E.
    + cbn [hd]. split.
      * intro H. apply in_rev in H. contradiction.
      * intros y Hy. left. now apply in_rev.
    + apply N.eqb_neq in E.
      destruct (IH fuel (x :: cur)) as [H1 H2].
      * cbn in Hf. lia.
      * intros [H | H]; [congruence | contradiction].
      * split; [exact H1 |].
        intros y Hy. destruct (H2 y Hy) as [[<- | H] | H].
        -- right. now left.
        -- now left.
        -- right. now right.
Qed.

Lemma hd_split_char (c : N) (s : str) :
  ~ In c (hd [] (split s [c]))
  /\ forall x, In x (hd [] (split s [c])) -> In x s.
Proof.
  destruct (@split_char_head c (S (length s)) [] s) as [H1 H2];
    [lia | intros [] |].
  split; [exact H1 |].
  intros x Hx. destruct (H2 x Hx) as [[] | H]. exact H.
Qed.

Lemma In_skipn_of (T : Type) (n : nat) (l : list T) (x : T) :
  In x (skipn n l) -> In x l.
Proof.
  revert l. induction n as [| n IH]; intros l H; [exact H |].
  destruct l as [| y l]; [contradiction |]. right. now apply IH.
Qed.

(** Where the separator occurs, [split] gives at least two pieces. *)
Lemma split_aux_two (sep : str) (fuel : nat) (cur s : str) :
  sep <> [] -> (length s < fuel)%nat -> contains s sep = true ->
  (2 <= length (split_aux fuel sep cur s))%nat.
Proof.
  intro Hsep. revert fuel cur.
  induction s as [| x s IH]; intros fuel cur Hf Hc.
  - cbn in Hc. destruct sep; [congruence | discriminate].
  - destruct fuel as [| fuel]; [cbn in Hf; lia |].
    cbn [split_aux]. cbn [contains] in Hc.
    destruct (startswith (x :: s) sep) eqn:E.
    + cbn [length].
      pose proof (@split_aux_nonempty fuel sep []
                    (skipn (length sep) (x :: s))) as Hn.
      destruct (split_aux fuel sep [] (skipn (length sep) (x :: s)));
        [congruence | cbn; lia].
    + cbn [orb] in Hc. apply IH; [cbn in Hf; lia | exact Hc].
Qed.

Section CleanDomain.
Variable unicode_lower : str -> str.

(** The domain [_clean_domain] returns holds no slash and no colon, and
    the index 1 it reads after splitting at :// is always in range. *)
Theorem clean_domain_is_bare (input : str) :
  ~ In 47%N (_clean_domain unicode_lower input)
  /\ ~ In 58%N (_clean_domain unicode_lower input)
  /\ (forall s : str,
        contains s (py "://") = true ->
        (1 < length (split s (py "://")))%nat).
Proof.
  unfold _clean_domain. cbv zeta.
  set (d0 := if contains _ _ then _ else _).
  change (py "/") with [47%N]. change (py ":") with [58%N].
  assert (H47 : ~ In 47%N (hd [] (split (hd [] (split d0 [47%N])) [58%N]))).
  { intro H.
    destruct (hd_split_char 58 (hd [] (split d0 [47%N]))) as [_ Hsub].
    apply Hsub in H.
    destruct (hd_split_char 47 d0) as [Hno _]. contradiction. }
  assert (H58 : ~ In 58%N (hd [] (split (hd [] (split d0 [47%N])) [58%N]))).
  { apply hd_split_char. }
  split; [| split].
  - destruct (startswith _ _); [| exact H47].
    intro H. apply In_skipn_of in H. contradiction.
  - destruct (startswith _ _); [| exact H58].
    intro H. apply In_skipn_of in H. contradiction.
  - intros s Hs. unfold split.
    apply (@split_aux_two (py "://") (S (length s)) [] s);
      [discriminate | lia | exact Hs].
Qed.

End CleanDomain.

End DomainCheckerExtras.
